(** * Asset cataloguing workflow: title derivation, response parsing,
      configuration paths, label naming and the commit step.

    A shallow embedding of the Python sources
      src/ui/main_window.py, src/llm/analyze_image.py, src/llm/llm_manager.py,
      src/config/settings.py, src/qrcode_module/qrcode_generator.py,
      src/elabftw/elab_manager.py
    and the properties of the specification that are stated about them.

    Conventions of the embedding.
    - A Python [str] is a [string]; a character is a code point in 0..255
      and the [str] methods are given on that range as CPython computes them.
    - A value decoded from JSON is a [json]; a Python [dict] keeps its
      insertion order and is an association list with unique keys, read with
      [dict_get] and written with [dict_set].
    - A Python [int] is a [Z], and its decimal text has no length limit.
    - A Python call that can raise returns an [outcome].
    - A function of the program whose result can lie outside these types
      (a decoded float, a text that the text field shows in a way the
      model does not follow) returns an [option], and [None] stands for
      such a result: about it the model says nothing. *)

From Stdlib Require Import String Ascii List ZArith NArith Lia Bool.
From Stdlib Require Import DecimalString DecimalZ DecimalPos DecimalFacts.
Import ListNotations.
Local Open Scope string_scope.

(** ** Python strings *)

Module PyStr.

Definition code (c : ascii) : N := N_of_ascii c.

Definition between (lo hi n : N) : bool := ((lo <=? n) && (n <=? hi))%N.

(** [str.isspace] on one character. *)
Definition isspace (c : ascii) : bool :=
  let n := code c in
  between 9 13 n || between 28 32 n || (n =? 133)%N || (n =? 160)%N.

(** [str.lower] on one character. *)
Definition lower_char (c : ascii) : ascii :=
  let n := code c in
  if between 65 90 n || (between 192 222 n && negb (n =? 215)%N)
  then ascii_of_N (n + 32) else c.

(** [str.isalnum] on one character. *)
Definition isalnum (c : ascii) : bool :=
  let n := code c in
  between 48 57 n || between 65 90 n || between 97 122 n
  || (n =? 170)%N || (n =? 178)%N || (n =? 179)%N || (n =? 181)%N
  || (n =? 185)%N || (n =? 186)%N || between 188 190 n
  || between 192 214 n || between 216 246 n || between 248 255 n.

Fixpoint lower (s : string) : string :=
  match s with
  | EmptyString => EmptyString
  | String c r => String (lower_char c) (lower r)
  end.

Fixpoint lstrip (s : string) : string :=
  match s with
  | EmptyString => EmptyString
  | String c r => if isspace c then lstrip r else s
  end.

Fixpoint rstrip (s : string) : string :=
  match s with
  | EmptyString => EmptyString
  | String c r =>
      match rstrip r with
      | EmptyString => if isspace c then EmptyString else String c EmptyString
      | r' => String c r'
      end
  end.

Definition strip (s : string) : string := rstrip (lstrip s).

Definition nonempty (s : string) : bool :=
  match s with EmptyString => false | _ => true end.

Fixpoint startswith (s p : string) {struct p} : bool :=
  match p with
  | EmptyString => true
  | String a p' =>
      match s with
      | EmptyString => false
      | String b s' => (a =? b)%char && startswith s' p'
      end
  end.

Fixpoint endswith (s p : string) : bool :=
  (s =? p) || match s with
              | EmptyString => false
              | String _ r => endswith r p
              end.

(** [p in s] for two strings. *)
Fixpoint contains (s p : string) : bool :=
  startswith s p || match s with
                    | EmptyString => false
                    | String _ r => contains r p
                    end.

(** [c in s] for a single character. *)
Fixpoint has_char (s : string) (c : ascii) : bool :=
  match s with
  | EmptyString => false
  | String d r => (d =? c)%char || has_char r c
  end.

(** [s.replace(a, b)] for single characters. *)
Fixpoint replace_char (a b : ascii) (s : string) : string :=
  match s with
  | EmptyString => EmptyString
  | String c r => String (if (c =? a)%char then b else c) (replace_char a b r)
  end.

(** [s.split(c)]: never empty, one more piece than separators. *)
Fixpoint split (c : ascii) (s : string) : list string :=
  match s with
  | EmptyString => [EmptyString]
  | String d r =>
      if (d =? c)%char then EmptyString :: split c r
      else match split c r with
           | p :: ps => String d p :: ps
           | [] => [String d EmptyString]
           end
  end.

(** [s.split(c, 1)] when [c in s]: the text before and after the first
    separator. *)
Fixpoint split_once (c : ascii) (s : string) : string * string :=
  match s with
  | EmptyString => (EmptyString, EmptyString)
  | String d r =>
      if (d =? c)%char then (EmptyString, r)
      else let '(a, b) := split_once c r in (String d a, b)
  end.

(** [s.split(sep)[0]]: the text before the first occurrence of [sep]
    (all of [s] when there is none); [sep] is not empty. *)
Fixpoint before (sep s : string) : string :=
  if startswith s sep then EmptyString
  else match s with
       | EmptyString => EmptyString
       | String c r => String c (before sep r)
       end.

(** [s.find(c)]: index of the first [c], or -1. *)
Fixpoint find (c : ascii) (s : string) : Z :=
  match s with
  | EmptyString => (-1)%Z
  | String d r =>
      if (d =? c)%char then 0%Z
      else let i := find c r in if (i <? 0)%Z then (-1)%Z else (i + 1)%Z
  end.

(** [s.rfind(c)]: index of the last [c], or -1. *)
Fixpoint rfind (c : ascii) (s : string) : Z :=
  match s with
  | EmptyString => (-1)%Z
  | String d r =>
      let i := rfind c r in
      if (0 <=? i)%Z then (i + 1)%Z
      else if (d =? c)%char then 0%Z else (-1)%Z
  end.

(** [s[a:b]] for indices [0 <= a] and [0 <= b]. *)
Definition slice (s : string) (a b : Z) : string :=
  String.substring (Z.to_nat a) (Z.to_nat (b - a)) s.

(** [str(n)] for an [int]. *)
Definition of_int (z : Z) : string := NilEmpty.string_of_int (Z.to_int z).

End PyStr.

(** ** JSON values and Python dictionaries *)

(** Numbers are Python [int]s; floats are outside the modelled fragment. *)
Unset Elimination Schemes.
Inductive json : Type :=
| JNull
| JBool (b : bool)
| JNum (z : Z)
| JStr (s : string)
| JList (l : list json)
| JDict (d : list (string * json)).
Set Elimination Schemes.

Definition dict := list (string * json).

Fixpoint dict_get (d : dict) (k : string) : option json :=
  match d with
  | [] => None
  | (k', v) :: r => if (k' =? k) then Some v else dict_get r k
  end.

Definition dict_has (d : dict) (k : string) : bool :=
  match dict_get d k with Some _ => true | None => false end.

(** [d[k] = v]: an existing key keeps its place, a new key goes last. *)
Fixpoint dict_set (d : dict) (k : string) (v : json) : dict :=
  match d with
  | [] => [(k, v)]
  | (k', v') :: r =>
      if (k' =? k) then (k', v) :: r else (k', v') :: dict_set r k v
  end.

Fixpoint distinct (ks : list string) : bool :=
  match ks with
  | [] => true
  | k :: r => negb (existsb (String.eqb k) r) && distinct r
  end.

(** A value that Python can hold: no dictionary in it has a key twice. *)
Fixpoint unique_keys (v : json) : bool :=
  match v with
  | JList l => forallb unique_keys l
  | JDict d =>
      distinct (map fst d) && forallb (fun kv => let '(_, x) := kv in unique_keys x) d
  | _ => true
  end.

(** Truth value of a decoded JSON value in a Python condition. *)
Definition truthy (v : json) : bool :=
  match v with
  | JNull => false
  | JBool b => b
  | JNum z => negb (z =? 0)%Z
  | JStr s => PyStr.nonempty s
  | JList l => match l with [] => false | _ => true end
  | JDict d => match d with [] => false | _ => true end
  end.

(** ** Exceptions *)

Inductive exn : Type :=
| AttributeError
| KeyError
| TypeError
| ValueError
| LibraryError.   (* raised by the code or image library, or by the file system *)

Inductive outcome (A : Type) : Type :=
| Ok (a : A)
| Raise (e : exn).
Arguments Ok {A} a.
Arguments Raise {A} e.

Definition bind {A B} (m : outcome A) (f : A -> outcome B) : outcome B :=
  match m with
  | Ok a => f a
  | Raise e => Raise e
  end.

Notation "x <- m ;; f" := (bind m (fun x => f))
  (at level 61, m at next level, right associativity).

(** [k in v]. *)
Definition py_in (k : string) (v : json) : outcome bool :=
  match v with
  | JDict d => Ok (dict_has d k)
  | JList l =>
      Ok (existsb (fun e => match e with JStr s => (s =? k) | _ => false end) l)
  | JStr s => Ok (PyStr.contains s k)
  | _ => Raise TypeError
  end.

(** [v[k]] for a string [k]. *)
Definition py_getitem (v : json) (k : string) : outcome json :=
  match v with
  | JDict d => match dict_get d k with Some x => Ok x | None => Raise KeyError end
  | _ => Raise TypeError
  end.

(** [v.lower()] and [v.strip()]: only a [str] has these methods. *)
Definition py_lower (v : json) : outcome string :=
  match v with JStr s => Ok (PyStr.lower s) | _ => Raise AttributeError end.

Definition py_strip (v : json) : outcome string :=
  match v with JStr s => Ok (PyStr.strip s) | _ => Raise AttributeError end.

Definition isinstance_dict (v : json) : bool :=
  match v with JDict _ => true | _ => false end.

(** ** Title derivation: [MainWindow.update_asset_title_from_result] *)

Definition name_fields : list string :=
  ["name"; "asset_name"; "chemical_name"; "equipment_name";
   "reagent_name"; "product_name"; "title"].

(** The first block of the function: [Some t] when it returns [t] from the
    summary section, [None] when control falls to the detailed fields. *)
Definition summary_title (result : json) : outcome (option string) :=
  has_summary <- py_in "summary" result ;;
  if has_summary then
    summary <- py_getitem result "summary" ;;
    if isinstance_dict summary then
      has_name <- py_in "asset_name" summary ;;
      if has_name then
        a <- py_getitem summary "asset_name" ;;
        if truthy a then
          l <- py_lower a ;;
          if negb (l =? "unknown") then
            name_value <- py_strip a ;;
            if PyStr.nonempty name_value then Ok (Some name_value)
            else Ok None
          else Ok None
        else Ok None
      else Ok None
    else Ok None
  else Ok None.

(** The loop over [name_fields], ending in the default title. *)
Fixpoint scan_fields (fields : list string) (result : json) : outcome string :=
  match fields with
  | [] => Ok "Untitled Asset"
  | field :: rest =>
      present <- py_in field result ;;
      if present then
        v <- py_getitem result field ;;
        if truthy v then
          l <- py_lower v ;;
          if negb (l =? "unknown") then
            name_value <- py_strip v ;;
            if PyStr.nonempty name_value
               && negb (PyStr.lower name_value =? "unknown")
            then Ok name_value
            else scan_fields rest result
          else scan_fields rest result
        else scan_fields rest result
      else scan_fields rest result
  end.

Definition update_asset_title_from_result (result : json) : outcome string :=
  s <- summary_title result ;;
  match s with
  | Some title => Ok title
  | None => scan_fields name_fields result
  end.

(** ** The [json] module of the Python library

    [json.dumps] with its default arguments and [json.loads].  The values
    of the model are those of the fragment of JSON whose numbers are
    integers and whose strings hold code points below 256.  [json.loads]
    accepts more (a float literal, [NaN], [Infinity], an escape above 255):
    [loads] tells such a text apart from a text that is not JSON, and gives
    no value for it. *)

Module Json.

Definition dquote : ascii := ascii_of_N 34.
Definition backslash : ascii := ascii_of_N 92.

(** A JSON text written with ['] where JSON has the double quote. *)
Definition text (s : string) : string := PyStr.replace_char "'" dquote s.

Definition hex_digit (n : N) : ascii :=
  if (n <? 10)%N then ascii_of_N (48 + n) else ascii_of_N (87 + n).

Definition hex_value (c : ascii) : option N :=
  let n := PyStr.code c in
  if PyStr.between 48 57 n then Some (n - 48)%N
  else if PyStr.between 97 102 n then Some (n - 87)%N
  else if PyStr.between 65 70 n then Some (n - 55)%N
  else None.

(** One character of a string, as [ensure_ascii=True] writes it. *)
Definition escape_char (c : ascii) : string :=
  let n := PyStr.code c in
  if (c =? dquote)%char then String backslash (String dquote EmptyString)
  else if (c =? backslash)%char then String backslash (String backslash EmptyString)
  else if (n =? 10)%N then String backslash "n"
  else if (n =? 13)%N then String backslash "r"
  else if (n =? 9)%N then String backslash "t"
  else if (n =? 8)%N then String backslash "b"
  else if (n =? 12)%N then String backslash "f"
  else if PyStr.between 32 126 n then String c EmptyString
  else String backslash
         (String "u" (String "0" (String "0"
            (String (hex_digit (n / 16)) (String (hex_digit (n mod 16)) EmptyString))))).

Fixpoint escape (s : string) : string :=
  match s with
  | EmptyString => EmptyString
  | String c r => escape_char c ++ escape r
  end.

Definition dumps_str (s : string) : string :=
  String dquote (escape s ++ String dquote EmptyString).

Fixpoint dumps (v : json) : string :=
  match v with
  | JNull => "null"
  | JBool true => "true"
  | JBool false => "false"
  | JNum z => PyStr.of_int z
  | JStr s => dumps_str s
  | JList l =>
      "[" ++ (fix items (l : list json) : string :=
                match l with
                | [] => EmptyString
                | [x] => dumps x
                | x :: r => dumps x ++ ", " ++ items r
                end) l ++ "]"
  | JDict d =>
      "{" ++ (fix members (d : list (string * json)) : string :=
                match d with
                | [] => EmptyString
                | [(k, x)] => dumps_str k ++ ": " ++ dumps x
                | (k, x) :: r => dumps_str k ++ ": " ++ dumps x ++ ", " ++ members r
                end) d ++ "}"
  end.

(** The decoder. *)

Definition is_ws (c : ascii) : bool :=
  let n := PyStr.code c in
  (n =? 32)%N || (n =? 9)%N || (n =? 10)%N || (n =? 13)%N.

Fixpoint skip_ws (s : string) : string :=
  match s with
  | EmptyString => EmptyString
  | String c r => if is_ws c then skip_ws r else s
  end.

Definition unescape (e : ascii) : option ascii :=
  if (e =? dquote)%char then Some dquote
  else if (e =? backslash)%char then Some backslash
  else if (e =? "/")%char then Some "/"%char
  else if (e =? "b")%char then Some (ascii_of_N 8)
  else if (e =? "f")%char then Some (ascii_of_N 12)
  else if (e =? "n")%char then Some (ascii_of_N 10)
  else if (e =? "r")%char then Some (ascii_of_N 13)
  else if (e =? "t")%char then Some (ascii_of_N 9)
  else None.

Definition hex4 (a b c d : ascii) : option N :=
  match hex_value a, hex_value b, hex_value c, hex_value d with
  | Some x, Some y, Some z, Some w => Some (((x * 16 + y) * 16 + z) * 16 + w)%N
  | _, _, _, _ => None
  end.

(** The body of a string, after its opening quote: the decoded value and
    the text after the closing quote. *)
Fixpoint scan_string (s : string) : option (string * string) :=
  match s with
  | EmptyString => None
  | String c r =>
      if (c =? dquote)%char then Some (EmptyString, r)
      else if (c =? backslash)%char then
        match r with
        | EmptyString => None
        | String e r1 =>
            if (e =? "u")%char then
              match r1 with
              | String h1 (String h2 (String h3 (String h4 r2))) =>
                  match hex4 h1 h2 h3 h4 with
                  | Some n =>
                      if (n <? 256)%N then
                        match scan_string r2 with
                        | Some (t, r3) => Some (String (ascii_of_N n) t, r3)
                        | None => None
                        end
                      else None
                  | None => None
                  end
              | _ => None
              end
            else
              match unescape e with
              | Some d =>
                  match scan_string r1 with
                  | Some (t, r3) => Some (String d t, r3)
                  | None => None
                  end
              | None => None
              end
        end
      else if (PyStr.code c <? 32)%N then None
      else
        match scan_string r with
        | Some (t, r3) => Some (String c t, r3)
        | None => None
        end
  end.

Definition isdigit (c : ascii) : bool := PyStr.between 48 57 (PyStr.code c).

Fixpoint span_digits (s : string) : string * string :=
  match s with
  | EmptyString => (EmptyString, EmptyString)
  | String c r =>
      if isdigit c then let '(d, t) := span_digits r in (String c d, t)
      else (EmptyString, s)
  end.

(** A character that makes the digits before it a float literal, or is an
    error in every place an integer can stand. *)
Definition float_mark (s : string) : bool :=
  match s with
  | String c _ => (c =? ".")%char || (c =? "e")%char || (c =? "E")%char
  | EmptyString => false
  end.

(** A zero followed by more digits is not a JSON number. *)
Definition leading_zero (ds : string) : bool :=
  match ds with
  | String c (String _ _) => (c =? "0")%char
  | _ => false
  end.

Definition scan_int (neg : bool) (s : string) : option (json * string) :=
  let '(ds, rest) := span_digits s in
  if negb (PyStr.nonempty ds) || leading_zero ds || float_mark rest then None
  else match NilEmpty.uint_of_string ds with
       | Some u =>
           let n := Z.of_N (N.of_uint u) in
           Some (JNum (if neg then (- n)%Z else n), rest)
       | None => None
       end.

Fixpoint drop_prefix (p s : string) : option string :=
  match p, s with
  | EmptyString, _ => Some s
  | String a p', String b s' => if (a =? b)%char then drop_prefix p' s' else None
  | String _ _, EmptyString => None
  end.

(** The text after the character [c], when the text starts with it. *)
Definition peek (c : ascii) (s : string) : option string :=
  match s with
  | String d r => if (d =? c)%char then Some r else None
  | EmptyString => None
  end.

(** [dict(pairs)]: a repeated key keeps its first place and its last
    value. *)
Definition dict_of_pairs (ps : list (string * json)) : dict :=
  fold_left (fun d kv => dict_set d (fst kv) (snd kv)) ps [].

Fixpoint parse_value (fuel : nat) (s : string) : option (json * string) :=
  match fuel with
  | O => None
  | S f =>
      match s with
      | EmptyString => None
      | String c r =>
          if (c =? dquote)%char then
            match scan_string r with
            | Some (t, r1) => Some (JStr t, r1)
            | None => None
            end
          else if (c =? "{")%char then
            match peek "}" (skip_ws r) with
            | Some r1 => Some (JDict [], r1)
            | None =>
                match parse_members f (skip_ws r) with
                | Some (ps, r2) => Some (JDict (dict_of_pairs ps), r2)
                | None => None
                end
            end
          else if (c =? "[")%char then
            match peek "]" (skip_ws r) with
            | Some r1 => Some (JList [], r1)
            | None =>
                match parse_elems f (skip_ws r) with
                | Some (vs, r2) => Some (JList vs, r2)
                | None => None
                end
            end
          else if (c =? "n")%char then
            match drop_prefix "ull" r with
            | Some r1 => Some (JNull, r1)
            | None => None
            end
          else if (c =? "t")%char then
            match drop_prefix "rue" r with
            | Some r1 => Some (JBool true, r1)
            | None => None
            end
          else if (c =? "f")%char then
            match drop_prefix "alse" r with
            | Some r1 => Some (JBool false, r1)
            | None => None
            end
          else if (c =? "-")%char then scan_int true r
          else scan_int false s
      end
  end
with parse_elems (fuel : nat) (s : string) : option (list json * string) :=
  match fuel with
  | O => None
  | S f =>
      match parse_value f s with
      | Some (v, r) =>
          match peek "," (skip_ws r) with
          | Some r1 =>
              match parse_elems f (skip_ws r1) with
              | Some (vs, r2) => Some (v :: vs, r2)
              | None => None
              end
          | None =>
              match peek "]" (skip_ws r) with
              | Some r1 => Some ([v], r1)
              | None => None
              end
          end
      | None => None
      end
  end
with parse_members (fuel : nat) (s : string)
     : option (list (string * json) * string) :=
  match fuel with
  | O => None
  | S f =>
      match peek dquote s with
      | Some r =>
          match scan_string r with
          | Some (k, r1) =>
              match peek ":" (skip_ws r1) with
              | Some r2 =>
                  match parse_value f (skip_ws r2) with
                  | Some (v, r3) =>
                      match peek "," (skip_ws r3) with
                      | Some r4 =>
                          match parse_members f (skip_ws r4) with
                          | Some (ps, r5) => Some ((k, v) :: ps, r5)
                          | None => None
                          end
                      | None =>
                          match peek "}" (skip_ws r3) with
                          | Some r4 => Some ([(k, v)], r4)
                          | None => None
                          end
                      end
                  | None => None
                  end
              | None => None
              end
          | None => None
          end
      | None => None
      end
  end.

(** The decoder on the fragment: one value between optional white space,
    and nothing after it.  The recursion is bounded by the length of the
    text, which is enough for every text ([read_bound]). *)
Definition read (s : string) : option json :=
  match parse_value (S (String.length s)) (skip_ws s) with
  | Some (v, r) =>
      match skip_ws r with
      | EmptyString => Some v
      | _ => None
      end
  | None => None
  end.

(** The whole grammar that [json.loads] accepts.  The functions below
    follow the scanner of the decoder and keep no value: each returns the
    text after what it has passed over. *)

(** The body of a string: any escape [\uXXXX] is accepted. *)
Fixpoint skip_string (s : string) : option string :=
  match s with
  | EmptyString => None
  | String c r =>
      if (c =? dquote)%char then Some r
      else if (c =? backslash)%char then
        match r with
        | EmptyString => None
        | String e r1 =>
            if (e =? "u")%char then
              match r1 with
              | String h1 (String h2 (String h3 (String h4 r2))) =>
                  match hex4 h1 h2 h3 h4 with
                  | Some _ => skip_string r2
                  | None => None
                  end
              | _ => None
              end
            else
              match unescape e with
              | Some _ => skip_string r1
              | None => None
              end
        end
      else if (PyStr.code c <? 32)%N then None
      else skip_string r
  end.

Definition starts_digit (s : string) : bool :=
  match s with
  | String c _ => isdigit c
  | EmptyString => false
  end.

Definition skip_digits (s : string) : string := snd (span_digits s).

(** The fraction of a number: a point followed by at least one digit. *)
Definition skip_frac (s : string) : string :=
  match s with
  | String c r =>
      if (c =? ".")%char && starts_digit r then skip_digits r else s
  | EmptyString => s
  end.

Definition skip_sign (s : string) : string :=
  match s with
  | String c r => if (c =? "+")%char || (c =? "-")%char then r else s
  | EmptyString => s
  end.

(** The exponent of a number: [e] or [E], an optional sign and at least
    one digit. *)
Definition skip_exp (s : string) : string :=
  match s with
  | String c r =>
      if ((c =? "e")%char || (c =? "E")%char) && starts_digit (skip_sign r)
      then skip_digits (skip_sign r) else s
  | EmptyString => s
  end.

(** A number after its sign: [0] or a digit other than [0] followed by
    digits, then an optional fraction and an optional exponent. *)
Definition skip_number (s : string) : option string :=
  match s with
  | String c r =>
      if (c =? "0")%char then Some (skip_exp (skip_frac r))
      else if isdigit c then Some (skip_exp (skip_frac (skip_digits r)))
      else None
  | EmptyString => None
  end.

Fixpoint skip_value (fuel : nat) (s : string) : option string :=
  match fuel with
  | O => None
  | S f =>
      match s with
      | EmptyString => None
      | String c r =>
          if (c =? dquote)%char then skip_string r
          else if (c =? "{")%char then
            match peek "}" (skip_ws r) with
            | Some r1 => Some r1
            | None => skip_members f (skip_ws r)
            end
          else if (c =? "[")%char then
            match peek "]" (skip_ws r) with
            | Some r1 => Some r1
            | None => skip_elems f (skip_ws r)
            end
          else if (c =? "n")%char then drop_prefix "ull" r
          else if (c =? "t")%char then drop_prefix "rue" r
          else if (c =? "f")%char then drop_prefix "alse" r
          else if (c =? "N")%char then drop_prefix "aN" r
          else if (c =? "I")%char then drop_prefix "nfinity" r
          else if (c =? "-")%char then
            match drop_prefix "Infinity" r with
            | Some r1 => Some r1
            | None => skip_number r
            end
          else skip_number s
      end
  end
with skip_elems (fuel : nat) (s : string) : option string :=
  match fuel with
  | O => None
  | S f =>
      match skip_value f s with
      | Some r =>
          match peek "," (skip_ws r) with
          | Some r1 => skip_elems f (skip_ws r1)
          | None => peek "]" (skip_ws r)
          end
      | None => None
      end
  end
with skip_members (fuel : nat) (s : string) : option string :=
  match fuel with
  | O => None
  | S f =>
      match peek dquote s with
      | Some r =>
          match skip_string r with
          | Some r1 =>
              match peek ":" (skip_ws r1) with
              | Some r2 =>
                  match skip_value f (skip_ws r2) with
                  | Some r3 =>
                      match peek "," (skip_ws r3) with
                      | Some r4 => skip_members f (skip_ws r4)
                      | None => peek "}" (skip_ws r3)
                      end
                  | None => None
                  end
              | None => None
              end
          | None => None
          end
      | None => None
      end
  end.

(** The text is one JSON value between optional white space.  The bound
    is enough for every text ([valid_bound]). *)
Definition valid (s : string) : bool :=
  match skip_value (S (String.length s)) (skip_ws s) with
  | Some r => match skip_ws r with EmptyString => true | _ => false end
  | None => false
  end.

(** What [json.loads] does with a text. *)
Inductive decoded : Type :=
| Decoded (v : json)   (* it returns [v], a value of the fragment *)
| JSONDecodeError      (* it raises: the text is not JSON *)
| Beyond.              (* it returns a value that is not of the fragment *)

(** [json.loads].  The limits that the interpreter puts on the digits of
    an integer and on the depth of the recursion are settings of the
    interpreter and have no part here. *)
Definition loads (s : string) : decoded :=
  match read s with
  | Some v => Decoded v
  | None => if valid s then Beyond else JSONDecodeError
  end.

(** The text between the brackets of a list and between the braces of a
    dictionary, as [dumps] writes them. *)
Fixpoint dumps_items (l : list json) : string :=
  match l with
  | [] => EmptyString
  | [x] => dumps x
  | x :: r => dumps x ++ ", " ++ dumps_items r
  end.

Fixpoint dumps_members (d : list (string * json)) : string :=
  match d with
  | [] => EmptyString
  | [(k, x)] => dumps_str k ++ ": " ++ dumps x
  | (k, x) :: r => dumps_str k ++ ": " ++ dumps x ++ ", " ++ dumps_members r
  end.

End Json.

(** ** Response parsing: [parse_llm_response] of src/llm/analyze_image.py *)

Definition newline : ascii := ascii_of_N 10.

(** The argument is a [dict] or a [str]. *)
Inductive llm_response : Type :=
| Mapping (d : dict)
| Text (s : string).

(** [template_id] is [None] or an [int]; [if template_id:] holds for a
    non-zero [int]. *)
Definition id_truthy (t : option Z) : bool :=
  match t with
  | Some z => negb (z =? 0)%Z
  | None => false
  end.

(** One turn of the loop over the lines. *)
Definition parse_line (result : dict) (line : string) : dict :=
  if PyStr.has_char line ":" then
    let '(key, value) := PyStr.split_once ":" line in
    let key := PyStr.replace_char " " "_" (PyStr.lower (PyStr.strip key)) in
    let value := PyStr.strip value in
    dict_set result key (JStr value)
  else result.

Definition parse_lines (text : string) : dict :=
  fold_left parse_line (PyStr.split newline (PyStr.strip text)) [].

(** The first [try] of [parse_llm_response]. *)
Inductive first_try : Type :=
| Returns (result : json)   (* [return result] *)
| Passes                    (* the test fails, or [JSONDecodeError] is caught *)
| Unmodelled.               (* [return result], on a value that is not of the fragment *)

(** [response.strip().startswith('{') and response.strip().endswith('}')]. *)
Definition between_braces (text : string) : bool :=
  PyStr.startswith (PyStr.strip text) "{" && PyStr.endswith (PyStr.strip text) "}".

Definition try_json (text : string) : first_try :=
  if between_braces text
  then match Json.loads text with
       | Json.Decoded result => Returns result
       | Json.JSONDecodeError => Passes
       | Json.Beyond => Unmodelled
       end
  else Passes.

(** The statements after the first [try]: the lines, the placeholder name
    and the template id. *)
Definition line_result (text : string) (template_id : option Z) : dict :=
  let result := parse_lines text in
  let result :=
    if negb (dict_has result "name") && negb (dict_has result "asset_name")
    then dict_set result "asset_name" (JStr "Unnamed Asset")
    else result in
  match template_id with
  | Some z => if id_truthy template_id
              then dict_set result "template_id" (JNum z) else result
  | None => result
  end.

(** [parse_llm_response]: the value returned, [None] when it is not a
    value of the fragment. *)
Definition parse_llm_response (r : llm_response) (template_id : option Z)
  : option json :=
  match r with
  | Mapping d => Some (JDict d)
  | Text text =>
      match try_json text with
      | Returns result => Some result
      | Passes => Some (JDict (line_result text template_id))
      | Unmodelled => None
      end
  end.

(** ** The vision clients of src/llm/llm_manager.py

    What [AnthropicLLM.analyze_image] (and, with the same text,
    [OllamaLLM.analyze_image]) does with the text [content] of the model's
    reply, and what [OpenAILLM.analyze_image] does with it: the value
    returned, [None] when it is not a value of the fragment. *)

Module AnthropicLLM.

Definition raw_text (content : string) : json :=
  JDict [("raw_text", JStr content)].

Definition analyze_image (content : string) : option json :=
  let json_start := PyStr.find "{" content in
  let json_end := PyStr.rfind "}" content in
  if (0 <=? json_start)%Z && (0 <=? json_end)%Z then
    let json_str := PyStr.slice content json_start (json_end + 1) in
    match Json.loads json_str with
    | Json.Decoded parsed_content => Some parsed_content
    | Json.JSONDecodeError => Some (raw_text content)
    | Json.Beyond => None
    end
  else Some (raw_text content).

End AnthropicLLM.

Module OpenAILLM.

Definition analyze_image (content : string) : option json :=
  match Json.loads content with
  | Json.Decoded parsed_content => Some parsed_content
  | Json.JSONDecodeError => Some (AnthropicLLM.raw_text content)
  | Json.Beyond => None
  end.

End OpenAILLM.

(** ** Configuration paths: [ConfigManager] of src/config/settings.py *)

Module ConfigManager.

(** The loop [value = value[key]]. *)
Fixpoint walk (value : json) (keys : list string) : outcome json :=
  match keys with
  | [] => Ok value
  | key :: rest => v <- py_getitem value key ;; walk v rest
  end.

Definition get_value (config : json) (key_path : string) (default : json)
  : outcome json :=
  match walk config (PyStr.split "." key_path) with
  | Ok value => Ok value
  | Raise KeyError => Ok default
  | Raise TypeError => Ok default
  | Raise e => Raise e
  end.

(** The loop over [keys[:-1]] followed by [d[keys[-1]] = value], on the
    dictionary [d]. *)
Fixpoint set_path (d : dict) (keys : list string) (value : json) : dict :=
  match keys with
  | [] => d
  | [last] => dict_set d last value
  | key :: rest =>
      let sub := match dict_get d key with
                 | Some (JDict sd) => sd
                 | _ => []
                 end in
      dict_set d key (JDict (set_path sub rest value))
  end.

(** [set_value]: the new [self.config] and the returned flag.  [saved]
    is what [save_config] returns.  On a [self.config] that is not a
    [dict] the first statement that touches it raises, nothing is
    changed and the flag is [False]. *)
Definition set_value (saved : bool) (config : json) (key_path : string)
           (value : json) : json * bool :=
  match config with
  | JDict d => (JDict (set_path d (PyStr.split "." key_path) value), saved)
  | _ => (config, false)
  end.

End ConfigManager.

(** ** Labels: [QRCodeGenerator] of src/qrcode_module/qrcode_generator.py

    The code library, the image library and the file system are outside
    the model.  A rendered label is the text its code encodes, the caption
    drawn and the path of the file; whether [qrcode.make] makes a code of
    a text and whether [Image.save] writes a path (it does not when the
    directory cannot be written, or when the name has no extension that
    the image library knows) is given with the generator.  The font is
    taken to have a glyph for every character of a [str] of the model.
    What the two functions do when one of their own statements raises is
    modelled: the result [(False, message)]. *)

(** [v.get(k, default)]. *)
Definition py_get (v : json) (k : string) (default : json) : outcome json :=
  match v with
  | JDict d => Ok (match dict_get d k with Some x => x | None => default end)
  | _ => Raise AttributeError
  end.

Module QRCodeGenerator.

Record t : Type :=
  { output_dir : string;
    base_url : string;
    encodes : string -> bool;   (* [qrcode.make(data)] returns a code *)
    saves : string -> bool }.   (* [image.save(file_path)] writes the file *)

Record label : Type :=
  { qr_data : option string; caption : string; file_path : string }.

(** [__init__]: the base URL from the loaded configuration. *)
Definition init_base_url (config : json) : outcome string :=
  e <- py_get config "elabftw" (JDict []) ;;
  api_url <- py_get e "api_url" (JStr "") ;;
  has_api <- py_in "/api/" api_url ;;
  if has_api then
    match api_url with
    | JStr s => Ok (PyStr.before "/api/" s)
    | _ => Raise AttributeError
    end
  else Ok "https://elab.local".

(** [QRCodeGenerator(output_dir)], on the configuration that
    [load_config] returns, where the libraries behave as [make] and
    [save] tell. *)
Definition init (make save : string -> bool) (dir : string) (config : json)
  : outcome t :=
  b <- init_base_url config ;;
  Ok {| output_dir := dir; base_url := b; encodes := make; saves := save |}.

(** [asset_info.get("title", default)], which the callers draw and
    iterate as a [str]. *)
Definition title_or (asset_info : dict) (default : string) : outcome string :=
  match dict_get asset_info "title" with
  | None => Ok default
  | Some (JStr s) => Ok s
  | Some _ => Raise TypeError
  end.

(** [draw.textlength(text)] raises [ValueError] on a text of more than
    one line. *)
Definition textlength (text : string) : outcome unit :=
  if PyStr.has_char text newline then Raise ValueError else Ok tt.

(** [c.isalnum() or c in "_ -"]. *)
Definition keep_char (c : ascii) : bool :=
  PyStr.isalnum c || PyStr.has_char "_ -" c.

(** ["".join(c for c in asset_name if c.isalnum() or c in "_ -")]. *)
Fixpoint sanitize (s : string) : string :=
  match s with
  | EmptyString => EmptyString
  | String c r => if keep_char c then String c (sanitize r) else sanitize r
  end.

(** [if not filename.lower().endswith(".png"): filename += ".png"]. *)
Definition ensure_png (filename : string) : string :=
  if PyStr.endswith (PyStr.lower filename) ".png" then filename
  else filename ++ ".png".

(** [os.path.join] of two components. *)
Definition path_join (a b : string) : string :=
  if PyStr.startswith b "/" then b
  else if negb (PyStr.nonempty a) || PyStr.endswith a "/" then a ++ b
  else a ++ "/" ++ b.

(** [qr_data] of [create_asset_qrcode]. *)
Definition asset_qr_data (g : t) (asset_id : Z) : string :=
  base_url g ++ "/database.php?mode=view&id=" ++ PyStr.of_int asset_id.

(** The file name of [create_asset_qrcode]: the one supplied, or the one
    made from the title, with the extension ensured. *)
Definition asset_filename (asset_id : Z) (asset_info : dict)
           (filename : option string) : outcome string :=
  match filename with
  | Some f => Ok (ensure_png f)
  | None =>
      asset_name <- title_or asset_info ("asset_" ++ PyStr.of_int asset_id) ;;
      Ok (ensure_png (sanitize asset_name ++ "_" ++ PyStr.of_int asset_id ++ ".png"))
  end.

(** [image.save(file_path)]. *)
Definition save (g : t) (path : string) : outcome unit :=
  if saves g path then Ok tt else Raise LibraryError.

(** [create_asset_qrcode]: [Ok l] for the result [(True, file_path)] with
    the label [l] saved, [Raise] for the result [(False, message)] that the
    function returns when one of its statements raises: the code cannot
    be made, the title is not a [str] or has more than one line, or the
    file cannot be saved. *)
Definition create_asset_qrcode (g : t) (asset_id : Z) (asset_info : dict)
           (filename : option string) : outcome label :=
  let data := asset_qr_data g asset_id in
  if negb (encodes g data) then Raise LibraryError
  else
    asset_title <- title_or asset_info ("Asset #" ++ PyStr.of_int asset_id) ;;
    _ <- textlength asset_title ;;
    f <- asset_filename asset_id asset_info filename ;;
    let path := path_join (output_dir g) f in
    _ <- save g path ;;
    Ok {| qr_data := Some data; caption := asset_title; file_path := path |}.

(** [qr_data] of [create_label]. *)
Definition label_qr_data (asset_id : Z) : string :=
  "https://elab.local/database.php?mode=view&id=" ++ PyStr.of_int asset_id.

Definition is_complex (value : json) : bool :=
  match value with
  | JDict _ | JList _ => true
  | _ => false
  end.

(** The text [f"{field_name}: {value}"] of a field has a line break when
    the key has one or when the value is a string that has one:
    [replace] and [title] leave a line break where it is. *)
Definition field_breaks (key : string) (value : json) : bool :=
  PyStr.has_char key newline
  || match value with
     | JStr s => PyStr.has_char s newline
     | _ => false
     end.

(** The loop over [asset_info.items()] of [create_label], for the height
    200 of the default [label_size]: a field is measured and drawn at
    [y_pos], and the loop ends when the next place is below the label. *)
Fixpoint draw_fields (y_pos : Z) (fields : dict) : outcome unit :=
  match fields with
  | [] => Ok tt
  | (key, value) :: rest =>
      if (key =? "title") || (key =? "category") then draw_fields y_pos rest
      else if is_complex value then draw_fields y_pos rest
      else if field_breaks key value then Raise ValueError
      else
        let y_pos := (y_pos + 20)%Z in
        if (200 - 10 <=? y_pos)%Z then Ok tt else draw_fields y_pos rest
  end.

(** The file name of [create_label]. *)
Definition label_filename (asset_id : Z) (asset_info : dict)
           (filename : option string) : outcome string :=
  match filename with
  | Some f => Ok (ensure_png f)
  | None =>
      asset_name <- title_or asset_info ("asset_" ++ PyStr.of_int asset_id) ;;
      Ok (ensure_png (sanitize asset_name ++ "_" ++ PyStr.of_int asset_id
                      ++ "_label.png"))
  end.

(** [create_label] with the default [label_size], as its callers use it;
    the lines drawn under the title (id, category and the scalar fields)
    are not part of [label].  The result is [(False, message)] when the
    code cannot be made, the title is not a [str], a drawn field has more
    than one line, or the file cannot be saved. *)
Definition create_label (g : t) (asset_id : Z) (asset_info : dict)
           (include_qrcode : bool) (filename : option string) : outcome label :=
  let data := if include_qrcode then Some (label_qr_data asset_id) else None in
  if include_qrcode && negb (encodes g (label_qr_data asset_id))
  then Raise LibraryError
  else
    asset_title <- title_or asset_info ("Asset #" ++ PyStr.of_int asset_id) ;;
    _ <- draw_fields 80 asset_info ;;
    f <- label_filename asset_id asset_info filename ;;
    let path := path_join (output_dir g) f in
    _ <- save g path ;;
    Ok {| qr_data := data; caption := asset_title; file_path := path |}.

End QRCodeGenerator.

(** ** The inventory client: [ElabManager] of src/elabftw/elab_manager.py

    The remote inventory is a list of records.  When it answers, a POST
    stores a record under the next unused id and a GET returns the record
    of an id; when it does not, both calls fail. *)

Fixpoint dict_del (d : dict) (k : string) : dict :=
  match d with
  | [] => []
  | (k', v) :: r => if (k' =? k) then r else (k', v) :: dict_del r k
  end.

Module ElabManager.

Record item : Type :=
  { id : Z; category : Z; title : json; body : dict; tags : json }.

Record server : Type :=
  { online : bool; next_id : Z; items : list item; images : list (Z * string) }.

(** [create_item] on the three fields that [create_asset_from_llm_data]
    passes. *)
Definition create_item (srv : server) (category_id : Z)
           (new_title : json) (new_body : dict) (new_tags : json)
  : option Z * server :=
  if online srv then
    (Some (next_id srv),
     {| online := true;
        next_id := next_id srv + 1;
        items := items srv ++ [ {| id := next_id srv; category := category_id;
                                   title := new_title; body := new_body;
                                   tags := new_tags |} ];
        images := images srv |})
  else (None, srv).

Definition upload_image (srv : server) (item_id : Z) (image_path : string)
  : server :=
  if online srv then
    {| online := true; next_id := next_id srv; items := items srv;
       images := images srv ++ [(item_id, image_path)] |}
  else srv.

(** The fields shown in the body: [body_data] of
    [_format_body_from_llm_data], before it is rendered as HTML. *)
Definition format_body_from_llm_data (llm_data : dict) : dict :=
  dict_del (dict_del llm_data "title") "tags".

Definition dict_get_or (d : dict) (k : string) (default : json) : json :=
  match dict_get d k with Some v => v | None => default end.

(** The captured file is taken to exist when a path is set. *)
Definition create_asset_from_llm_data (srv : server) (template_id : Z)
           (llm_data : dict) (image_path : option string)
  : option Z * server :=
  let '(item_id, srv1) :=
    create_item srv template_id
      (dict_get_or llm_data "title" (JStr "Untitled Asset"))
      (format_body_from_llm_data llm_data)
      (dict_get_or llm_data "tags" (JList [])) in
  match item_id with
  | Some i =>
      if (i =? 0)%Z then (None, srv1)
      else match image_path with
           | Some p => if PyStr.nonempty p then (Some i, upload_image srv1 i p)
                       else (Some i, srv1)
           | None => (Some i, srv1)
           end
  | None => (None, srv1)
  end.

Definition item_dict (it : item) : dict :=
  [("id", JNum (id it)); ("title", title it); ("body", JDict (body it));
   ("category", JNum (category it)); ("tags", tags it); ("metadata", JDict [])].

Definition get_item (srv : server) (item_id : Z) : option dict :=
  if online srv then
    match find (fun it => (id it =? item_id)%Z) (items srv) with
    | Some it => Some (item_dict it)
    | None => None
    end
  else None.

End ElabManager.

(** ** The workflow object: [MainWindow] of src/ui/main_window.py *)

Module MainWindow.

Inductive status_msg : Type :=
| Status (s : string)
| ErrorSaving (e : exn)         (* "Error saving to elabFTW: ..." *)
| QRCodeFailed (e : exn).       (* "Failed to generate QR code: ..." *)

Definition invalid_json_hint : status_msg :=
  Status "The edited result contains invalid JSON. Please correct it before saving.".

(** The attributes and widgets that the handlers below read or write;
    [current_llm_result] is [JNull] for [None]. *)
Record t : Type :=
  { current_image_path : option string;
    current_llm_result : json;
    current_asset_id : option Z;
    result_text : string;
    template : option Z;
    status : status_msg;
    save_button : bool;
    generate_qrcode_button : bool;
    save_qrcode_button : bool;
    qrcode_label : option string;
    elab_manager : ElabManager.server;
    qrcode_generator : QRCodeGenerator.t;
    label_files : list QRCodeGenerator.label }.

Definition with_result (w : t) (r : json) : t :=
  {| current_image_path := current_image_path w; current_llm_result := r;
     current_asset_id := current_asset_id w; result_text := result_text w;
     template := template w; status := status w;
     save_button := save_button w;
     generate_qrcode_button := generate_qrcode_button w;
     save_qrcode_button := save_qrcode_button w;
     qrcode_label := qrcode_label w; elab_manager := elab_manager w;
     qrcode_generator := qrcode_generator w; label_files := label_files w |}.

Definition with_asset_id (w : t) (i : option Z) : t :=
  {| current_image_path := current_image_path w;
     current_llm_result := current_llm_result w;
     current_asset_id := i; result_text := result_text w;
     template := template w; status := status w;
     save_button := save_button w;
     generate_qrcode_button := generate_qrcode_button w;
     save_qrcode_button := save_qrcode_button w;
     qrcode_label := qrcode_label w; elab_manager := elab_manager w;
     qrcode_generator := qrcode_generator w; label_files := label_files w |}.

Definition with_text (w : t) (s : string) : t :=
  {| current_image_path := current_image_path w;
     current_llm_result := current_llm_result w;
     current_asset_id := current_asset_id w; result_text := s;
     template := template w; status := status w;
     save_button := save_button w;
     generate_qrcode_button := generate_qrcode_button w;
     save_qrcode_button := save_qrcode_button w;
     qrcode_label := qrcode_label w; elab_manager := elab_manager w;
     qrcode_generator := qrcode_generator w; label_files := label_files w |}.

Definition set_status (w : t) (m : status_msg) : t :=
  {| current_image_path := current_image_path w;
     current_llm_result := current_llm_result w;
     current_asset_id := current_asset_id w; result_text := result_text w;
     template := template w; status := m;
     save_button := save_button w;
     generate_qrcode_button := generate_qrcode_button w;
     save_qrcode_button := save_qrcode_button w;
     qrcode_label := qrcode_label w; elab_manager := elab_manager w;
     qrcode_generator := qrcode_generator w; label_files := label_files w |}.

Definition set_save_button (w : t) (b : bool) : t :=
  {| current_image_path := current_image_path w;
     current_llm_result := current_llm_result w;
     current_asset_id := current_asset_id w; result_text := result_text w;
     template := template w; status := status w;
     save_button := b;
     generate_qrcode_button := generate_qrcode_button w;
     save_qrcode_button := save_qrcode_button w;
     qrcode_label := qrcode_label w; elab_manager := elab_manager w;
     qrcode_generator := qrcode_generator w; label_files := label_files w |}.

Definition set_generate_qrcode_button (w : t) (b : bool) : t :=
  {| current_image_path := current_image_path w;
     current_llm_result := current_llm_result w;
     current_asset_id := current_asset_id w; result_text := result_text w;
     template := template w; status := status w;
     save_button := save_button w;
     generate_qrcode_button := b;
     save_qrcode_button := save_qrcode_button w;
     qrcode_label := qrcode_label w; elab_manager := elab_manager w;
     qrcode_generator := qrcode_generator w; label_files := label_files w |}.

Definition with_server (w : t) (srv : ElabManager.server) : t :=
  {| current_image_path := current_image_path w;
     current_llm_result := current_llm_result w;
     current_asset_id := current_asset_id w; result_text := result_text w;
     template := template w; status := status w;
     save_button := save_button w;
     generate_qrcode_button := generate_qrcode_button w;
     save_qrcode_button := save_qrcode_button w;
     qrcode_label := qrcode_label w; elab_manager := srv;
     qrcode_generator := qrcode_generator w; label_files := label_files w |}.

(** A label was rendered, saved and shown. *)
Definition show_label (w : t) (l : QRCodeGenerator.label) : t :=
  {| current_image_path := current_image_path w;
     current_llm_result := current_llm_result w;
     current_asset_id := current_asset_id w; result_text := result_text w;
     template := template w;
     status := Status ("QR code generated: " ++ QRCodeGenerator.file_path l);
     save_button := save_button w;
     generate_qrcode_button := generate_qrcode_button w;
     save_qrcode_button := true;
     qrcode_label := Some (QRCodeGenerator.file_path l);
     elab_manager := elab_manager w;
     qrcode_generator := qrcode_generator w;
     label_files := label_files w ++ [l] |}.

(** [on_result_text_changed]: the slot of the result text's
    [textChanged] signal.  A text that does not decode is passed over;
    an exception of the title derivation is logged.  The window
    afterwards, [None] when the text decodes to a value that is not of the
    fragment. *)
Definition on_result_text_changed (w : t) : option t :=
  match Json.loads (result_text w) with
  | Json.Decoded edited_result => Some (with_result w edited_result)
  | Json.JSONDecodeError => Some w
  | Json.Beyond => None
  end.

(** The operator replaces the result text; the signal fires. *)
Definition edit_result_text (w : t) (new_text : string) : option t :=
  on_result_text_changed (with_text w new_text).

Definition generate_qrcode (w : t) : t :=
  match current_asset_id w with
  | None => set_status w (Status "Please save to elabFTW first")
  | Some i =>
      if (i =? 0)%Z then set_status w (Status "Please save to elabFTW first")
      else
        let w := set_status (set_generate_qrcode_button w false)
                   (Status "Generating QR code...") in
        match ElabManager.get_item (elab_manager w) i with
        | None =>
            set_generate_qrcode_button
              (set_status w (Status "Failed to get asset information")) true
        | Some asset_info =>
            match QRCodeGenerator.create_asset_qrcode
                    (qrcode_generator w) i asset_info None with
            | Ok l => set_generate_qrcode_button (show_label w l) true
            | Raise e => set_generate_qrcode_button (set_status w (QRCodeFailed e)) true
            end
        end
  end.

(** [asset_data = self.current_llm_result.copy()] followed by
    [asset_data["title"] = title]. *)
Definition copy_with_title (result : json) (title : string) : outcome dict :=
  match result with
  | JDict d => Ok (dict_set d "title" (JStr title))
  | JList _ => Raise TypeError
  | _ => Raise AttributeError
  end.

(** The statements of [save_to_elabftw] that follow the decoding of the
    result text. *)
Definition store_result (w : t) (template_id : Z) (edited_result : json) : t :=
  let w := with_result w edited_result in
  match (title <- update_asset_title_from_result edited_result ;;
         copy_with_title edited_result title) with
  | Raise e => set_save_button (set_status w (ErrorSaving e)) true
  | Ok asset_data =>
      let '(asset_id, srv) :=
        ElabManager.create_asset_from_llm_data
          (elab_manager w) template_id asset_data
          (current_image_path w) in
      let w := with_server w srv in
      match asset_id with
      | Some i =>
          let w := with_asset_id w (Some i) in
          let w := set_status w
                     (Status ("Saved to elabFTW (ID: " ++ PyStr.of_int i)) in
          let w := generate_qrcode w in
          set_save_button (set_generate_qrcode_button w false) true
      | None =>
          set_save_button
            (set_status w (Status "Failed to save to elabFTW")) true
      end
  end.

(** [save_to_elabftw]: the window afterwards, [None] when the result text
    decodes to a value that is not of the fragment. *)
Definition save_to_elabftw (w : t) : option t :=
  if negb (truthy (current_llm_result w)) then
    Some (set_status w (Status "Please analyze the image first"))
  else
    let w := set_status (set_save_button w false) (Status "Saving to elabFTW...") in
    match template w with
    | Some template_id =>
        if (template_id =? 0)%Z then
          Some (set_save_button (set_status w (Status "Please select a template")) true)
        else
          match Json.loads (result_text w) with
          | Json.JSONDecodeError =>
              Some (set_save_button (set_status w invalid_json_hint) true)
          | Json.Decoded edited_result => Some (store_result w template_id edited_result)
          | Json.Beyond => None
          end
    | None =>
        Some (set_save_button (set_status w (Status "Please select a template")) true)
    end.

End MainWindow.

(** ** The specification's words for title derivation

    The candidate that a value offers as a title, and the first candidate
    among the fields in their priority order. *)

Definition candidate (v : json) : option string :=
  match v with
  | JStr s =>
      let t := PyStr.strip s in
      if PyStr.nonempty t && negb (PyStr.lower t =? "unknown") then Some t else None
  | _ => None
  end.

Definition field_candidate (d : dict) (field : string) : option string :=
  match dict_get d field with
  | Some v => candidate v
  | None => None
  end.

Fixpoint first_candidate (fields : list string) (d : dict) : option string :=
  match fields with
  | [] => None
  | field :: rest =>
      match field_candidate d field with
      | Some t => Some t
      | None => first_candidate rest d
      end
  end.

(** A value on which [.lower()] is never called with a wrong type: a
    string, or a value that is false in a condition. *)
Definition text_or_falsy (v : json) : bool :=
  match v with
  | JStr _ => true
  | _ => negb (truthy v)
  end.

(** The values that title derivation can inspect are of that kind. *)
Definition names_are_text (d : dict) : bool :=
  match dict_get d "summary" with
  | Some (JDict sd) =>
      match dict_get sd "asset_name" with
      | Some a => text_or_falsy a
      | None => true
      end
  | _ => true
  end
  && forallb (fun field => match dict_get d field with
                           | Some v => text_or_falsy v
                           | None => true
                           end) name_fields.

(** The candidate that the summary offers: the one of its [asset_name],
    when the value under [summary] is an object. *)
Definition summary_candidate (d : dict) : option string :=
  match dict_get d "summary" with
  | Some (JDict sd) => field_candidate sd "asset_name"
  | _ => None
  end.

(** The name of the summary is "unknown", in any letter case, with white
    space around it. *)
Definition summary_padded_unknown (d : dict) : bool :=
  match dict_get d "summary" with
  | Some (JDict sd) =>
      match dict_get sd "asset_name" with
      | Some (JStr s) =>
          (PyStr.lower (PyStr.strip s) =? "unknown") && negb (PyStr.lower s =? "unknown")
      | _ => false
      end
  | _ => false
  end.

(** ** Notions used to state the properties *)

(** A value of the line-oriented result: a string or a number. *)
Definition is_scalar (v : json) : bool :=
  match v with
  | JStr _ | JNum _ => true
  | _ => false
  end.

Definition scalar_values (d : dict) : Prop :=
  Forall (fun kv => is_scalar (snd kv) = true) d.

(** Every character of a string passes a test. *)
Fixpoint all_chars (p : ascii -> bool) (s : string) : bool :=
  match s with
  | EmptyString => true
  | String c r => p c && all_chars p r
  end.

(** A text that can follow a number: it does not go on with a digit or as
    a float. *)
Definition stops (rest : string) : bool :=
  match rest with
  | EmptyString => true
  | String c _ => negb (Json.isdigit c) && negb (Json.float_mark rest)
  end.

(** The first character of an encoded value is not white space and closes
    neither a list nor an object. *)
Definition value_head (s : string) : bool :=
  match s with
  | EmptyString => false
  | String c _ =>
      negb (Json.is_ws c) && negb (c =? "]")%char && negb (c =? "}")%char
  end.

Definition values_unique (d : list (string * json)) : bool :=
  forallb (fun kv => let '(_, x) := kv in unique_keys x) d.

(** ** Sample data *)

Definition sodium_chloride : dict :=
  [("purity", JStr "99%");
   ("summary", JDict [("asset_name", JStr "  Sodium Chloride ");
                      ("asset_type", JStr "chemical")]);
   ("name", JStr "Salt")].

Definition ethanol : dict :=
  [("name", JStr "Unknown"); ("asset_name", JStr "  "); ("tags", JList [JStr "x"]);
   ("chemical_name", JStr " Ethanol "); ("title", JStr "Bottle")].

Definition volume_text : string := "Volume: 500ml".

Definition prose_text : string := Json.text "Result: {'name': 'Beaker'}".

Definition sample_config : dict :=
  [("llm", JDict [("provider", JStr "openai"); ("api_key", JStr "")]);
   ("elabftw", JDict [("api_url", JStr "https://10.159.64.205:3148/api/v2");
                      ("verify_ssl", JBool false)]);
   ("ui", JStr "light")].

(** Libraries and a file system that work: a code is made of a text of
    at most 1000 ASCII characters, which the largest code holds with room
    to spare, and a file is written when the image library finds an
    extension in its name, a period after a character of the last
    component that is not one. *)
Definition sample_make (data : string) : bool :=
  (String.length data <=? 1000)%nat
  && all_chars (fun c => (PyStr.code c <? 128)%N) data.

Fixpoint has_extension (seen : bool) (path : string) : bool :=
  match path with
  | EmptyString => false
  | String c r =>
      if (c =? "/")%char then has_extension false r
      else if (c =? ".")%char
           then (seen && negb (PyStr.has_char r "/")) || has_extension seen r
      else has_extension true r
  end.

Definition sample_save (path : string) : bool := has_extension false path.

Definition sample_generator : QRCodeGenerator.t :=
  {| QRCodeGenerator.output_dir := "qrcodes";
     QRCodeGenerator.base_url := "https://10.159.64.205:3148";
     QRCodeGenerator.encodes := sample_make;
     QRCodeGenerator.saves := sample_save |}.

Definition empty_inventory : ElabManager.server :=
  {| ElabManager.online := true; ElabManager.next_id := 1;
     ElabManager.items := []; ElabManager.images := [] |}.

(** The window after an analysis, before any commit. *)
Definition ready_window : MainWindow.t :=
  {| MainWindow.current_image_path := Some "images/asset_1.jpg";
     MainWindow.current_llm_result :=
       JDict [("summary", JDict [("asset_name", JStr "Sodium Chloride")]);
              ("purity", JStr "99%")];
     MainWindow.current_asset_id := None;
     MainWindow.result_text :=
       Json.text "{'summary': {'asset_name': 'Sodium Chloride'}, 'purity': '99%'}";
     MainWindow.template := Some 3%Z;
     MainWindow.status :=
       MainWindow.Status "Analysis complete, you can edit the results before saving";
     MainWindow.save_button := true;
     MainWindow.generate_qrcode_button := false;
     MainWindow.save_qrcode_button := false;
     MainWindow.qrcode_label := None;
     MainWindow.elab_manager := empty_inventory;
     MainWindow.qrcode_generator := sample_generator;
     MainWindow.label_files := [] |}.

(** The same window after one commit. *)
Definition committed_window : MainWindow.t :=
  match MainWindow.save_to_elabftw ready_window with
  | Some w => w
  | None => ready_window
  end.


Definition nested_sample : dict :=
  [("summary", JDict [("asset_name", JStr "Sodium Chloride"); ("asset_type", JStr "chemical")]);
   ("purity", JStr "99%");
   ("hazards", JList [JStr "none"; JNull; JBool true; JNum (-3); JList []; JDict []]);
   ("note", JStr (String newline (Json.text "a 'quoted' \ word")))].

(** ** The vision test of [OpenAILLM] (src/llm/llm_manager.py) *)

Module OpenAIVision.

Definition vision_models : list string :=
  ["gpt-4-vision-preview"; "gpt-4o"; "gpt-4o-mini"; "gpt-4-turbo"].

(** [any(vision_model in model for vision_model in vision_models)]. *)
Definition _model_supports_vision (model : string) : bool :=
  existsb (fun vision_model => PyStr.contains model vision_model) vision_models.

End OpenAIVision.

(** ** Notions used to state the further properties *)

(** A key as the line-oriented extraction writes it, and a value as it
    leaves it. *)
Definition normal_key (k : string) : bool :=
  negb (PyStr.has_char k " ") && (PyStr.lower k =? k).

Definition trimmed_text (v : json) : bool :=
  match v with
  | JStr s => (PyStr.strip s =? s)
  | _ => false
  end.

Definition not_slash (c : ascii) : bool := negb (c =? "/")%char.

Definition not_underscore (c : ascii) : bool := negb (c =? "_")%char.

(** ** [ConfigManager], continued: [update_config] and [_update_dict] *)

Module ConfigUpdate.

(** What the loop of [_update_dict] leaves under a key whose value was
    [old] when the update brings [v]: the merge of the two when both are
    dictionaries, and [v] otherwise. *)
Fixpoint update_value (old : option json) (v : json) {struct v} : json :=
  match v with
  | JDict u =>
      match old with
      | Some (JDict d) =>
          JDict ((fix update (u : list (string * json)) (d : dict) {struct u} : dict :=
                    match u with
                    | [] => d
                    | (k, x) :: r =>
                        update r (dict_set d k (update_value (dict_get d k) x))
                    end) u d)
      | _ => v
      end
  | _ => v
  end.

(** [_update_dict(d, u)]: the dictionary [d] after the loop over
    [u.items()]. *)
Fixpoint _update_dict (d : dict) (u : list (string * json)) : dict :=
  match u with
  | [] => d
  | (k, v) :: r => _update_dict (dict_set d k (update_value (dict_get d k) v)) r
  end.

(** [update_config]: the new [self.config] and the returned flag; [saved]
    is what [save_config] returns.  [new_config.items()] raises on a value
    that is not a [dict], and the first turn of the loop raises on a
    [self.config] that is not one; nothing is changed then and the flag is
    [False]. *)
Definition update_config (saved : bool) (config new_config : json) : json * bool :=
  match new_config with
  | JDict [] => (config, saved)
  | JDict u =>
      match config with
      | JDict d => (JDict (_update_dict d u), saved)
      | _ => (config, false)
      end
  | _ => (config, false)
  end.

End ConfigUpdate.

(** The mapping that holds one value at the end of a path of keys. *)
Fixpoint nest (keys : list string) (value : json) : dict :=
  match keys with
  | [] => []
  | [last] => [(last, value)]
  | key :: rest => [(key, JDict (nest rest value))]
  end.

(** ** [json.dumps(v, indent=n, ensure_ascii=False)] and [json.dump] *)

Module JsonPretty.

(** One character of a string, as [ensure_ascii=False] writes it: only
    the quote, the backslash and the control characters are escaped. *)
Definition escape_char (c : ascii) : string :=
  let n := PyStr.code c in
  if (c =? Json.dquote)%char then String Json.backslash (String Json.dquote EmptyString)
  else if (c =? Json.backslash)%char
       then String Json.backslash (String Json.backslash EmptyString)
  else if (n =? 10)%N then String Json.backslash "n"
  else if (n =? 13)%N then String Json.backslash "r"
  else if (n =? 9)%N then String Json.backslash "t"
  else if (n =? 8)%N then String Json.backslash "b"
  else if (n =? 12)%N then String Json.backslash "f"
  else if (n <? 32)%N then
    String Json.backslash
      (String "u" (String "0" (String "0"
         (String (Json.hex_digit (n / 16))
            (String (Json.hex_digit (n mod 16)) EmptyString)))))
  else String c EmptyString.

Fixpoint escape (s : string) : string :=
  match s with
  | EmptyString => EmptyString
  | String c r => escape_char c ++ escape r
  end.

Definition dumps_str (s : string) : string :=
  String Json.dquote (escape s ++ String Json.dquote EmptyString).

Fixpoint spaces (n : nat) : string :=
  match n with
  | O => EmptyString
  | S m => String " " (spaces m)
  end.

(** ['\n' + ' ' * (indent * level)]. *)
Definition newline_indent (indent level : nat) : string :=
  String newline (spaces (indent * level)).

(** The text of [v] when it stands at nesting depth [level]. *)
Fixpoint dumps (indent level : nat) (v : json) : string :=
  match v with
  | JNull => "null"
  | JBool true => "true"
  | JBool false => "false"
  | JNum z => PyStr.of_int z
  | JStr s => dumps_str s
  | JList [] => "[]"
  | JList l =>
      "[" ++ newline_indent indent (S level)
      ++ (fix items (l : list json) : string :=
            match l with
            | [] => EmptyString
            | [x] => dumps indent (S level) x
            | x :: r =>
                dumps indent (S level) x ++ "," ++ newline_indent indent (S level)
                ++ items r
            end) l
      ++ newline_indent indent level ++ "]"
  | JDict [] => "{}"
  | JDict d =>
      "{" ++ newline_indent indent (S level)
      ++ (fix members (d : list (string * json)) : string :=
            match d with
            | [] => EmptyString
            | [(k, x)] => dumps_str k ++ ": " ++ dumps indent (S level) x
            | (k, x) :: r =>
                dumps_str k ++ ": " ++ dumps indent (S level) x ++ ","
                ++ newline_indent indent (S level) ++ members r
            end) d
      ++ newline_indent indent level ++ "}"
  end.

(** The items of a list and the members of a dictionary that stand at
    depth [level]. *)
Definition dumps_items (indent level : nat) : list json -> string :=
  fix items (l : list json) : string :=
    match l with
    | [] => EmptyString
    | [x] => dumps indent level x
    | x :: r => dumps indent level x ++ "," ++ newline_indent indent level ++ items r
    end.

Definition dumps_members (indent level : nat) : list (string * json) -> string :=
  fix members (d : list (string * json)) : string :=
    match d with
    | [] => EmptyString
    | [(k, x)] => dumps_str k ++ ": " ++ dumps indent level x
    | (k, x) :: r =>
        dumps_str k ++ ": " ++ dumps indent level x ++ ","
        ++ newline_indent indent level ++ members r
    end.

End JsonPretty.

(** ** The text field of the result: [QTextEdit] of the Qt library

    [setText] takes its argument for plain text or for HTML, and
    [toPlainText] returns the text of the document, where a non-breaking
    space (U+00A0) has become a space.  The model covers a text that is
    taken for plain text, its first line holding neither [<] nor [&], and
    whose characters are line feeds and printable characters. *)

Module QTextEdit.

Definition nbsp : ascii := ascii_of_N 160.

(** A line feed, or a printable character: not a control character. *)
Definition plain_char (c : ascii) : bool :=
  let n := PyStr.code c in
  (n =? 10)%N || PyStr.between 32 126 n || (160 <=? n)%N.

(** No character of the first line, after the white space that the text
    starts with, opens a tag or an entity. *)
Fixpoint first_line_plain (started : bool) (s : string) : bool :=
  match s with
  | EmptyString => true
  | String c r =>
      if (c =? "<")%char || (c =? "&")%char then false
      else if (c =? newline)%char then
        if started then true else first_line_plain false r
      else if (c =? " ")%char || (c =? nbsp)%char then first_line_plain started r
      else first_line_plain true r
  end.

(** What [toPlainText] returns after [setText(s)]. *)
Definition plain_text (s : string) : option string :=
  if all_chars plain_char s && first_line_plain false s
  then Some (PyStr.replace_char nbsp " " s)
  else None.

(** A character of a string value that the text field gives back as the
    encoder has written it: a control character below 32, which the
    encoder escapes, or a printable character other than the non-breaking
    space. *)
Definition kept_char (c : ascii) : bool :=
  let n := PyStr.code c in
  (n <? 127)%N || (160 <? n)%N.

(** A character of a text that the text field gives back as it is. *)
Definition shown_char (c : ascii) : bool :=
  plain_char c && negb (c =? nbsp)%char.

End QTextEdit.

(** Every character of every string of the value, the keys included, is
    one that the text field gives back. *)
Fixpoint shown_as_is (v : json) : bool :=
  match v with
  | JStr s => all_chars QTextEdit.kept_char s
  | JList l => forallb shown_as_is l
  | JDict d =>
      forallb (fun kv => all_chars QTextEdit.kept_char (fst kv) && shown_as_is (snd kv)) d
  | _ => true
  end.

(** ** The end of an analysis: [MainWindow.on_analysis_complete] *)

Module Analysis.

(** The window together with what the handler touches besides: the
    analyse button, the number of times [on_result_text_changed] has been
    connected to the [textChanged] signal of the result text, and the
    exception that the status line reports when the handler has failed
    ([Some e] for "Error processing analysis result: e", shown in place of
    the status of [window]). *)
Record t : Type :=
  { window : MainWindow.t;
    analyze_button : bool;
    connections : nat;
    error_processing : option exn }.

(** The connected slots run one after the other. *)
Fixpoint run_slots (connections : nat) (w : MainWindow.t) : option MainWindow.t :=
  match connections with
  | O => Some w
  | S n =>
      match MainWindow.on_result_text_changed w with
      | Some w' => run_slots n w'
      | None => None
      end
  end.

(** [self.result_text.setText(s)]: the text that the field then holds is
    what [toPlainText] returns of [s], and every connected slot runs. *)
Definition set_text (connections : nat) (w : MainWindow.t) (s : string)
  : option MainWindow.t :=
  match QTextEdit.plain_text s with
  | Some shown => run_slots connections (MainWindow.with_text w shown)
  | None => None
  end.

(** [on_analysis_complete]: the state afterwards, [None] when the model
    does not tell what the text field holds or what a slot decodes. *)
Definition on_analysis_complete (a : t) (result : dict) : option t :=
  let w := MainWindow.with_result (window a) (JDict result) in
  match update_asset_title_from_result (JDict result) with
  | Raise e =>
      Some {| window := w; analyze_button := true; connections := connections a;
              error_processing := Some e |}
  | Ok _ =>
      match set_text (connections a) w (JsonPretty.dumps 2 0 (JDict result)) with
      | Some w =>
          let w := MainWindow.set_save_button w true in
          let w := MainWindow.set_generate_qrcode_button w false in
          let w := MainWindow.set_status w
                     (MainWindow.Status
                        "Analysis complete, you can edit the results before saving") in
          Some {| window := w; analyze_button := true; connections := S (connections a);
                  error_processing := None |}
      | None => None
      end
  end.

End Analysis.

(** ** [ConfigManager], continued: the configuration file

    [self.config] refers to the object that [json.load] made, or to the
    object [self.default_config]; a write through [self.config] changes the
    object it refers to.  The file holds a text or does not exist, and can
    be written or not. *)

Module ConfigFile.

Inductive ref : Type :=
| Loaded       (* the object made by [__init__] or by [json.load] *)
| Default.     (* the object [self.default_config] *)

Record t : Type :=
  { loaded : json;
    default_config : json;
    config_ref : ref;
    file : option string;
    writable : bool }.

(** [self.config]. *)
Definition config (m : t) : json :=
  match config_ref m with
  | Loaded => loaded m
  | Default => default_config m
  end.

(** [__init__]. *)
Definition init (defaults : json) (content : option string) (can_write : bool) : t :=
  {| loaded := JDict []; default_config := defaults; config_ref := Loaded;
     file := content; writable := can_write |}.

(** The object that [self.config] refers to becomes [c]. *)
Definition mutate (m : t) (c : json) : t :=
  match config_ref m with
  | Loaded =>
      {| loaded := c; default_config := default_config m; config_ref := Loaded;
         file := file m; writable := writable m |}
  | Default =>
      {| loaded := loaded m; default_config := c; config_ref := Default;
         file := file m; writable := writable m |}
  end.

(** [save_config]: [json.dump(self.config, f, indent=4,
    ensure_ascii=False)]; [False] when the file cannot be opened. *)
Definition save_config (m : t) : t * bool :=
  if writable m then
    ({| loaded := loaded m; default_config := default_config m;
        config_ref := config_ref m;
        file := Some (JsonPretty.dumps 4 0 (config m)); writable := true |}, true)
  else (m, false).

Definition use_defaults (m : t) : t :=
  {| loaded := loaded m; default_config := default_config m; config_ref := Default;
     file := file m; writable := writable m |}.

(** [load_config]: the manager afterwards; the value returned is its
    [config].  [None] when the file holds a value that is not of the
    fragment. *)
Definition load_config (m : t) : option t :=
  match file m with
  | Some content =>
      match Json.loads content with
      | Json.Decoded c =>
          Some {| loaded := c; default_config := default_config m;
                  config_ref := Loaded; file := file m; writable := writable m |}
      | Json.JSONDecodeError => Some (use_defaults m)
      | Json.Beyond => None
      end
  | None => Some (fst (save_config (use_defaults m)))
  end.

(** [set_value] and [update_config] on the manager. *)
Definition set_value (m : t) (key_path : string) (value : json) : t * bool :=
  match config m with
  | JDict d =>
      save_config (mutate m (JDict (ConfigManager.set_path d (PyStr.split "." key_path) value)))
  | _ => (m, false)
  end.

Definition update_config (m : t) (new_config : json) : t * bool :=
  match new_config with
  | JDict [] => save_config m
  | JDict u =>
      match config m with
      | JDict d => save_config (mutate m (JDict (ConfigUpdate._update_dict d u)))
      | _ => (m, false)
      end
  | _ => (m, false)
  end.

End ConfigFile.

(** ** [LLMManager] of src/llm/llm_manager.py *)

(** [a == b] on decoded JSON values: [True] is [1] and [False] is [0],
    lists are compared item by item and dictionaries key by key. *)
Fixpoint py_eq (a b : json) {struct a} : bool :=
  match a, b with
  | JNull, JNull => true
  | JBool x, JBool y => Bool.eqb x y
  | JBool x, JNum z => (z =? Z.b2z x)%Z
  | JNum z, JBool x => (z =? Z.b2z x)%Z
  | JNum x, JNum y => (x =? y)%Z
  | JStr x, JStr y => (x =? y)
  | JList l, JList m =>
      (fix items (l m : list json) {struct l} : bool :=
         match l, m with
         | [], [] => true
         | x :: l', y :: m' => py_eq x y && items l' m'
         | _, _ => false
         end) l m
  | JDict d, JDict e =>
      (List.length d =? List.length e)%nat
      && (fix members (d : list (string * json)) : bool :=
            match d with
            | [] => true
            | (k, x) :: d' =>
                match dict_get e k with
                | Some y => py_eq x y
                | None => false
                end && members d'
            end) d
  | _, _ => false
  end.

Module LLMManager.

(** The client objects, with the arguments of their constructors.  The
    temperature is [None] when the configuration has none: the default
    [0.7] is a float. *)
Inductive backend : Type :=
| OpenAI (api_key model : json) (temperature : option json) (max_tokens : json)
| Anthropic (api_key model : json) (temperature : option json) (max_tokens : json)
| Ollama (model : json) (temperature : option json) (max_tokens host : json)
| Local (model_path : json) (temperature : option json) (max_tokens : json).

Record t : Type := { config : dict; llm : option backend; provider : json }.

(** [self.config.get(k, default)]. *)
Definition get (config : dict) (k : string) (default : json) : json :=
  match dict_get config k with Some v => v | None => default end.

(** [self.provider == name]. *)
Definition is_provider (p : json) (name : string) : bool :=
  match p with JStr s => (s =? name) | _ => false end.

Definition with_llm (m : t) (b : backend) : t :=
  {| config := config m; llm := Some b; provider := provider m |}.

Definition initialize_llm (m : t) : t * bool :=
  let c := config m in
  if is_provider (provider m) "openai" then
    (with_llm m (OpenAI (get c "api_key" (JStr ""))
                   (get c "model" (JStr "gpt-4-vision-preview"))
                   (dict_get c "temperature") (get c "max_tokens" (JNum 4000))), true)
  else if is_provider (provider m) "anthropic" then
    (with_llm m (Anthropic (get c "api_key" (JStr ""))
                   (get c "model" (JStr "claude-3-opus-20240229"))
                   (dict_get c "temperature") (get c "max_tokens" (JNum 4000))), true)
  else if is_provider (provider m) "ollama" then
    (with_llm m (Ollama (get c "model" (JStr "llava"))
                   (dict_get c "temperature") (get c "max_tokens" (JNum 4000))
                   (get c "ollama_url" (JStr "http://localhost:11434"))), true)
  else if is_provider (provider m) "local" then
    (with_llm m (Local (get c "local_model_path" (JStr ""))
                   (dict_get c "temperature") (get c "max_tokens" (JNum 4000))), true)
  else (m, false).

(** [__init__]. *)
Definition init (config : dict) : t :=
  fst (initialize_llm {| config := config; llm := None;
                         provider := get config "provider" (JStr "openai") |}).



(** What [get_settings] returns. *)
Record settings : Type :=
  { s_provider : json;
    s_model : json;
    s_temperature : option json;
    s_max_tokens : json;
    s_api_key_configured : bool;
    s_ollama_url : json;
    s_local_model_path : json;
    s_initialized : bool }.

Definition get_settings (m : t) : settings :=
  let c := config m in
  {| s_provider := provider m;
     s_model := get c "model" (JStr "");
     s_temperature := dict_get c "temperature";
     s_max_tokens := get c "max_tokens" (JNum 4000);
     s_api_key_configured := truthy (get c "api_key" (JStr ""));
     s_ollama_url := get c "ollama_url" (JStr "http://localhost:11434");
     s_local_model_path := get c "local_model_path" (JStr "");
     s_initialized := match llm m with Some _ => true | None => false end |}.

(** [if k in settings: self.config[k] = settings[k]]. *)
Definition copy_key (settings : dict) (c : dict) (k : string) : dict :=
  match dict_get settings k with
  | Some v => dict_set c k v
  | None => c
  end.

(** What [update_settings] returns: the new settings with
    ["success": True], or ["success": False] with the message. *)
Inductive update_result : Type :=
| Updated (current_settings : settings)
| NotUpdated (error : string).

Definition update_settings (m : t) (new_settings : dict) : t * update_result :=
  let old_provider := provider m in
  let p := match dict_get new_settings "provider" with
           | Some v => v
           | None => provider m
           end in
  let c := fold_left (copy_key new_settings)
             ["model"; "temperature"; "max_tokens"; "api_key"; "ollama_url";
              "local_model_path"] (config m) in
  let m1 := {| config := c; llm := llm m; provider := p |} in
  if negb (py_eq old_provider p) || dict_has new_settings "api_key" then
    let '(m2, success) := initialize_llm m1 in
    if success then (m2, Updated (get_settings m2))
    else (m2, NotUpdated "Failed to initialize LLM with new settings")
  else (m1, Updated (get_settings m1)).

End LLMManager.


(** The manager that [analyze_image] of src/llm/analyze_image.py makes:
    [LLMManager(config)] on the configuration that [load_config] has
    returned.  [config.get] raises on a configuration that is not a
    [dict]. *)
Definition analyze_image_manager (config : json) : outcome LLMManager.t :=
  match config with
  | JDict c => Ok (LLMManager.init c)
  | _ => Raise AttributeError
  end.

(** * Properties *)

(** ** Characters and strings *)

Lemma isspace_lower_char (c : ascii) :
  PyStr.isspace c = true -> PyStr.lower_char c = c.
Proof.
  destruct c as [[] [] [] [] [] [] [] []]; vm_compute; intro H;
    first [reflexivity | discriminate H].
Qed.

Lemma lower_char_not_space (c d : ascii) :
  PyStr.lower_char c = d -> PyStr.isspace d = false -> PyStr.isspace c = false.
Proof.
  intros Hl Hd. destruct (PyStr.isspace c) eqn:E; [|reflexivity].
  rewrite (isspace_lower_char c E) in Hl. congruence.
Qed.

Lemma lower_unknown_strip (s : string) :
  PyStr.lower s = "unknown" -> PyStr.strip s = s.
Proof.
  destruct s as [|c1 [|c2 [|c3 [|c4 [|c5 [|c6 [|c7 [|c8 s]]]]]]]];
    simpl; intro H; try discriminate H.
  injection H as H1 _ _ _ _ _ H7.
  apply lower_char_not_space in H1; [|reflexivity].
  apply lower_char_not_space in H7; [|reflexivity].
  unfold PyStr.strip. simpl. rewrite H1. simpl. rewrite H7. reflexivity.
Qed.

Lemma strip_nonempty (s : string) :
  PyStr.nonempty (PyStr.strip s) = true -> PyStr.nonempty s = true.
Proof. destruct s; [discriminate | reflexivity]. Qed.

Lemma lower_strip_known (s : string) :
  (PyStr.lower (PyStr.strip s) =? "unknown") = false ->
  (PyStr.lower s =? "unknown") = false.
Proof.
  intro H. destruct (PyStr.lower s =? "unknown") eqn:E; [|reflexivity].
  apply String.eqb_eq in E. rewrite (lower_unknown_strip s E) in H.
  rewrite E in H. discriminate H.
Qed.

(** ** Dictionaries *)

Lemma dict_has_get (d : dict) (k : string) (v : json) :
  dict_get d k = Some v -> dict_has d k = true.
Proof. unfold dict_has. intros ->. reflexivity. Qed.

Lemma dict_has_none (d : dict) (k : string) :
  dict_get d k = None -> dict_has d k = false.
Proof. unfold dict_has. intros ->. reflexivity. Qed.

Lemma dict_get_set_same (d : dict) (k : string) (v : json) :
  dict_get (dict_set d k v) k = Some v.
Proof.
  induction d as [|[k' v'] r IH]; simpl.
  - rewrite String.eqb_refl. reflexivity.
  - destruct (k' =? k) eqn:E; simpl; rewrite E; auto.
Qed.

Lemma dict_get_set_other (d : dict) (k k' : string) (v : json) :
  k <> k' -> dict_get (dict_set d k v) k' = dict_get d k'.
Proof.
  intro Hne. induction d as [|[k0 v0] r IH]; simpl.
  - destruct (k =? k') eqn:E; [apply String.eqb_eq in E; contradiction | reflexivity].
  - destruct (k0 =? k) eqn:E; simpl.
    + apply String.eqb_eq in E. subst k0.
      destruct (k =? k') eqn:E'; [apply String.eqb_eq in E'; contradiction | reflexivity].
    + rewrite IH. reflexivity.
Qed.

(** ** Title derivation *)

(** What one field contributes to the loop agrees with the candidate of
    the specification, on a value that is text or false. *)
Lemma scan_fields_step (d : dict) (field : string) (rest : list string) :
  match dict_get d field with
  | Some v => text_or_falsy v = true
  | None => True
  end ->
  scan_fields (field :: rest) (JDict d) =
  match field_candidate d field with
  | Some t => Ok t
  | None => scan_fields rest (JDict d)
  end.
Proof.
  unfold field_candidate. cbn [scan_fields py_in py_getitem bind].
  unfold dict_has. destruct (dict_get d field) as [v|]; [|reflexivity].
  intro Hv. cbn [bind].
  destruct v as [| b | z | s | l | sd];
    try (cbn [text_or_falsy] in Hv; apply negb_true_iff in Hv; rewrite Hv;
         reflexivity).
  cbn [truthy py_lower py_strip bind candidate].
  destruct (PyStr.nonempty s) eqn:Hs.
  - destruct (PyStr.lower (PyStr.strip s) =? "unknown") eqn:Hu.
    + rewrite andb_false_r. destruct (PyStr.lower s =? "unknown"); reflexivity.
    + rewrite (lower_strip_known s Hu). cbn [negb bind].
      destruct (PyStr.nonempty (PyStr.strip s)); reflexivity.
  - destruct s; [reflexivity | discriminate Hs].
Qed.

Lemma scan_fields_first_candidate (d : dict) (fields : list string) :
  forallb (fun field => match dict_get d field with
                        | Some v => text_or_falsy v
                        | None => true
                        end) fields = true ->
  scan_fields fields (JDict d) =
  Ok (match first_candidate fields d with
      | Some t => t
      | None => "Untitled Asset"
      end).
Proof.
  induction fields as [|field rest IH]; intro H.
  - reflexivity.
  - cbn [forallb] in H. apply andb_true_iff in H. destruct H as [Hf Hr].
    rewrite scan_fields_step.
    + cbn [first_candidate]. destruct (field_candidate d field); auto.
    + destruct (dict_get d field); [exact Hf | exact I].
Qed.

Lemma candidate_nonempty (v : json) (t : string) :
  candidate v = Some t -> PyStr.nonempty t = true.
Proof.
  destruct v; cbn; try discriminate.
  destruct (PyStr.nonempty (PyStr.strip s)) eqn:E; cbn; [|discriminate].
  destruct (negb _); [|discriminate]. intro H. injection H as <-. exact E.
Qed.

Lemma first_candidate_nonempty (d : dict) (fields : list string) (t : string) :
  first_candidate fields d = Some t -> PyStr.nonempty t = true.
Proof.
  induction fields as [|field rest IH]; cbn; [discriminate|].
  unfold field_candidate.
  destruct (dict_get d field) as [v|]; [|exact IH].
  destruct (candidate v) eqn:E; [|exact IH].
  intro H. injection H as <-. exact (candidate_nonempty _ _ E).
Qed.

(** The summary block returns the trimmed name of a usable summary. *)
Lemma summary_title_usable (d sd : dict) (s : string) :
  dict_get d "summary" = Some (JDict sd) ->
  dict_get sd "asset_name" = Some (JStr s) ->
  PyStr.nonempty (PyStr.strip s) = true ->
  (PyStr.lower s =? "unknown") = false ->
  summary_title (JDict d) = Ok (Some (PyStr.strip s)).
Proof.
  intros Hd Hsd Hne Hu. unfold summary_title.
  cbn [py_in py_getitem bind]. rewrite (dict_has_get _ _ _ Hd), Hd.
  cbn [bind isinstance_dict py_in py_getitem].
  rewrite (dict_has_get _ _ _ Hsd), Hsd.
  cbn [bind truthy py_lower py_strip].
  rewrite (strip_nonempty _ Hne), Hu. cbn [negb bind]. rewrite Hne. reflexivity.
Qed.

(** The summary block ends in a title that is not empty, or falls through,
    and does not raise on a name that is text or false. *)
Lemma summary_title_total (d : dict) :
  names_are_text d = true ->
  summary_title (JDict d) = Ok None \/
  exists t, summary_title (JDict d) = Ok (Some t) /\ PyStr.nonempty t = true.
Proof.
  unfold names_are_text. intro H. apply andb_true_iff in H. destruct H as [H _].
  unfold summary_title. cbn [py_in py_getitem bind]. unfold dict_has.
  destruct (dict_get d "summary") as [v|]; [|left; reflexivity].
  cbn [bind]. destruct v as [| b | z | s | l | sd]; try (left; reflexivity).
  cbn [isinstance_dict py_in py_getitem bind]. unfold dict_has.
  destruct (dict_get sd "asset_name") as [a|]; [|left; reflexivity].
  cbn [bind].
  destruct a as [| b | z | s | l | sd'];
    try (cbn [text_or_falsy] in H; apply negb_true_iff in H; rewrite H;
         left; reflexivity).
  cbn [truthy py_lower py_strip bind].
  destruct (PyStr.nonempty s); [|left; reflexivity].
  destruct (PyStr.lower s =? "unknown"); cbn [negb bind]; [left; reflexivity|].
  destruct (PyStr.nonempty (PyStr.strip s)) eqn:E; [|left; reflexivity].
  right. exists (PyStr.strip s). split; [reflexivity | exact E].
Qed.

(** When the mapping has an object under [summary] whose [asset_name] is
    a string that is not empty once trimmed and whose trimmed lowercase
    form is not "unknown", title derivation returns the trimmed name,
    whatever else the mapping holds. *)
Lemma summary_asset_name_is_title (d sd : dict) (s : string) :
  dict_get d "summary" = Some (JDict sd) ->
  dict_get sd "asset_name" = Some (JStr s) ->
  PyStr.nonempty (PyStr.strip s) = true ->
  PyStr.lower (PyStr.strip s) <> "unknown" ->
  update_asset_title_from_result (JDict d) = Ok (PyStr.strip s).
Proof.
  intros Hd Hsd Hne Hu. unfold update_asset_title_from_result.
  rewrite (summary_title_usable d sd s Hd Hsd Hne); [reflexivity|].
  apply lower_strip_known. apply String.eqb_neq. exact Hu.
Qed.

Lemma summary_asset_name_is_title_witness :
  update_asset_title_from_result (JDict sodium_chloride) = Ok "Sodium Chloride".
Proof.
  apply (summary_asset_name_is_title sodium_chloride
           [("asset_name", JStr "  Sodium Chloride "); ("asset_type", JStr "chemical")]
           "  Sodium Chloride ").
  - reflexivity.
  - reflexivity.
  - reflexivity.
  - discriminate.
Defined.

(** C1.  The summary block compares the name with "unknown" before it
    trims it: a summary name that is "unknown" with white space around it
    passes the comparison and is returned as the title, "unknown".  The
    loop over the flat fields compares again after trimming, and passes
    over the same value. *)
Theorem summary_unknown_compared_untrimmed :
  update_asset_title_from_result
    (JDict [("summary", JDict [("asset_name", JStr " unknown ")]); ("name", JStr "Beaker")])
  = Ok "unknown" /\
  update_asset_title_from_result
    (JDict [("name", JStr " unknown "); ("title", JStr "Beaker")])
  = Ok "Beaker".
Proof. split; reflexivity. Qed.

(** A summary name that is blank, or "unknown" in another letter case, is
    not used: the title comes from the flat fields. *)
Example summary_blank_name :
  update_asset_title_from_result
    (JDict [("summary", JDict [("asset_name", JStr "   ")]); ("name", JStr "Beaker")])
  = Ok "Beaker".
Proof. reflexivity. Qed.

Example summary_capital_unknown :
  update_asset_title_from_result
    (JDict [("summary", JDict [("asset_name", JStr "UNKNOWN")]); ("name", JStr "Beaker")])
  = Ok "Beaker".
Proof. reflexivity. Qed.

(** Title derivation returns on a mapping whose inspected names are text
    or false. *)
Lemma title_returned (d : dict) :
  names_are_text d = true ->
  exists t, update_asset_title_from_result (JDict d) = Ok t.
Proof.
  intro H. unfold update_asset_title_from_result.
  destruct (summary_title_total d H) as [E | [t [E _]]]; rewrite E; cbn [bind].
  - unfold names_are_text in H. apply andb_true_iff in H. destruct H as [_ H].
    rewrite (scan_fields_first_candidate d name_fields H). eexists. reflexivity.
  - exists t. reflexivity.
Qed.

(** A summary that offers a candidate does not hold a padded "unknown". *)
Lemma summary_candidate_not_padded (d : dict) (n : string) :
  summary_candidate d = Some n -> summary_padded_unknown d = false.
Proof.
  unfold summary_candidate, summary_padded_unknown, field_candidate.
  destruct (dict_get d "summary") as [[| b | z | s0 | l | sd]|]; try discriminate.
  destruct (dict_get sd "asset_name") as [[| b | z | s | l | sd']|]; try discriminate.
  cbn [candidate].
  destruct (PyStr.lower (PyStr.strip s) =? "unknown"); [|reflexivity].
  rewrite andb_false_r. discriminate.
Qed.

(** What the summary block returns, in the words of the specification:
    the candidate of the summary, on a mapping whose names are text or
    false and whose summary name is not a padded "unknown". *)
Lemma summary_title_candidate (d : dict) :
  names_are_text d = true ->
  summary_padded_unknown d = false ->
  summary_title (JDict d) = Ok (summary_candidate d).
Proof.
  unfold names_are_text, summary_padded_unknown, summary_candidate, field_candidate.
  intros H P. apply andb_true_iff in H. destruct H as [H _].
  unfold summary_title. cbn [py_in py_getitem bind]. unfold dict_has.
  destruct (dict_get d "summary") as [v|]; [|reflexivity].
  cbn [bind]. destruct v as [| b | z | s0 | l | sd]; try reflexivity.
  cbn [isinstance_dict py_in py_getitem bind]. unfold dict_has.
  destruct (dict_get sd "asset_name") as [a|]; [|reflexivity].
  cbn [bind].
  destruct a as [| b | z | s | l | sd'];
    try (cbn [text_or_falsy] in H; apply negb_true_iff in H; rewrite H;
         reflexivity).
  cbn [truthy py_lower py_strip bind candidate].
  destruct (PyStr.nonempty s) eqn:Hs.
  - destruct (PyStr.lower s =? "unknown") eqn:Hu; cbn [negb bind].
    + apply String.eqb_eq in Hu. rewrite (lower_unknown_strip s Hu), Hu.
      rewrite andb_false_r. reflexivity.
    + cbn [negb] in P. rewrite andb_true_r in P. rewrite P. cbn [negb].
      rewrite andb_true_r. destruct (PyStr.nonempty (PyStr.strip s)); reflexivity.
  - destruct s; [reflexivity | discriminate Hs].
Qed.

(** C2 (amended).  On a mapping whose inspected names are text (or false
    in a condition), title derivation returns a title that is not empty.
    It is the candidate of the summary when there is one; when there is
    none (and the summary name is not "unknown" with white space around
    it) it is the first candidate among the flat fields in their order,
    and "Untitled Asset" when no field offers one. *)
Theorem title_never_empty (d : dict) :
  names_are_text d = true ->
  exists t,
    update_asset_title_from_result (JDict d) = Ok t /\
    PyStr.nonempty t = true /\
    (forall n, summary_candidate d = Some n -> t = n) /\
    (summary_candidate d = None ->
     summary_padded_unknown d = false ->
     t = match first_candidate name_fields d with
         | Some c => c
         | None => "Untitled Asset"
         end).
Proof.
  intro H.
  assert (F : scan_fields name_fields (JDict d)
              = Ok (match first_candidate name_fields d with
                    | Some c => c
                    | None => "Untitled Asset"
                    end)).
  { apply scan_fields_first_candidate.
    unfold names_are_text in H. apply andb_true_iff in H. exact (proj2 H). }
  assert (N : PyStr.nonempty (match first_candidate name_fields d with
                              | Some c => c
                              | None => "Untitled Asset"
                              end) = true).
  { destruct (first_candidate name_fields d) eqn:E; [|reflexivity].
    exact (first_candidate_nonempty _ _ _ E). }
  unfold update_asset_title_from_result.
  destruct (summary_padded_unknown d) eqn:P.
  - destruct (summary_title_total d H) as [E | [t [E Ht]]]; rewrite E; cbn [bind].
    + rewrite F. eexists. split; [reflexivity|]. split; [exact N|].
      split; [|discriminate].
      intros n C. rewrite (summary_candidate_not_padded d n C) in P. discriminate P.
    + exists t. split; [reflexivity|]. split; [exact Ht|].
      split; [|discriminate].
      intros n C. rewrite (summary_candidate_not_padded d n C) in P. discriminate P.
  - rewrite (summary_title_candidate d H P).
    destruct (summary_candidate d) as [n|] eqn:C; cbn [bind].
    + exists n. split; [reflexivity|]. split.
      * unfold summary_candidate in C.
        destruct (dict_get d "summary") as [[| b | z | s0 | l | sd]|]; try discriminate C.
        unfold field_candidate in C.
        destruct (dict_get sd "asset_name") as [a|]; [|discriminate C].
        exact (candidate_nonempty _ _ C).
      * split; [intros m M; injection M as <-; reflexivity | discriminate].
    + rewrite F. eexists. split; [reflexivity|]. split; [exact N|].
      split; [discriminate | intros _ _; reflexivity].
Qed.

Lemma title_never_empty_witness :
  exists t,
    update_asset_title_from_result (JDict ethanol) = Ok t /\
    PyStr.nonempty t = true /\
    (forall n, summary_candidate ethanol = Some n -> t = n) /\
    (summary_candidate ethanol = None ->
     summary_padded_unknown ethanol = false ->
     t = match first_candidate name_fields ethanol with
         | Some c => c
         | None => "Untitled Asset"
         end).
Proof. apply (title_never_empty ethanol). reflexivity. Defined.

Example ethanol_title : update_asset_title_from_result (JDict ethanol) = Ok "Ethanol".
Proof. reflexivity. Qed.

Example sodium_chloride_title :
  summary_candidate sodium_chloride = Some "Sodium Chloride" /\
  first_candidate name_fields sodium_chloride = Some "Salt" /\
  update_asset_title_from_result (JDict sodium_chloride) = Ok "Sodium Chloride".
Proof. repeat split. Qed.

Example no_name_title :
  update_asset_title_from_result (JDict [("purity", JStr "99%")]) = Ok "Untitled Asset".
Proof. reflexivity. Qed.

(** C2 as stated fails: a name that is a number makes title derivation
    raise instead of returning a title. *)
Lemma number_name_raises :
  ~ (forall d : dict,
        exists t, update_asset_title_from_result (JDict d) = Ok t /\
                  PyStr.nonempty t = true).
Proof.
  intro H. destruct (H [("name", JNum 42)]) as [t [E _]].
  cbv in E. discriminate E.
Qed.

(** ** The line-oriented result *)

Lemma scalar_dict_set (d : dict) (k : string) (v : json) :
  scalar_values d -> is_scalar v = true -> scalar_values (dict_set d k v).
Proof.
  unfold scalar_values. intros Hd Hv.
  induction d as [|[k' v'] r IH]; cbn [dict_set].
  - constructor; [exact Hv | constructor].
  - inversion Hd as [|x l Hx Hl]; subst.
    destruct (k' =? k); constructor; auto.
Qed.

Lemma scalar_parse_line (d : dict) (line : string) :
  scalar_values d -> scalar_values (parse_line d line).
Proof.
  intro H. unfold parse_line. destruct (PyStr.has_char line ":"); [|exact H].
  destruct (PyStr.split_once ":" line) as [key value].
  apply scalar_dict_set; [exact H | reflexivity].
Qed.

Lemma scalar_fold_lines (lines : list string) (d : dict) :
  scalar_values d -> scalar_values (fold_left parse_line lines d).
Proof.
  revert d. induction lines as [|line rest IH]; intros d H; cbn [fold_left].
  - exact H.
  - apply IH. apply scalar_parse_line. exact H.
Qed.

Lemma scalar_line_result (text : string) (template_id : option Z) :
  scalar_values (line_result text template_id).
Proof.
  assert (H : scalar_values (parse_lines text))
    by (apply scalar_fold_lines; constructor).
  unfold line_result.
  set (r := if negb (dict_has (parse_lines text) "name")
               && negb (dict_has (parse_lines text) "asset_name")
            then dict_set (parse_lines text) "asset_name" (JStr "Unnamed Asset")
            else parse_lines text).
  assert (Hr : scalar_values r).
  { unfold r. destruct (_ && _); [apply scalar_dict_set; [exact H | reflexivity] | exact H]. }
  destruct template_id as [z|]; [|exact Hr].
  destruct (id_truthy (Some z)); [apply scalar_dict_set; [exact Hr | reflexivity] | exact Hr].
Qed.

Lemma scalar_get (d : dict) (k : string) (v : json) :
  scalar_values d -> dict_get d k = Some v -> is_scalar v = true.
Proof.
  unfold scalar_values. induction d as [|[k' v'] r IH]; cbn [dict_get]; intros Hd Hg.
  - discriminate Hg.
  - inversion Hd as [|x l Hx Hl]; subst.
    destruct (k' =? k); [injection Hg as <-; exact Hx | exact (IH Hl Hg)].
Qed.

(** A mapping without an object under [summary] gets no title from the
    summary block. *)
Lemma summary_title_scalar (d : dict) :
  scalar_values d -> summary_title (JDict d) = Ok None.
Proof.
  intro H. unfold summary_title. cbn [py_in py_getitem bind]. unfold dict_has.
  destruct (dict_get d "summary") as [v|] eqn:E; [|reflexivity].
  cbn [bind]. pose proof (scalar_get d "summary" v H E) as Hv.
  destruct v; try discriminate Hv; reflexivity.
Qed.

(** The placeholder is in the result, and the names that were absent
    stay absent. *)
Lemma line_result_placeholder (text : string) (template_id : option Z) :
  dict_has (parse_lines text) "name" = false ->
  dict_has (parse_lines text) "asset_name" = false ->
  dict_get (line_result text template_id) "asset_name" = Some (JStr "Unnamed Asset") /\
  dict_get (line_result text template_id) "name" = None.
Proof.
  intros Hn Ha. unfold line_result. rewrite Hn, Ha. cbn [negb andb].
  assert (Hname : dict_get (parse_lines text) "name" = None).
  { unfold dict_has in Hn. destruct (dict_get (parse_lines text) "name");
      [discriminate Hn | reflexivity]. }
  assert (B : dict_get (dict_set (parse_lines text) "asset_name" (JStr "Unnamed Asset"))
                "asset_name" = Some (JStr "Unnamed Asset") /\
              dict_get (dict_set (parse_lines text) "asset_name" (JStr "Unnamed Asset"))
                "name" = None).
  { split; [apply dict_get_set_same|].
    rewrite dict_get_set_other; [exact Hname | discriminate]. }
  destruct template_id as [z|]; [|exact B].
  destruct (id_truthy (Some z)); [|exact B].
  rewrite (dict_get_set_other _ "template_id" "asset_name") by discriminate.
  rewrite (dict_get_set_other _ "template_id" "name") by discriminate.
  exact B.
Qed.

(** The first [try] passes to the lines exactly when the text is not
    between braces or is not JSON. *)
Lemma try_json_passes (text : string) :
  try_json text = Passes <->
  between_braces text = false \/ Json.loads text = Json.JSONDecodeError.
Proof.
  unfold try_json. destruct (between_braces text).
  - destruct (Json.loads text); split; intro H;
      try discriminate H; try (right; reflexivity); try reflexivity;
      destruct H as [H | H]; discriminate H.
  - split; [left; reflexivity | reflexivity].
Qed.

(** C3 (amended).  When the text goes to the line-oriented fallback (it
    is not between braces, or it is not JSON) and the lines yield neither
    [name] nor [asset_name], the parser adds [asset_name] with the
    placeholder "Unnamed Asset", and the title derived from the resulting
    mapping is that placeholder. *)
Theorem placeholder_becomes_title (text : string) (template_id : option Z) :
  between_braces text = false \/ Json.loads text = Json.JSONDecodeError ->
  dict_has (parse_lines text) "name" = false ->
  dict_has (parse_lines text) "asset_name" = false ->
  exists d,
    parse_llm_response (Text text) template_id = Some (JDict d) /\
    dict_get d "asset_name" = Some (JStr "Unnamed Asset") /\
    update_asset_title_from_result (JDict d) = Ok "Unnamed Asset".
Proof.
  intros Hj Hn Ha. exists (line_result text template_id).
  apply try_json_passes in Hj.
  destruct (line_result_placeholder text template_id Hn Ha) as [Hp Hname].
  split; [cbn [parse_llm_response]; rewrite Hj; reflexivity|].
  split; [exact Hp|].
  unfold update_asset_title_from_result.
  rewrite (summary_title_scalar _ (scalar_line_result text template_id)).
  cbn [bind]. unfold name_fields.
  rewrite scan_fields_step by (rewrite Hname; exact I).
  unfold field_candidate at 1. rewrite Hname.
  rewrite scan_fields_step by (rewrite Hp; reflexivity).
  unfold field_candidate. rewrite Hp. reflexivity.
Qed.

Lemma placeholder_becomes_title_witness :
  exists d,
    parse_llm_response (Text volume_text) (Some 3%Z) = Some (JDict d) /\
    dict_get d "asset_name" = Some (JStr "Unnamed Asset") /\
    update_asset_title_from_result (JDict d) = Ok "Unnamed Asset".
Proof.
  apply (placeholder_becomes_title volume_text (Some 3%Z));
    [left; reflexivity | reflexivity | reflexivity].
Defined.

(** C3 as stated fails: the placeholder is used as the title, the default
    "Untitled Asset" is not reached. *)
Lemma placeholder_not_untitled :
  ~ (forall (text : string) (template_id : option Z),
        between_braces text = false \/ Json.loads text = Json.JSONDecodeError ->
        dict_has (parse_lines text) "name" = false ->
        dict_has (parse_lines text) "asset_name" = false ->
        exists d,
          parse_llm_response (Text text) template_id = Some (JDict d) /\
          update_asset_title_from_result (JDict d) = Ok "Untitled Asset").
Proof.
  intro H.
  destruct (H volume_text None (or_introl eq_refl) eq_refl eq_refl) as [d [P E]].
  vm_compute in P. injection P as <-.
  vm_compute in E. discriminate E.
Qed.

(** The scenario of the specification: names that the lines do give. *)
Example beaker_lines :
  let text := "Name: Beaker" ++ String newline "Volume: 500ml" in
  parse_llm_response (Text text) None
  = Some (JDict [("name", JStr "Beaker"); ("volume", JStr "500ml")]) /\
  update_asset_title_from_result
    (JDict [("name", JStr "Beaker"); ("volume", JStr "500ml")]) = Ok "Beaker".
Proof. split; reflexivity. Qed.

(** A text between braces that is JSON, with a number that is no integer:
    the parser returns what it decodes, and the lines are not read. *)
Example purity_float :
  let text := Json.text "{'purity': 99.5}" in
  between_braces text = true /\
  Json.loads text = Json.Beyond /\
  parse_llm_response (Text text) None = None.
Proof. repeat split. Qed.

(** ** Where the text between the braces is decoded *)

(** C5 (amended).  The text between the first opening and the last closing
    brace is decoded by the vision client, [AnthropicLLM.analyze_image]:
    when it decodes to an object, that object is the client's result, and
    [parse_llm_response] returns such a mapping unchanged.  On a text,
    [parse_llm_response] decodes the whole text only, and goes to the
    lines when that gives nothing. *)
Theorem braces_decoded_by_client (content : string) (d : dict) (template_id : option Z) :
  (0 <= PyStr.find "{" content)%Z ->
  (0 <= PyStr.rfind "}" content)%Z ->
  Json.loads (PyStr.slice content (PyStr.find "{" content)
                (PyStr.rfind "}" content + 1)) = Json.Decoded (JDict d) ->
  AnthropicLLM.analyze_image content = Some (JDict d) /\
  parse_llm_response (Mapping d) template_id = Some (JDict d) /\
  (between_braces content = false \/ Json.loads content = Json.JSONDecodeError ->
   parse_llm_response (Text content) template_id
   = Some (JDict (line_result content template_id))).
Proof.
  intros Hs He Hl. split; [|split].
  - unfold AnthropicLLM.analyze_image.
    apply Z.leb_le in Hs. apply Z.leb_le in He. rewrite Hs, He, Hl. reflexivity.
  - reflexivity.
  - intro Hj. apply try_json_passes in Hj.
    cbn [parse_llm_response]. rewrite Hj. reflexivity.
Qed.

Lemma braces_decoded_by_client_witness :
  AnthropicLLM.analyze_image prose_text = Some (JDict [("name", JStr "Beaker")]) /\
  parse_llm_response (Mapping [("name", JStr "Beaker")]) None
  = Some (JDict [("name", JStr "Beaker")]) /\
  (between_braces prose_text = false \/ Json.loads prose_text = Json.JSONDecodeError ->
   parse_llm_response (Text prose_text) None
   = Some (JDict (line_result prose_text None))).
Proof.
  apply (braces_decoded_by_client prose_text [("name", JStr "Beaker")] None).
  - vm_compute. discriminate.
  - vm_compute. discriminate.
  - vm_compute. reflexivity.
Defined.

(** C5 as stated fails for [parse_llm_response]: a text that holds an
    object after some prose is split into lines, the object is not
    decoded. *)
Lemma prose_wrapped_object_not_decoded :
  ~ (forall (text : string) (d : dict),
        Json.loads (PyStr.strip text) = Json.JSONDecodeError ->
        (0 <= PyStr.find "{" text)%Z ->
        (0 <= PyStr.rfind "}" text)%Z ->
        Json.loads (PyStr.slice text (PyStr.find "{" text)
                      (PyStr.rfind "}" text + 1)) = Json.Decoded (JDict d) ->
        parse_llm_response (Text text) None = Some (JDict d)).
Proof.
  intro H.
  assert (E : parse_llm_response (Text prose_text) None
              = Some (JDict [("name", JStr "Beaker")])).
  { apply H.
    - vm_compute. reflexivity.
    - vm_compute. discriminate.
    - vm_compute. discriminate.
    - vm_compute. reflexivity. }
  vm_compute in E. discriminate E.
Qed.

(** ** Configuration paths *)

Lemma split_not_nil (c : ascii) (s : string) : PyStr.split c s <> [].
Proof.
  destruct s as [|d r]; cbn [PyStr.split]; [discriminate|].
  destruct (d =? c)%char; [discriminate|].
  destruct (PyStr.split c r); discriminate.
Qed.

(** After [set_path] the whole path resolves to the value. *)
Lemma walk_set_path (keys : list string) (value : json) :
  keys <> [] ->
  forall d, ConfigManager.walk (JDict (ConfigManager.set_path d keys value)) keys
            = Ok value.
Proof.
  induction keys as [|key rest IH]; intro Hne; [contradiction|].
  intro d. destruct rest as [|key2 rest].
  - cbn [ConfigManager.set_path ConfigManager.walk py_getitem bind].
    rewrite dict_get_set_same. reflexivity.
  - cbn [ConfigManager.set_path]. cbn [ConfigManager.walk py_getitem].
    rewrite dict_get_set_same. cbn [bind]. apply IH. discriminate.
Qed.

(** After [set_path] every proper prefix of the path resolves to an
    object. *)
Lemma walk_set_path_prefix (keys : list string) (value : json) :
  forall d n,
    (0 < n < List.length keys)%nat ->
    exists sd, ConfigManager.walk (JDict (ConfigManager.set_path d keys value))
                 (firstn n keys) = Ok (JDict sd).
Proof.
  induction keys as [|key rest IH]; intros d n Hn; cbn [List.length] in Hn; [lia|].
  destruct n as [|m]; [lia|].
  destruct rest as [|key2 rest]; cbn [List.length] in Hn; [lia|].
  cbn [ConfigManager.set_path firstn]. cbn [ConfigManager.walk py_getitem].
  rewrite dict_get_set_same. cbn [bind].
  destruct m as [|m].
  - cbn [firstn ConfigManager.walk]. eexists. reflexivity.
  - apply IH. cbn [List.length]. lia.
Qed.

Lemma walk_raises (keys : list string) :
  forall (config : json) (e : exn),
    ConfigManager.walk config keys = Raise e -> e = KeyError \/ e = TypeError.
Proof.
  induction keys as [|key rest IH]; intros config e; cbn [ConfigManager.walk].
  - discriminate.
  - destruct config as [| b | z | s | l | d]; cbn [py_getitem bind];
      try (intro H; injection H as <-; right; reflexivity).
    destruct (dict_get d key) as [v|]; cbn [bind].
    + apply IH.
    + intro H; injection H as <-; left; reflexivity.
Qed.

(** C10.  On a configuration document, [set_value] followed by
    [get_value] on the same dotted path returns the value that was set:
    [set_value] leaves an object at every proper prefix of the path, and
    [get_value] resolves the whole path.  [get_value] never raises: it
    returns the default whenever the path does not resolve. *)
Theorem set_value_get_value (d : dict) (key_path : string) (value default : json)
        (saved : bool) :
  let config := fst (ConfigManager.set_value saved (JDict d) key_path value) in
  ConfigManager.get_value config key_path default = Ok value /\
  (forall n, (0 < n < List.length (PyStr.split "." key_path))%nat ->
             exists sd, ConfigManager.walk config (firstn n (PyStr.split "." key_path))
                        = Ok (JDict sd)) /\
  (forall (any : json) (path : string) (dflt : json),
      exists v, ConfigManager.get_value any path dflt = Ok v /\
                (forall e, ConfigManager.walk any (PyStr.split "." path) = Raise e ->
                           v = dflt)).
Proof.
  cbn [ConfigManager.set_value fst]. split; [|split].
  - unfold ConfigManager.get_value.
    rewrite walk_set_path by apply split_not_nil. reflexivity.
  - intros n Hn. apply walk_set_path_prefix. exact Hn.
  - intros any path dflt. unfold ConfigManager.get_value.
    destruct (ConfigManager.walk any (PyStr.split "." path)) as [v|e] eqn:W.
    + exists v. split; [reflexivity | discriminate].
    + exists dflt. destruct (walk_raises _ _ _ W) as [-> | ->];
        (split; [reflexivity | intros; reflexivity]).
Qed.

Example set_value_replaces_scalar :
  fst (ConfigManager.set_value true (JDict sample_config) "ui.theme.name" (JStr "dark"))
  = JDict [("llm", JDict [("provider", JStr "openai"); ("api_key", JStr "")]);
           ("elabftw", JDict [("api_url", JStr "https://10.159.64.205:3148/api/v2");
                              ("verify_ssl", JBool false)]);
           ("ui", JDict [("theme", JDict [("name", JStr "dark")])])].
Proof. reflexivity. Qed.

Example get_value_default :
  ConfigManager.get_value (JDict sample_config) "llm.model.name" (JStr "none")
  = Ok (JStr "none") /\
  ConfigManager.get_value (JDict sample_config) "ui.theme" JNull = Ok JNull /\
  ConfigManager.get_value (JDict sample_config) "elabftw.verify_ssl" JNull
  = Ok (JBool false).
Proof. repeat split. Qed.

(** ** Labels *)

Lemma append_assoc (a b c : string) : (a ++ b) ++ c = a ++ (b ++ c).
Proof. induction a as [|x a IH]; cbn; [reflexivity | rewrite IH; reflexivity]. Qed.

Lemma lower_append (a b : string) :
  PyStr.lower (a ++ b) = PyStr.lower a ++ PyStr.lower b.
Proof. induction a as [|x a IH]; cbn; [reflexivity | rewrite IH; reflexivity]. Qed.

Lemma endswith_append (a p : string) : PyStr.endswith (a ++ p) p = true.
Proof.
  induction a as [|x a IH]; cbn [append].
  - destruct p; cbn [PyStr.endswith]; rewrite String.eqb_refl; reflexivity.
  - cbn [PyStr.endswith]. rewrite IH. apply orb_true_r.
Qed.

Lemma ensure_png_suffix (a : string) :
  QRCodeGenerator.ensure_png (a ++ ".png") = a ++ ".png".
Proof.
  unfold QRCodeGenerator.ensure_png. rewrite lower_append.
  change (PyStr.lower ".png") with ".png". rewrite endswith_append. reflexivity.
Qed.

Lemma sanitize_append (a b : string) :
  QRCodeGenerator.sanitize (a ++ b)
  = QRCodeGenerator.sanitize a ++ QRCodeGenerator.sanitize b.
Proof.
  induction a as [|x a IH]; cbn [append QRCodeGenerator.sanitize]; [reflexivity|].
  destruct (QRCodeGenerator.keep_char x); cbn [append]; rewrite IH; reflexivity.
Qed.

Lemma sanitize_kept (s : string) :
  all_chars QRCodeGenerator.keep_char (QRCodeGenerator.sanitize s) = true.
Proof.
  induction s as [|c r IH]; cbn [QRCodeGenerator.sanitize]; [reflexivity|].
  destruct (QRCodeGenerator.keep_char c) eqn:E; [|exact IH].
  cbn [all_chars]. rewrite E, IH. reflexivity.
Qed.

Lemma sanitize_fixed (s : string) :
  all_chars QRCodeGenerator.keep_char s = true -> QRCodeGenerator.sanitize s = s.
Proof.
  induction s as [|c r IH]; cbn [all_chars QRCodeGenerator.sanitize]; [reflexivity|].
  intro H. apply andb_true_iff in H. destruct H as [Hc Hr].
  rewrite Hc, (IH Hr). reflexivity.
Qed.

Lemma uint_digits_kept (u : Decimal.uint) :
  all_chars QRCodeGenerator.keep_char (NilEmpty.string_of_uint u) = true.
Proof. induction u; cbn [NilEmpty.string_of_uint all_chars]; auto. Qed.

(** The decimal text of an identifier holds digits and a sign only. *)
Lemma of_int_kept (z : Z) : all_chars QRCodeGenerator.keep_char (PyStr.of_int z) = true.
Proof.
  unfold PyStr.of_int. destruct (Z.to_int z) as [u|u];
    cbn [NilEmpty.string_of_int all_chars]; [|cbn]; apply uint_digits_kept.
Qed.

Lemma sanitize_default_name (asset_id : Z) :
  QRCodeGenerator.sanitize ("asset_" ++ PyStr.of_int asset_id)
  = "asset_" ++ PyStr.of_int asset_id.
Proof.
  rewrite sanitize_append. rewrite (sanitize_fixed _ (of_int_kept asset_id)).
  reflexivity.
Qed.

Lemma has_char_append (a b : string) (c : ascii) :
  PyStr.has_char (a ++ b) c = PyStr.has_char a c || PyStr.has_char b c.
Proof.
  induction a as [|x a IH]; cbn [append PyStr.has_char]; [reflexivity|].
  rewrite IH. apply orb_assoc.
Qed.

Lemma all_chars_append (p : ascii -> bool) (a b : string) :
  all_chars p (a ++ b) = all_chars p a && all_chars p b.
Proof.
  induction a as [|x a IH]; cbn [append all_chars]; [reflexivity|].
  rewrite IH. apply andb_assoc.
Qed.

Lemma all_chars_weaken (p q : ascii -> bool) (s : string) :
  (forall c, p c = true -> q c = true) ->
  all_chars p s = true -> all_chars q s = true.
Proof.
  intro W. induction s as [|c r IH]; cbn [all_chars]; [reflexivity|].
  intro H. apply andb_true_iff in H. destruct H as [Hc Hr].
  rewrite (W c Hc), (IH Hr). reflexivity.
Qed.

Lemma all_chars_has_char (c : ascii) (s : string) :
  all_chars (fun x => negb (x =? c)%char) s = true -> PyStr.has_char s c = false.
Proof.
  induction s as [|x r IH]; cbn [all_chars PyStr.has_char]; [reflexivity|].
  intro H. apply andb_true_iff in H. destruct H as [Hc Hr].
  apply negb_true_iff in Hc. rewrite Hc, (IH Hr). reflexivity.
Qed.

Lemma keep_char_not_newline (c : ascii) :
  QRCodeGenerator.keep_char c = true -> negb (c =? newline)%char = true.
Proof. destruct c as [[] [] [] [] [] [] [] []]; cbn; intro H; congruence. Qed.

(** The caption drawn for a record without a title has one line. *)
Lemma default_caption_one_line (asset_id : Z) :
  PyStr.has_char ("Asset #" ++ PyStr.of_int asset_id) newline = false.
Proof.
  rewrite has_char_append.
  rewrite (all_chars_has_char newline _
             (all_chars_weaken _ _ _ keep_char_not_newline (of_int_kept asset_id))).
  reflexivity.
Qed.

(** The file name that [create_asset_qrcode] makes when none is given. *)
Lemma asset_filename_derived (asset_id : Z) (asset_info : dict) :
  QRCodeGenerator.asset_filename asset_id asset_info None
  = match dict_get asset_info "title" with
    | None => Ok ("asset_" ++ PyStr.of_int asset_id ++ "_" ++ PyStr.of_int asset_id ++ ".png")
    | Some (JStr title) =>
        Ok (QRCodeGenerator.sanitize title ++ "_" ++ PyStr.of_int asset_id ++ ".png")
    | Some _ => Raise TypeError
    end.
Proof.
  unfold QRCodeGenerator.asset_filename, QRCodeGenerator.title_or.
  destruct (dict_get asset_info "title") as [[| b | z | s | l | d]|]; cbn [bind];
    try reflexivity.
  - replace (QRCodeGenerator.sanitize s ++ "_" ++ PyStr.of_int asset_id ++ ".png")
      with ((QRCodeGenerator.sanitize s ++ "_" ++ PyStr.of_int asset_id) ++ ".png")
      by (rewrite !append_assoc; reflexivity).
    rewrite ensure_png_suffix. reflexivity.
  - rewrite sanitize_default_name.
    replace (("asset_" ++ PyStr.of_int asset_id) ++ "_" ++ PyStr.of_int asset_id ++ ".png")
      with ((("asset_" ++ PyStr.of_int asset_id) ++ "_" ++ PyStr.of_int asset_id) ++ ".png")
      by (rewrite !append_assoc; reflexivity).
    rewrite ensure_png_suffix. rewrite !append_assoc. reflexivity.
Qed.

(** When [create_asset_qrcode] saves a label: the code is made, the
    title is a string of one line and the file is written. *)
Lemma create_asset_qrcode_ok (g : QRCodeGenerator.t) (asset_id : Z) (asset_info : dict)
      (filename : option string) (asset_title f : string) :
  QRCodeGenerator.title_or asset_info ("Asset #" ++ PyStr.of_int asset_id) = Ok asset_title ->
  QRCodeGenerator.asset_filename asset_id asset_info filename = Ok f ->
  QRCodeGenerator.encodes g (QRCodeGenerator.asset_qr_data g asset_id) = true ->
  PyStr.has_char asset_title newline = false ->
  QRCodeGenerator.saves g (QRCodeGenerator.path_join (QRCodeGenerator.output_dir g) f) = true ->
  QRCodeGenerator.create_asset_qrcode g asset_id asset_info filename
  = Ok {| QRCodeGenerator.qr_data := Some (QRCodeGenerator.asset_qr_data g asset_id);
          QRCodeGenerator.caption := asset_title;
          QRCodeGenerator.file_path :=
            QRCodeGenerator.path_join (QRCodeGenerator.output_dir g) f |}.
Proof.
  intros T F E N S. unfold QRCodeGenerator.create_asset_qrcode.
  rewrite E, T. cbn [negb bind]. unfold QRCodeGenerator.textlength. rewrite N.
  cbn [bind]. rewrite F. cbn [bind]. unfold QRCodeGenerator.save. rewrite S.
  reflexivity.
Qed.

Lemma create_asset_qrcode_inv (g : QRCodeGenerator.t) (asset_id : Z) (asset_info : dict)
      (filename : option string) (l : QRCodeGenerator.label) :
  QRCodeGenerator.create_asset_qrcode g asset_id asset_info filename = Ok l ->
  exists asset_title f,
    QRCodeGenerator.title_or asset_info ("Asset #" ++ PyStr.of_int asset_id) = Ok asset_title /\
    QRCodeGenerator.asset_filename asset_id asset_info filename = Ok f /\
    QRCodeGenerator.encodes g (QRCodeGenerator.asset_qr_data g asset_id) = true /\
    PyStr.has_char asset_title newline = false /\
    QRCodeGenerator.saves g (QRCodeGenerator.path_join (QRCodeGenerator.output_dir g) f)
    = true /\
    l = {| QRCodeGenerator.qr_data := Some (QRCodeGenerator.asset_qr_data g asset_id);
           QRCodeGenerator.caption := asset_title;
           QRCodeGenerator.file_path :=
             QRCodeGenerator.path_join (QRCodeGenerator.output_dir g) f |}.
Proof.
  unfold QRCodeGenerator.create_asset_qrcode. intro H.
  destruct (QRCodeGenerator.encodes g (QRCodeGenerator.asset_qr_data g asset_id)) eqn:E;
    cbn [negb] in H; [|discriminate H].
  destruct (QRCodeGenerator.title_or asset_info ("Asset #" ++ PyStr.of_int asset_id))
    as [t|e] eqn:T; cbn [bind] in H; [|discriminate H].
  unfold QRCodeGenerator.textlength in H.
  destruct (PyStr.has_char t newline) eqn:N; cbn [bind] in H; [discriminate H|].
  destruct (QRCodeGenerator.asset_filename asset_id asset_info filename)
    as [f|e] eqn:F; cbn [bind] in H; [|discriminate H].
  unfold QRCodeGenerator.save in H.
  destruct (QRCodeGenerator.saves g _) eqn:S; cbn [bind] in H; [|discriminate H].
  injection H as <-. exists t, f. repeat split; assumption.
Qed.

(** The same for [create_label]. *)
Lemma create_label_inv (g : QRCodeGenerator.t) (asset_id : Z) (asset_info : dict)
      (include_qrcode : bool) (filename : option string) (l : QRCodeGenerator.label) :
  QRCodeGenerator.create_label g asset_id asset_info include_qrcode filename = Ok l ->
  exists asset_title f,
    QRCodeGenerator.title_or asset_info ("Asset #" ++ PyStr.of_int asset_id) = Ok asset_title /\
    QRCodeGenerator.label_filename asset_id asset_info filename = Ok f /\
    (include_qrcode = true ->
     QRCodeGenerator.encodes g (QRCodeGenerator.label_qr_data asset_id) = true) /\
    QRCodeGenerator.draw_fields 80 asset_info = Ok tt /\
    QRCodeGenerator.saves g (QRCodeGenerator.path_join (QRCodeGenerator.output_dir g) f)
    = true /\
    l = {| QRCodeGenerator.qr_data :=
             if include_qrcode then Some (QRCodeGenerator.label_qr_data asset_id) else None;
           QRCodeGenerator.caption := asset_title;
           QRCodeGenerator.file_path :=
             QRCodeGenerator.path_join (QRCodeGenerator.output_dir g) f |}.
Proof.
  unfold QRCodeGenerator.create_label. intro H.
  destruct (include_qrcode
            && negb (QRCodeGenerator.encodes g (QRCodeGenerator.label_qr_data asset_id)))
    eqn:E; [discriminate H|].
  destruct (QRCodeGenerator.title_or asset_info ("Asset #" ++ PyStr.of_int asset_id))
    as [t|e] eqn:T; cbn [bind] in H; [|discriminate H].
  destruct (QRCodeGenerator.draw_fields 80 asset_info) as [[]|e] eqn:D; cbn [bind] in H;
    [|discriminate H].
  destruct (QRCodeGenerator.label_filename asset_id asset_info filename)
    as [f|e] eqn:F; cbn [bind] in H; [|discriminate H].
  unfold QRCodeGenerator.save in H.
  destruct (QRCodeGenerator.saves g _) eqn:S; cbn [bind] in H; [|discriminate H].
  injection H as <-. exists t, f. repeat split; try assumption.
  intro I. rewrite I in E. cbn [andb] in E. apply negb_false_iff in E. exact E.
Qed.

(** C9 (amended).  Without an explicit file name the label file is named
    [<stem>_<id>.png], in the output directory, where the stem is the title
    with every character other than alphanumerics, space, underscore and
    hyphen removed; the stem is [asset_<id>] when the record has no title,
    and only then.  The file is written when the code can be made, the
    title has one line and the file can be saved; a title of more than
    one line gives no file. *)
Theorem label_file_name (g : QRCodeGenerator.t) (asset_id : Z) (asset_info : dict) :
  (forall title,
      dict_get asset_info "title" = Some (JStr title) ->
      let stem := QRCodeGenerator.sanitize title in
      let path := QRCodeGenerator.path_join (QRCodeGenerator.output_dir g)
                    (stem ++ "_" ++ PyStr.of_int asset_id ++ ".png") in
      all_chars QRCodeGenerator.keep_char stem = true /\
      (all_chars QRCodeGenerator.keep_char title = true -> stem = title) /\
      (QRCodeGenerator.encodes g (QRCodeGenerator.asset_qr_data g asset_id) = true ->
       PyStr.has_char title newline = false ->
       QRCodeGenerator.saves g path = true ->
       exists l,
         QRCodeGenerator.create_asset_qrcode g asset_id asset_info None = Ok l /\
         QRCodeGenerator.file_path l = path) /\
      (forall l,
          QRCodeGenerator.create_asset_qrcode g asset_id asset_info None = Ok l ->
          QRCodeGenerator.file_path l = path) /\
      (QRCodeGenerator.encodes g (QRCodeGenerator.asset_qr_data g asset_id) = true ->
       PyStr.has_char title newline = true ->
       QRCodeGenerator.create_asset_qrcode g asset_id asset_info None = Raise ValueError)) /\
  (dict_get asset_info "title" = None ->
   let path := QRCodeGenerator.path_join (QRCodeGenerator.output_dir g)
                 ("asset_" ++ PyStr.of_int asset_id ++ "_" ++ PyStr.of_int asset_id
                  ++ ".png") in
   (QRCodeGenerator.encodes g (QRCodeGenerator.asset_qr_data g asset_id) = true ->
    QRCodeGenerator.saves g path = true ->
    exists l,
      QRCodeGenerator.create_asset_qrcode g asset_id asset_info None = Ok l /\
      QRCodeGenerator.file_path l = path) /\
   (forall l,
       QRCodeGenerator.create_asset_qrcode g asset_id asset_info None = Ok l ->
       QRCodeGenerator.file_path l = path)).
Proof.
  pose proof (asset_filename_derived asset_id asset_info) as F.
  split.
  - intros title Ht stem path. rewrite Ht in F.
    assert (T : QRCodeGenerator.title_or asset_info ("Asset #" ++ PyStr.of_int asset_id)
                = Ok title)
      by (unfold QRCodeGenerator.title_or; rewrite Ht; reflexivity).
    split; [apply sanitize_kept|].
    split; [apply sanitize_fixed|].
    split; [|split].
    + intros E N S. eexists. split.
      * exact (create_asset_qrcode_ok g asset_id asset_info None title _ T F E N S).
      * reflexivity.
    + intros l H.
      destruct (create_asset_qrcode_inv _ _ _ _ _ H) as [t [f [_ [F' [_ [_ [_ ->]]]]]]].
      rewrite F in F'. injection F' as <-. reflexivity.
    + intros E N. unfold QRCodeGenerator.create_asset_qrcode.
      rewrite E, T. cbn [negb bind]. unfold QRCodeGenerator.textlength. rewrite N.
      reflexivity.
  - intros Ht path. rewrite Ht in F.
    assert (T : QRCodeGenerator.title_or asset_info ("Asset #" ++ PyStr.of_int asset_id)
                = Ok ("Asset #" ++ PyStr.of_int asset_id))
      by (unfold QRCodeGenerator.title_or; rewrite Ht; reflexivity).
    split.
    + intros E S. eexists. split.
      * exact (create_asset_qrcode_ok g asset_id asset_info None _ _ T F E
                 (default_caption_one_line asset_id) S).
      * reflexivity.
    + intros l H.
      destruct (create_asset_qrcode_inv _ _ _ _ _ H) as [t [f [_ [F' [_ [_ [_ ->]]]]]]].
      rewrite F in F'. injection F' as <-. reflexivity.
Qed.

Lemma label_file_name_witness :
  (exists l,
      QRCodeGenerator.create_asset_qrcode sample_generator 42
        [("id", JNum 42); ("title", JStr "Sodium Chloride (99%)")] None = Ok l /\
      QRCodeGenerator.file_path l = "qrcodes/Sodium Chloride 99_42.png") /\
  (exists l,
      QRCodeGenerator.create_asset_qrcode sample_generator 42 [("id", JNum 42)] None = Ok l /\
      QRCodeGenerator.file_path l = "qrcodes/asset_42_42.png").
Proof.
  split.
  - apply (proj1 (proj2 (proj2 (proj1 (label_file_name sample_generator 42
                    [("id", JNum 42); ("title", JStr "Sodium Chloride (99%)")])
             "Sodium Chloride (99%)" eq_refl)))); reflexivity.
  - apply (proj1 (proj2 (label_file_name sample_generator 42 [("id", JNum 42)]) eq_refl));
      reflexivity.
Defined.

(** C9 as stated fails: a title of which no character is kept is unusable
    as a file name, yet the name does not fall back to [asset_<id>]. *)
Lemma unusable_title_no_default :
  ~ (forall (asset_id : Z) (asset_info : dict) (title : string),
        dict_get asset_info "title" = Some (JStr title) ->
        QRCodeGenerator.sanitize title = "" ->
        exists f,
          QRCodeGenerator.asset_filename asset_id asset_info None = Ok f /\
          PyStr.startswith f ("asset_" ++ PyStr.of_int asset_id) = true).
Proof.
  intro H.
  destruct (H 42%Z [("title", JStr "???")] "???" eq_refl eq_refl) as [f [E P]].
  vm_compute in E. injection E as <-. vm_compute in P. discriminate P.
Qed.

Example unusable_title_file :
  QRCodeGenerator.asset_filename 42 [("title", JStr "???")] None = Ok "_42.png" /\
  exists l,
    QRCodeGenerator.create_asset_qrcode sample_generator 42 [("title", JStr "???")] None
    = Ok l /\
    QRCodeGenerator.file_path l = "qrcodes/_42.png".
Proof. split; [reflexivity | eexists; split; reflexivity]. Qed.

(** A title of two lines: the record gets no label. *)
Example two_line_title :
  QRCodeGenerator.create_asset_qrcode sample_generator 42
    [("title", JStr ("Sodium" ++ String newline "Chloride"))] None
  = Raise ValueError.
Proof. reflexivity. Qed.

(** [create_asset_qrcode] encodes the URL made of the configured base URL,
    the view path and the record id, under the title as caption. *)
Lemma asset_qrcode_url (make save : string -> bool) (dir : string) (config : json)
      (g : QRCodeGenerator.t) (asset_id : Z) (asset_info : dict)
      (l : QRCodeGenerator.label) :
  QRCodeGenerator.init make save dir config = Ok g ->
  QRCodeGenerator.create_asset_qrcode g asset_id asset_info None = Ok l ->
  QRCodeGenerator.qr_data l
  = Some (QRCodeGenerator.base_url g ++ "/database.php?mode=view&id="
          ++ PyStr.of_int asset_id) /\
  QRCodeGenerator.init_base_url config = Ok (QRCodeGenerator.base_url g) /\
  QRCodeGenerator.title_or asset_info ("Asset #" ++ PyStr.of_int asset_id)
  = Ok (QRCodeGenerator.caption l).
Proof.
  intros Hg H. unfold QRCodeGenerator.init in Hg.
  destruct (QRCodeGenerator.init_base_url config) as [b|e]; cbn [bind] in Hg;
    [|discriminate Hg].
  injection Hg as <-.
  destruct (create_asset_qrcode_inv _ _ _ _ _ H) as [t [f [T [_ [_ [_ [_ ->]]]]]]].
  split; [reflexivity|]. split; [reflexivity | exact T].
Qed.

(** [create_label] does not read the generator's base URL. *)
Lemma create_label_any_base (g : QRCodeGenerator.t) (b : string) (asset_id : Z)
      (asset_info : dict) (include_qrcode : bool) (filename : option string) :
  QRCodeGenerator.create_label g asset_id asset_info include_qrcode filename
  = QRCodeGenerator.create_label
      {| QRCodeGenerator.output_dir := QRCodeGenerator.output_dir g;
         QRCodeGenerator.base_url := b;
         QRCodeGenerator.encodes := QRCodeGenerator.encodes g;
         QRCodeGenerator.saves := QRCodeGenerator.saves g |}
      asset_id asset_info include_qrcode filename.
Proof. reflexivity. Qed.

(** C8 fails for [create_label]: with the default configuration and record
    42, [create_asset_qrcode] encodes the URL of the configured server and
    [create_label] encodes a fixed host. *)
Theorem create_label_fixed_host :
  exists g a l,
    QRCodeGenerator.init sample_make sample_save "qrcodes" (JDict sample_config) = Ok g /\
    QRCodeGenerator.create_asset_qrcode g 42 [("title", JStr "Beaker")] None = Ok a /\
    QRCodeGenerator.qr_data a
    = Some "https://10.159.64.205:3148/database.php?mode=view&id=42" /\
    QRCodeGenerator.create_label g 42 [("title", JStr "Beaker")] true None = Ok l /\
    QRCodeGenerator.qr_data l = Some "https://elab.local/database.php?mode=view&id=42" /\
    QRCodeGenerator.caption l = "Beaker".
Proof. do 3 eexists. repeat split. Qed.

(** ** The commit step and the edit of the result text *)

Lemma generate_qrcode_keeps (w : MainWindow.t) :
  MainWindow.current_asset_id (MainWindow.generate_qrcode w)
  = MainWindow.current_asset_id w /\
  MainWindow.elab_manager (MainWindow.generate_qrcode w) = MainWindow.elab_manager w /\
  MainWindow.current_llm_result (MainWindow.generate_qrcode w)
  = MainWindow.current_llm_result w.
Proof.
  unfold MainWindow.generate_qrcode.
  destruct (MainWindow.current_asset_id w) as [i|] eqn:E; cbn; [|auto].
  destruct (i =? 0)%Z; cbn; [auto|].
  destruct (ElabManager.get_item (MainWindow.elab_manager w) i) as [info|]; cbn; [|auto].
  destruct (QRCodeGenerator.create_asset_qrcode _ i info None); cbn; auto.
Qed.

(** What the inventory client does when the inventory answers. *)
Lemma create_asset_online (srv : ElabManager.server) (template_id : Z)
      (llm_data : dict) (image_path : option string) :
  ElabManager.online srv = true ->
  ElabManager.next_id srv <> 0%Z ->
  exists it srv1,
    ElabManager.create_asset_from_llm_data srv template_id llm_data image_path
    = (Some (ElabManager.next_id srv), srv1) /\
    ElabManager.items srv1 = (ElabManager.items srv ++ [it])%list /\
    ElabManager.id it = ElabManager.next_id srv /\
    ElabManager.title it = ElabManager.dict_get_or llm_data "title" (JStr "Untitled Asset").
Proof.
  intros Hon Hid. unfold ElabManager.create_asset_from_llm_data, ElabManager.create_item.
  rewrite Hon. apply Z.eqb_neq in Hid. rewrite Hid.
  destruct image_path as [p|].
  - destruct (PyStr.nonempty p).
    + unfold ElabManager.upload_image. cbn. do 2 eexists. repeat split.
    + do 2 eexists. repeat split.
  - do 2 eexists. repeat split.
Qed.

(** What it does otherwise: no record, no identifier. *)
Lemma create_asset_items (srv : ElabManager.server) (template_id : Z)
      (llm_data : dict) (image_path : option string) :
  let '(r, srv1) :=
    ElabManager.create_asset_from_llm_data srv template_id llm_data image_path in
  match r with
  | Some i => exists it, ElabManager.items srv1 = (ElabManager.items srv ++ [it])%list
  | None => True
  end.
Proof.
  unfold ElabManager.create_asset_from_llm_data, ElabManager.create_item.
  destruct (ElabManager.online srv) eqn:Hon; [|exact I].
  destruct (ElabManager.next_id srv =? 0)%Z; [exact I|].
  destruct image_path as [p|].
  - destruct (PyStr.nonempty p).
    + unfold ElabManager.upload_image. cbn. eexists. reflexivity.
    + eexists. reflexivity.
  - eexists. reflexivity.
Qed.

Lemma app_one_neq {A} (l : list A) (x : A) : (l ++ [x])%list <> l.
Proof.
  intro H. apply (f_equal (@List.length A)) in H.
  rewrite List.length_app in H. cbn in H. lia.
Qed.

(** The window in which the result text is decoded by [save_to_elabftw]. *)
Lemma save_decodes (w : MainWindow.t) (template_id : Z) :
  truthy (MainWindow.current_llm_result w) = true ->
  MainWindow.template w = Some template_id ->
  template_id <> 0%Z ->
  MainWindow.save_to_elabftw w
  = let w1 := MainWindow.set_status (MainWindow.set_save_button w false)
                (MainWindow.Status "Saving to elabFTW...") in
    match Json.loads (MainWindow.result_text w) with
    | Json.JSONDecodeError =>
        Some (MainWindow.set_save_button
                (MainWindow.set_status w1 MainWindow.invalid_json_hint) true)
    | Json.Decoded edited_result =>
        Some (MainWindow.store_result w1 template_id edited_result)
    | Json.Beyond => None
    end.
Proof.
  intros Ht Htpl Hid. unfold MainWindow.save_to_elabftw.
  rewrite Ht. cbn [negb].
  cbn [MainWindow.template MainWindow.result_text MainWindow.set_status
       MainWindow.set_save_button].
  rewrite Htpl. apply Z.eqb_neq in Hid. rewrite Hid. reflexivity.
Qed.

Lemma store_keeps_id_without_record (w : MainWindow.t) (template_id : Z)
      (edited_result : json) :
  ElabManager.items (MainWindow.elab_manager
                       (MainWindow.store_result w template_id edited_result))
  = ElabManager.items (MainWindow.elab_manager w) ->
  MainWindow.current_asset_id (MainWindow.store_result w template_id edited_result)
  = MainWindow.current_asset_id w.
Proof.
  unfold MainWindow.store_result.
  destruct (bind (update_asset_title_from_result edited_result)
              (fun title => MainWindow.copy_with_title edited_result title))
    as [asset_data|e]; [|reflexivity].
  cbn [MainWindow.with_result MainWindow.elab_manager MainWindow.current_image_path].
  pose proof (create_asset_items (MainWindow.elab_manager w) template_id asset_data
                (MainWindow.current_image_path w)) as C.
  destruct (ElabManager.create_asset_from_llm_data (MainWindow.elab_manager w) template_id
              asset_data (MainWindow.current_image_path w)) as [[i|] srv];
    [|reflexivity].
  destruct C as [it Hit]. cbn -[MainWindow.generate_qrcode].
  match goal with
  | |- context [MainWindow.generate_qrcode ?x] =>
      destruct (generate_qrcode_keeps x) as [_ [Hs _]]; rewrite Hs
  end.
  cbn. rewrite Hit. intro H. exfalso. exact (app_one_neq _ _ H).
Qed.

(** The identifier changes only when a record is created. *)
Lemma save_keeps_id_without_record (w w' : MainWindow.t) :
  MainWindow.save_to_elabftw w = Some w' ->
  ElabManager.items (MainWindow.elab_manager w')
  = ElabManager.items (MainWindow.elab_manager w) ->
  MainWindow.current_asset_id w' = MainWindow.current_asset_id w.
Proof.
  unfold MainWindow.save_to_elabftw.
  destruct (truthy (MainWindow.current_llm_result w)); cbn [negb];
    [|intro H; injection H as <-; reflexivity].
  cbn [MainWindow.template MainWindow.result_text MainWindow.set_status
       MainWindow.set_save_button].
  destruct (MainWindow.template w) as [tid|];
    [|intro H; injection H as <-; reflexivity].
  destruct (tid =? 0)%Z; [intro H; injection H as <-; reflexivity|].
  destruct (Json.loads (MainWindow.result_text w)) as [edited| |];
    [|intro H; injection H as <-; reflexivity | discriminate].
  intro H. injection H as <-. intro I.
  exact (store_keeps_id_without_record _ tid edited I).
Qed.

(** C4 (amended).  A commit that succeeds creates a new record under a
    new identifier and sets [current_asset_id] to it, whether or not the
    draft already had one: the records already stored are untouched, and
    nothing is updated in place.  A commit that creates no record leaves
    [current_asset_id] as it was. *)
Theorem commit_always_creates (w : MainWindow.t) (template_id : Z) (d : dict) :
  truthy (MainWindow.current_llm_result w) = true ->
  MainWindow.template w = Some template_id ->
  template_id <> 0%Z ->
  Json.loads (MainWindow.result_text w) = Json.Decoded (JDict d) ->
  names_are_text d = true ->
  ElabManager.online (MainWindow.elab_manager w) = true ->
  ElabManager.next_id (MainWindow.elab_manager w) <> 0%Z ->
  exists w',
    MainWindow.save_to_elabftw w = Some w' /\
    MainWindow.current_asset_id w' = Some (ElabManager.next_id (MainWindow.elab_manager w)) /\
    (exists it,
        ElabManager.items (MainWindow.elab_manager w')
        = (ElabManager.items (MainWindow.elab_manager w) ++ [it])%list /\
        ElabManager.id it = ElabManager.next_id (MainWindow.elab_manager w)) /\
    (forall v v' : MainWindow.t,
        MainWindow.save_to_elabftw v = Some v' ->
        ElabManager.items (MainWindow.elab_manager v')
        = ElabManager.items (MainWindow.elab_manager v) ->
        MainWindow.current_asset_id v' = MainWindow.current_asset_id v).
Proof.
  intros Ht Htpl Hid Hl Hn Hon Hnext.
  rewrite (save_decodes w template_id Ht Htpl Hid), Hl. cbv zeta.
  eexists. split; [reflexivity|].
  split; [|split; [|exact save_keeps_id_without_record]].
  - unfold MainWindow.store_result.
    destruct (title_returned d Hn) as [title Htitle]. rewrite Htitle.
    cbn [bind MainWindow.copy_with_title].
    cbn [MainWindow.with_result MainWindow.set_status MainWindow.set_save_button
         MainWindow.elab_manager MainWindow.current_image_path].
    destruct (create_asset_online (MainWindow.elab_manager w) template_id
                (dict_set d "title" (JStr title)) (MainWindow.current_image_path w)
                Hon Hnext) as [it [srv1 [Hc _]]].
    rewrite Hc. cbn -[MainWindow.generate_qrcode].
    match goal with
    | |- context [MainWindow.generate_qrcode ?x] =>
        destruct (generate_qrcode_keeps x) as [Hi _]; rewrite Hi
    end.
    reflexivity.
  - unfold MainWindow.store_result.
    destruct (title_returned d Hn) as [title Htitle]. rewrite Htitle.
    cbn [bind MainWindow.copy_with_title].
    cbn [MainWindow.with_result MainWindow.set_status MainWindow.set_save_button
         MainWindow.elab_manager MainWindow.current_image_path].
    destruct (create_asset_online (MainWindow.elab_manager w) template_id
                (dict_set d "title" (JStr title)) (MainWindow.current_image_path w)
                Hon Hnext) as [it [srv1 [Hc [Hitems [Hit _]]]]].
    rewrite Hc. cbn -[MainWindow.generate_qrcode].
    match goal with
    | |- context [MainWindow.generate_qrcode ?x] =>
        destruct (generate_qrcode_keeps x) as [_ [Hs _]]; rewrite Hs
    end.
    cbn. exists it. split; assumption.
Qed.

Lemma commit_always_creates_witness :
  MainWindow.current_asset_id committed_window = Some 1%Z /\
  exists w',
    MainWindow.save_to_elabftw committed_window = Some w' /\
    MainWindow.current_asset_id w' = Some 2%Z /\
    exists it,
      ElabManager.items (MainWindow.elab_manager w')
      = (ElabManager.items (MainWindow.elab_manager committed_window) ++ [it])%list /\
      ElabManager.id it = 2%Z.
Proof.
  split; [reflexivity|].
  destruct (commit_always_creates committed_window 3
              [("summary", JDict [("asset_name", JStr "Sodium Chloride")]);
               ("purity", JStr "99%")]) as [w' [H0 [H1 [H2 _]]]].
  - reflexivity.
  - reflexivity.
  - discriminate.
  - vm_compute. reflexivity.
  - reflexivity.
  - reflexivity.
  - vm_compute. discriminate.
  - exists w'. split; [exact H0|]. split; [exact H1 | exact H2].
Defined.

(** C4 as stated fails: a second commit on a draft that has an identifier
    replaces the identifier and stores a second record. *)
Lemma second_commit_replaces_id :
  ~ (forall (w : MainWindow.t) (i : Z),
        MainWindow.current_asset_id w = Some i ->
        exists w',
          MainWindow.save_to_elabftw w = Some w' /\
          MainWindow.current_asset_id w' = Some i /\
          ElabManager.items (MainWindow.elab_manager w')
          = ElabManager.items (MainWindow.elab_manager w)).
Proof.
  intro H. destruct (H committed_window 1%Z eq_refl) as [w' [S [E _]]].
  vm_compute in S. injection S as <-.
  vm_compute in E. discriminate E.
Qed.





(** An edit that is JSON, with a number that is no integer: the code
    decodes it and replaces the result. *)
Example float_edit :
  let text := Json.text "{'purity': 99.5}" in
  Json.loads text = Json.Beyond /\
  MainWindow.edit_result_text ready_window text = None /\
  MainWindow.save_to_elabftw (MainWindow.with_text ready_window text) = None.
Proof. repeat split. Qed.

(** ** The decoder on the output of the encoder *)

Lemma length_append (a b : string) :
  String.length (a ++ b) = (String.length a + String.length b)%nat.
Proof. induction a as [|x a IH]; cbn; [reflexivity | rewrite IH; reflexivity]. Qed.

Lemma append_empty_r (a : string) : a ++ "" = a.
Proof. induction a as [|x a IH]; cbn; [reflexivity | rewrite IH; reflexivity]. Qed.

Lemma scan_escape_char (c : ascii) (x : string) :
  Json.scan_string (Json.escape_char c ++ x)
  = match Json.scan_string x with
    | Some (t, r) => Some (String c t, r)
    | None => None
    end.
Proof.
  destruct c as [[] [] [] [] [] [] [] []]; reflexivity.
Qed.

Lemma scan_escape (s rest : string) :
  Json.scan_string (Json.escape s ++ String Json.dquote rest) = Some (s, rest).
Proof.
  induction s as [|c r IH]; cbn [Json.escape append].
  - reflexivity.
  - rewrite append_assoc, scan_escape_char, IH. reflexivity.
Qed.

Lemma span_digits_uint (u : Decimal.uint) (rest : string) :
  stops rest = true ->
  Json.span_digits (NilEmpty.string_of_uint u ++ rest) = (NilEmpty.string_of_uint u, rest).
Proof.
  intro H. induction u; cbn [NilEmpty.string_of_uint append];
    try (cbn [Json.span_digits]; change (Json.isdigit _) with true; cbn iota;
         rewrite IHu; reflexivity).
  destruct rest as [|c r]; [reflexivity|].
  cbn [stops] in H. apply andb_true_iff in H. destruct H as [H _].
  apply negb_true_iff in H. cbn [Json.span_digits]. rewrite H. reflexivity.
Qed.

Lemma to_uint_no_leading_zero (p : positive) (u : Decimal.uint) :
  Pos.to_uint p <> Decimal.D0 u.
Proof.
  intro H. pose proof (DecimalPos.Unsigned.to_of (Pos.to_uint p)) as E.
  rewrite DecimalPos.Unsigned.of_to in E. cbn [N.to_uint] in E.
  rewrite H in E. unfold Decimal.unorm in E.
  destruct (Decimal.nzhead (Decimal.D0 u)) eqn:N; try discriminate E.
  - injection E as ->. exact (DecimalPos.Unsigned.to_uint_nonzero p H).
  - exact (DecimalFacts.nzhead_nonzero _ _ N).
Qed.

Lemma scan_int_uint (neg : bool) (u : Decimal.uint) (rest : string) :
  u <> Decimal.Nil ->
  Json.leading_zero (NilEmpty.string_of_uint u) = false ->
  stops rest = true ->
  Json.scan_int neg (NilEmpty.string_of_uint u ++ rest)
  = Some (JNum (if neg then (- Z.of_N (N.of_uint u))%Z else Z.of_N (N.of_uint u)), rest).
Proof.
  intros Hu Hz Hs. unfold Json.scan_int. rewrite (span_digits_uint u rest Hs).
  assert (Hne : PyStr.nonempty (NilEmpty.string_of_uint u) = true)
    by (destruct u; [contradiction | reflexivity ..]).
  assert (Hf : Json.float_mark rest = false).
  { destruct rest as [|c r]; [reflexivity|]. cbn [stops] in Hs.
    apply andb_true_iff in Hs. destruct Hs as [_ Hs]. apply negb_true_iff in Hs. exact Hs. }
  rewrite Hne, Hz, Hf, NilEmpty.usu. reflexivity.
Qed.

Lemma parse_value_digit (f : nat) (c : ascii) (r : string) :
  Json.isdigit c = true ->
  Json.parse_value (S f) (String c r) = Json.scan_int false (String c r).
Proof.
  destruct c as [[] [] [] [] [] [] [] []]; intro H;
    first [discriminate H | reflexivity].
Qed.

Lemma uint_head_digit (u : Decimal.uint) :
  u <> Decimal.Nil ->
  exists c r, NilEmpty.string_of_uint u = String c r /\ Json.isdigit c = true.
Proof.
  destruct u; [contradiction | ..]; intros _; do 2 eexists; split; reflexivity.
Qed.

Lemma no_leading_zero (p : positive) :
  Json.leading_zero (NilEmpty.string_of_uint (Pos.to_uint p)) = false.
Proof.
  pose proof (to_uint_no_leading_zero p) as Z.
  destruct (Pos.to_uint p) as [|u|u|u|u|u|u|u|u|u|u];
    try (destruct u; reflexivity).
  - reflexivity.
  - exfalso. exact (Z u eq_refl).
Qed.

Lemma scan_int_pos (neg : bool) (p : positive) (rest : string) :
  stops rest = true ->
  Json.scan_int neg (NilEmpty.string_of_uint (Pos.to_uint p) ++ rest)
  = Some (JNum (if neg then Z.neg p else Z.pos p), rest).
Proof.
  intro Hs.
  rewrite (scan_int_uint neg _ rest (DecimalPos.Unsigned.to_uint_nonnil p)
             (no_leading_zero p) Hs).
  unfold N.of_uint. rewrite DecimalPos.Unsigned.of_to. destruct neg; reflexivity.
Qed.

Lemma parse_value_int (f : nat) (z : Z) (rest : string) :
  stops rest = true ->
  Json.parse_value (S f) (PyStr.of_int z ++ rest) = Some (JNum z, rest).
Proof.
  intro Hs. unfold PyStr.of_int. destruct z as [|p|p]; cbn [Z.to_int NilEmpty.string_of_int].
  - change (NilEmpty.string_of_uint (Decimal.D0 Decimal.Nil) ++ rest) with (String "0" rest).
    rewrite parse_value_digit by reflexivity.
    exact (scan_int_uint false (Decimal.D0 Decimal.Nil) rest ltac:(discriminate) eq_refl Hs).
  - pose proof (scan_int_pos false p rest Hs) as S.
    destruct (uint_head_digit (Pos.to_uint p) (DecimalPos.Unsigned.to_uint_nonnil p))
      as [c [r [E Hc]]].
    rewrite E in *. cbn [append] in *. rewrite (parse_value_digit f c _ Hc). exact S.
  - cbn [append].
    change (Json.parse_value (S f) (String "-" (NilEmpty.string_of_uint (Pos.to_uint p) ++ rest)))
      with (Json.scan_int true (NilEmpty.string_of_uint (Pos.to_uint p) ++ rest)).
    exact (scan_int_pos true p rest Hs).
Qed.

Lemma value_head_skip (s : string) :
  value_head s = true ->
  Json.skip_ws s = s /\ Json.peek "]" s = None /\ Json.peek "}" s = None.
Proof.
  destruct s as [|c r]; cbn [value_head]; [discriminate|].
  intro H. apply andb_true_iff in H. destruct H as [H H3].
  apply andb_true_iff in H. destruct H as [H1 H2].
  apply negb_true_iff in H1, H2, H3.
  cbn [Json.skip_ws Json.peek]. rewrite H1, H2, H3. auto.
Qed.

Lemma dumps_head (v : json) (x : string) : value_head (Json.dumps v ++ x) = true.
Proof.
  destruct v as [| b | z | s | l | d]; try reflexivity.
  - destruct b; reflexivity.
  - cbn [Json.dumps]. unfold PyStr.of_int.
    destruct z as [|p|p]; cbn [Z.to_int NilEmpty.string_of_int]; try reflexivity.
    destruct (uint_head_digit (Pos.to_uint p) (DecimalPos.Unsigned.to_uint_nonnil p))
      as [c [r [E Hc]]].
    rewrite E. cbn [append value_head]. clear E.
    destruct c as [[] [] [] [] [] [] [] []]; first [discriminate Hc | reflexivity].
Qed.

Lemma dumps_items_head (v : json) (l : list json) (x : string) :
  value_head (Json.dumps_items (v :: l) ++ x) = true.
Proof.
  destruct l; cbn [Json.dumps_items]; [apply dumps_head|].
  rewrite append_assoc. apply dumps_head.
Qed.

Lemma dumps_nonempty (v : json) : (1 <= String.length (Json.dumps v))%nat.
Proof.
  pose proof (dumps_head v "") as H. rewrite append_empty_r in H.
  destruct (Json.dumps v); [discriminate H | cbn; lia].
Qed.

(** Keys that differ are kept in their order by [dict(pairs)]. *)
Lemma dict_set_fresh (d : dict) (k : string) (v : json) :
  existsb (String.eqb k) (map fst d) = false ->
  dict_set d k v = (d ++ [(k, v)])%list.
Proof.
  induction d as [|[k' v'] r IH]; cbn [map fst existsb dict_set List.app]; [reflexivity|].
  intro H. apply orb_false_iff in H. destruct H as [H1 H2].
  rewrite String.eqb_sym in H1. rewrite H1, (IH H2). reflexivity.
Qed.

Lemma existsb_app_one (k k' : string) (ks : list string) :
  existsb (String.eqb k) (ks ++ [k'])%list = existsb (String.eqb k) ks || (k =? k').
Proof.
  induction ks as [|x r IH]; cbn [List.app existsb].
  - apply orb_false_r.
  - rewrite IH. apply orb_assoc.
Qed.

Lemma fold_dict_set (ps acc : list (string * json)) :
  distinct (map fst ps) = true ->
  forallb (fun k => negb (existsb (String.eqb k) (map fst acc))) (map fst ps) = true ->
  fold_left (fun d kv => dict_set d (fst kv) (snd kv)) ps acc = (acc ++ ps)%list.
Proof.
  revert acc. induction ps as [|[k v] r IH]; intros acc Hd Ha; cbn [fold_left].
  - rewrite List.app_nil_r. reflexivity.
  - cbn [map fst snd distinct forallb] in Hd, Ha |- *.
    apply andb_true_iff in Hd. destruct Hd as [Hk Hr].
    apply andb_true_iff in Ha. destruct Ha as [Hka Hra].
    apply negb_true_iff in Hk, Hka.
    rewrite (dict_set_fresh acc k v Hka). rewrite IH.
    + rewrite <- List.app_assoc. reflexivity.
    + exact Hr.
    + rewrite List.map_app. cbn [map fst].
      clear IH Hr. induction r as [|[k2 v2] r IHr]; cbn [map fst forallb]; [reflexivity|].
      cbn [map fst forallb existsb] in Hra, Hk.
      apply andb_true_iff in Hra. destruct Hra as [H1 H2].
      apply orb_false_iff in Hk. destruct Hk as [Hk1 Hk2].
      rewrite existsb_app_one. apply negb_true_iff in H1. rewrite H1.
      rewrite String.eqb_sym, Hk1. cbn [orb negb andb]. exact (IHr Hk2 H2).
Qed.

Lemma dict_of_pairs_distinct (d : dict) :
  distinct (map fst d) = true -> Json.dict_of_pairs d = d.
Proof.
  intro H. unfold Json.dict_of_pairs. rewrite fold_dict_set; [reflexivity | exact H |].
  clear H. induction (map fst d); cbn [forallb]; auto.
Qed.

(** The equations of the decoder at a positive bound. *)
Lemma parse_value_quote (f : nat) (r : string) :
  Json.parse_value (S f) (String Json.dquote r)
  = match Json.scan_string r with
    | Some (t, r1) => Some (JStr t, r1)
    | None => None
    end.
Proof. reflexivity. Qed.

Lemma parse_value_bracket (f : nat) (r : string) :
  Json.parse_value (S f) (String "[" r)
  = match Json.peek "]" (Json.skip_ws r) with
    | Some r1 => Some (JList [], r1)
    | None =>
        match Json.parse_elems f (Json.skip_ws r) with
        | Some (vs, r2) => Some (JList vs, r2)
        | None => None
        end
    end.
Proof. reflexivity. Qed.

Lemma parse_value_brace (f : nat) (r : string) :
  Json.parse_value (S f) (String "{" r)
  = match Json.peek "}" (Json.skip_ws r) with
    | Some r1 => Some (JDict [], r1)
    | None =>
        match Json.parse_members f (Json.skip_ws r) with
        | Some (ps, r2) => Some (JDict (Json.dict_of_pairs ps), r2)
        | None => None
        end
    end.
Proof. reflexivity. Qed.

Lemma parse_elems_step (f : nat) (s : string) :
  Json.parse_elems (S f) s
  = match Json.parse_value f s with
    | Some (v, r) =>
        match Json.peek "," (Json.skip_ws r) with
        | Some r1 =>
            match Json.parse_elems f (Json.skip_ws r1) with
            | Some (vs, r2) => Some (v :: vs, r2)
            | None => None
            end
        | None =>
            match Json.peek "]" (Json.skip_ws r) with
            | Some r1 => Some ([v], r1)
            | None => None
            end
        end
    | None => None
    end.
Proof. reflexivity. Qed.

Lemma parse_members_step (f : nat) (r : string) :
  Json.parse_members (S f) (String Json.dquote r)
  = match Json.scan_string r with
    | Some (k, r1) =>
        match Json.peek ":" (Json.skip_ws r1) with
        | Some r2 =>
            match Json.parse_value f (Json.skip_ws r2) with
            | Some (v, r3) =>
                match Json.peek "," (Json.skip_ws r3) with
                | Some r4 =>
                    match Json.parse_members f (Json.skip_ws r4) with
                    | Some (ps, r5) => Some ((k, v) :: ps, r5)
                    | None => None
                    end
                | None =>
                    match Json.peek "}" (Json.skip_ws r3) with
                    | Some r4 => Some ([(k, v)], r4)
                    | None => None
                    end
                end
            | None => None
            end
        | None => None
        end
    | None => None
    end.
Proof. reflexivity. Qed.

Lemma after_comma (x : string) :
  Json.peek "," (Json.skip_ws (String "," (String " " x))) = Some (String " " x).
Proof. reflexivity. Qed.

Lemma after_colon (x : string) :
  Json.peek ":" (Json.skip_ws (String ":" (String " " x))) = Some (String " " x).
Proof. reflexivity. Qed.

Lemma skip_space (x : string) : Json.skip_ws (String " " x) = Json.skip_ws x.
Proof. reflexivity. Qed.

Lemma members_head (kv : string * json) (d : list (string * json)) (x : string) :
  exists y, Json.dumps_members (kv :: d) ++ x = String Json.dquote y.
Proof.
  destruct kv as [k v]. destruct d as [|kv2 d]; cbn [Json.dumps_members];
    unfold Json.dumps_str; cbn [append]; eexists; reflexivity.
Qed.

(** The decoder reads back what the encoder wrote, for a bound that is at
    least the length of the text. *)
Lemma parse_dumps (n : nat) :
  (forall v rest,
      (String.length (Json.dumps v) <= n)%nat ->
      unique_keys v = true ->
      stops rest = true ->
      Json.parse_value n (Json.dumps v ++ rest) = Some (v, rest)) /\
  (forall v l rest,
      (String.length (Json.dumps_items (v :: l)) < n)%nat ->
      forallb unique_keys (v :: l) = true ->
      Json.parse_elems n (Json.dumps_items (v :: l) ++ String "]" rest)
      = Some (v :: l, rest)) /\
  (forall kv d rest,
      (String.length (Json.dumps_members (kv :: d)) < n)%nat ->
      values_unique (kv :: d) = true ->
      Json.parse_members n (Json.dumps_members (kv :: d) ++ String "}" rest)
      = Some (kv :: d, rest)).
Proof.
  induction n as [|f [IHv [IHe IHm]]].
  - split; [|split]; intros; try lia.
    pose proof (dumps_nonempty v). lia.
  - split; [|split].
    + intros v rest Hlen Hu Hs. destruct v as [| b | z | s | l | d].
      * reflexivity.
      * destruct b; reflexivity.
      * apply parse_value_int. exact Hs.
      * cbn [Json.dumps]. unfold Json.dumps_str. cbn [append].
        rewrite parse_value_quote, append_assoc. cbn [append].
        rewrite scan_escape. reflexivity.
      * change (Json.dumps (JList l)) with ("[" ++ Json.dumps_items l ++ "]") in *.
        cbn [append] in *. rewrite parse_value_bracket, append_assoc. cbn [append].
        destruct l as [|v l]; [reflexivity|].
        destruct (value_head_skip _ (dumps_items_head v l (String "]" rest)))
          as [E1 [E2 _]].
        rewrite E1, E2. rewrite IHe; [reflexivity | | exact Hu].
        cbn [String.length] in Hlen. rewrite length_append in Hlen.
        cbn [String.length] in Hlen. lia.
      * change (Json.dumps (JDict d)) with ("{" ++ Json.dumps_members d ++ "}") in *.
        cbn [append] in *. rewrite parse_value_brace, append_assoc. cbn [append].
        destruct d as [|kv d]; [reflexivity|].
        cbn [unique_keys] in Hu. apply andb_true_iff in Hu. destruct Hu as [Hk Hu].
        destruct (members_head kv d (String "}" rest)) as [y Ey].
        rewrite Ey.
        change (Json.skip_ws (String Json.dquote y)) with (String Json.dquote y).
        change (Json.peek "}" (String Json.dquote y)) with (@None string).
        rewrite <- Ey. rewrite IHm; [| | exact Hu].
        -- rewrite (dict_of_pairs_distinct _ Hk). reflexivity.
        -- cbn [String.length] in Hlen. rewrite length_append in Hlen.
           cbn [String.length] in Hlen. lia.
    + intros v l rest Hlen Hu. rewrite parse_elems_step.
      cbn [forallb] in Hu. apply andb_true_iff in Hu. destruct Hu as [Hv Hl].
      destruct l as [|v2 l].
      * cbn [Json.dumps_items] in *. rewrite IHv; [reflexivity | lia | exact Hv | reflexivity].
      * change (Json.dumps_items (v :: v2 :: l))
          with (Json.dumps v ++ ", " ++ Json.dumps_items (v2 :: l)) in *.
        rewrite !append_assoc. cbn [append].
        rewrite !length_append in Hlen. cbn [String.length] in Hlen.
        rewrite IHv; [| lia | exact Hv | reflexivity].
        rewrite after_comma, skip_space.
        destruct (value_head_skip _ (dumps_items_head v2 l (String "]" rest))) as [E1 _].
        rewrite E1. rewrite IHe; [reflexivity | lia | exact Hl].
    + intros [k x] d rest Hlen Hu.
      cbn [values_unique forallb] in Hu. apply andb_true_iff in Hu. destruct Hu as [Hx Hd].
      destruct d as [|kv2 d].
      * cbn [Json.dumps_members] in *. unfold Json.dumps_str in *. cbn [append] in *.
        rewrite parse_members_step. rewrite !append_assoc. cbn [append].
        rewrite scan_escape, after_colon, skip_space.
        cbn [String.length] in Hlen. rewrite !length_append in Hlen.
        cbn [String.length] in Hlen.
        destruct (value_head_skip _ (dumps_head x (String "}" rest))) as [E1 _].
        rewrite E1. rewrite IHv; [reflexivity | lia | exact Hx | reflexivity].
      * change (Json.dumps_members ((k, x) :: kv2 :: d))
          with (Json.dumps_str k ++ ": " ++ Json.dumps x ++ ", "
                ++ Json.dumps_members (kv2 :: d)) in *.
        unfold Json.dumps_str in Hlen |- *. cbn [append] in *.
        rewrite parse_members_step. rewrite !append_assoc. cbn [append].
        rewrite scan_escape, after_colon, skip_space.
        cbn [String.length] in Hlen. rewrite !length_append in Hlen.
        cbn [String.length] in Hlen. rewrite !length_append in Hlen.
        cbn [String.length] in Hlen.
        rewrite ?append_assoc. cbn [append].
        match goal with
        | |- context [Json.skip_ws (Json.dumps x ++ ?y)] =>
            destruct (value_head_skip _ (dumps_head x y)) as [E1 _]; rewrite E1
        end.
        rewrite IHv; [| lia | exact Hx | reflexivity].
        rewrite after_comma, skip_space.
        destruct (members_head kv2 d (String "}" rest)) as [y Ey].
        rewrite Ey. change (Json.skip_ws (String Json.dquote y)) with (String Json.dquote y).
        rewrite <- Ey. rewrite IHm; [reflexivity | lia | exact Hd].
Qed.

(** The decoder reads back what the encoder writes. *)
Lemma read_dumps (v : json) :
  unique_keys v = true -> Json.read (Json.dumps v) = Some v.
Proof.
  intro Hu. unfold Json.read.
  pose proof (dumps_head v "") as Hh. rewrite append_empty_r in Hh.
  destruct (value_head_skip _ Hh) as [E _]. rewrite E.
  pose proof (proj1 (parse_dumps (S (String.length (Json.dumps v)))) v ""
                ltac:(lia) Hu eq_refl) as P.
  rewrite append_empty_r in P. rewrite P. reflexivity.
Qed.

Lemma rstrip_last (a : string) (c : ascii) :
  PyStr.isspace c = false ->
  PyStr.rstrip (a ++ String c "") = a ++ String c "".
Proof.
  intro Hc. induction a as [|x a IH]; cbn [append PyStr.rstrip].
  - rewrite Hc. reflexivity.
  - rewrite IH. destruct a; reflexivity.
Qed.

(** [json.loads(json.dumps(v))] is [v]. *)
Lemma loads_dumps (v : json) :
  unique_keys v = true -> Json.loads (Json.dumps v) = Json.Decoded v.
Proof. intro Hu. unfold Json.loads. rewrite (read_dumps v Hu). reflexivity. Qed.

(** The text of an encoded object passes the test of the first [try]. *)
Lemma try_json_dumps (d : dict) :
  unique_keys (JDict d) = true ->
  try_json (Json.dumps (JDict d)) = Returns (JDict d).
Proof.
  intro Hu. unfold try_json, between_braces. rewrite (loads_dumps _ Hu).
  change (Json.dumps (JDict d)) with ("{" ++ Json.dumps_members d ++ "}").
  assert (E : PyStr.strip ("{" ++ Json.dumps_members d ++ "}")
              = ("{" ++ Json.dumps_members d) ++ "}").
  { unfold PyStr.strip. cbn [append PyStr.lstrip].
    change (PyStr.isspace "{") with false. cbn iota.
    exact (rstrip_last (String "{" (Json.dumps_members d)) "}" eq_refl). }
  rewrite E, endswith_append. reflexivity.
Qed.

(** C6.  For a structured mapping [x], parsing the JSON text that
    [json.dumps] writes for [x], with no template id, gives [x] back. *)
Theorem parse_serialize_roundtrip (x : dict) :
  unique_keys (JDict x) = true ->
  parse_llm_response (Text (Json.dumps (JDict x))) None = Some (JDict x).
Proof.
  intro Hu. cbn [parse_llm_response]. rewrite (try_json_dumps x Hu). reflexivity.
Qed.

Lemma parse_serialize_roundtrip_witness :
  parse_llm_response (Text (Json.dumps (JDict nested_sample))) None
  = Some (JDict nested_sample).
Proof. apply (parse_serialize_roundtrip nested_sample). reflexivity. Defined.

(** With a template id the decoded mapping is returned as it is, too. *)
Lemma parse_serialize_any_template (x : dict) (template_id : option Z) :
  unique_keys (JDict x) = true ->
  parse_llm_response (Text (Json.dumps (JDict x))) template_id = Some (JDict x).
Proof.
  intro Hu. cbn [parse_llm_response]. rewrite (try_json_dumps x Hu). reflexivity.
Qed.

(** ** The bound of the decoder *)

Lemma skip_ws_length (s : string) :
  (String.length (Json.skip_ws s) <= String.length s)%nat.
Proof.
  induction s as [|c r IH]; cbn [Json.skip_ws String.length]; [lia|].
  destruct (Json.is_ws c); cbn [String.length]; lia.
Qed.

Lemma peek_length (c : ascii) (s r : string) :
  Json.peek c s = Some r -> String.length s = S (String.length r).
Proof.
  destruct s as [|d t]; cbn [Json.peek]; [discriminate|].
  destruct (d =? c)%char; [|discriminate]. intro H. injection H as <-. reflexivity.
Qed.

Lemma scan_string_length (n : nat) :
  forall s t r,
    (String.length s <= n)%nat ->
    Json.scan_string s = Some (t, r) -> (String.length r < String.length s)%nat.
Proof.
  induction n as [|n IH]; intros s t r Hn H.
  - destruct s; [discriminate H | cbn in Hn; lia].
  - destruct s as [|c s1]; [discriminate H|]. cbn [Json.scan_string] in H.
    cbn [String.length] in Hn |- *.
    destruct (c =? Json.dquote)%char; [injection H as _ <-; lia|].
    destruct (c =? Json.backslash)%char.
    + destruct s1 as [|e s2]; [discriminate H|]. cbn [String.length] in Hn |- *.
      destruct (e =? "u")%char.
      * destruct s2 as [|h1 [|h2 [|h3 [|h4 s3]]]]; try discriminate H.
        cbn [String.length] in Hn |- *.
        destruct (Json.hex4 h1 h2 h3 h4) as [k|]; [|discriminate H].
        destruct (k <? 256)%N; [|discriminate H].
        destruct (Json.scan_string s3) as [[t' r']|] eqn:E; [|discriminate H].
        injection H as _ <-. pose proof (IH s3 t' r' ltac:(lia) E). lia.
      * destruct (Json.unescape e); [|discriminate H].
        destruct (Json.scan_string s2) as [[t' r']|] eqn:E; [|discriminate H].
        injection H as _ <-. pose proof (IH s2 t' r' ltac:(lia) E). lia.
    + destruct (PyStr.code c <? 32)%N; [discriminate H|].
      destruct (Json.scan_string s1) as [[t' r']|] eqn:E; [|discriminate H].
      injection H as _ <-. pose proof (IH s1 t' r' ltac:(lia) E). lia.
Qed.

Lemma span_digits_length (s ds rest : string) :
  Json.span_digits s = (ds, rest) ->
  String.length s = (String.length ds + String.length rest)%nat.
Proof.
  revert ds rest. induction s as [|c r IH]; intros ds rest; cbn [Json.span_digits].
  - intro H. injection H as <- <-. reflexivity.
  - destruct (Json.isdigit c).
    + destruct (Json.span_digits r) as [d t]. intro H. injection H as <- <-.
      cbn [String.length]. rewrite (IH d t eq_refl). reflexivity.
    + intro H. injection H as <- <-. reflexivity.
Qed.

Lemma scan_int_length (neg : bool) (s : string) (v : json) (r : string) :
  Json.scan_int neg s = Some (v, r) -> (String.length r < String.length s)%nat.
Proof.
  unfold Json.scan_int. destruct (Json.span_digits s) as [ds rest] eqn:E.
  apply span_digits_length in E.
  destruct ds as [|d ds]; [discriminate|]. cbn [PyStr.nonempty negb orb].
  destruct (_ || _); [discriminate|].
  destruct (NilEmpty.uint_of_string _); [|discriminate].
  intro H. injection H as _ <-. cbn [String.length] in E. lia.
Qed.

Lemma drop_prefix_length (p s r : string) :
  Json.drop_prefix p s = Some r -> (String.length r <= String.length s)%nat.
Proof.
  revert s. induction p as [|a p IH]; intros s; cbn [Json.drop_prefix].
  - intro H. injection H as <-. lia.
  - destruct s as [|b s]; [discriminate|]. destruct (a =? b)%char; [|discriminate].
    intro H. apply IH in H. cbn [String.length]. lia.
Qed.

(** A result of the decoder does not depend on the bound, once the bound
    is at least the number of characters the result consumed. *)
Lemma parse_bound (m : nat) :
  (forall s v r,
      Json.parse_value m s = Some (v, r) ->
      (String.length r < String.length s)%nat /\
      forall n, (String.length s - String.length r <= n)%nat ->
                Json.parse_value n s = Some (v, r)) /\
  (forall s vs r,
      Json.parse_elems m s = Some (vs, r) ->
      (String.length r < String.length s)%nat /\
      forall n, (String.length s - String.length r <= n)%nat ->
                Json.parse_elems n s = Some (vs, r)) /\
  (forall s ps r,
      Json.parse_members m s = Some (ps, r) ->
      (String.length r < String.length s)%nat /\
      forall n, (String.length s - String.length r <= n)%nat ->
                Json.parse_members n s = Some (ps, r)).
Proof.
  induction m as [|f [IHv [IHe IHm]]].
  - split; [|split]; intros; discriminate.
  - split; [|split].
    + intros s v r H. destruct s as [|c r0]; [discriminate H|].
      cbn [Json.parse_value] in H. cbn [String.length].
      destruct (c =? Json.dquote)%char eqn:E1.
      { destruct (Json.scan_string r0) as [[t r1]|] eqn:S; [|discriminate H].
        injection H as <- <-.
        pose proof (scan_string_length _ _ _ _ (le_n _) S) as L.
        split; [lia|]. intros n Hn. destruct n as [|n]; [lia|].
        cbn [Json.parse_value]. rewrite E1, S. reflexivity. }
      destruct (c =? "{")%char eqn:E2.
      { pose proof (skip_ws_length r0) as W.
        destruct (Json.peek "}" (Json.skip_ws r0)) as [r1|] eqn:P.
        - injection H as <- <-. apply peek_length in P as L.
          split; [lia|]. intros n Hn. destruct n as [|n]; [lia|].
          cbn [Json.parse_value]. rewrite E1, E2, P. reflexivity.
        - destruct (Json.parse_members f (Json.skip_ws r0)) as [[ps r2]|] eqn:M;
            [|discriminate H].
          injection H as <- <-. destruct (IHm _ _ _ M) as [L K].
          split; [lia|]. intros n Hn. destruct n as [|n]; [lia|].
          cbn [Json.parse_value]. rewrite E1, E2, P, (K n ltac:(lia)). reflexivity. }
      destruct (c =? "[")%char eqn:E3.
      { pose proof (skip_ws_length r0) as W.
        destruct (Json.peek "]" (Json.skip_ws r0)) as [r1|] eqn:P.
        - injection H as <- <-. apply peek_length in P as L.
          split; [lia|]. intros n Hn. destruct n as [|n]; [lia|].
          cbn [Json.parse_value]. rewrite E1, E2, E3, P. reflexivity.
        - destruct (Json.parse_elems f (Json.skip_ws r0)) as [[vs r2]|] eqn:M;
            [|discriminate H].
          injection H as <- <-. destruct (IHe _ _ _ M) as [L K].
          split; [lia|]. intros n Hn. destruct n as [|n]; [lia|].
          cbn [Json.parse_value]. rewrite E1, E2, E3, P, (K n ltac:(lia)). reflexivity. }
      destruct (c =? "n")%char eqn:E4.
      { destruct (Json.drop_prefix "ull" r0) as [r1|] eqn:D; [|discriminate H].
        injection H as <- <-. apply drop_prefix_length in D as L.
        split; [lia|]. intros n Hn. destruct n as [|n]; [lia|].
        cbn [Json.parse_value]. rewrite E1, E2, E3, E4, D. reflexivity. }
      destruct (c =? "t")%char eqn:E5.
      { destruct (Json.drop_prefix "rue" r0) as [r1|] eqn:D; [|discriminate H].
        injection H as <- <-. apply drop_prefix_length in D as L.
        split; [lia|]. intros n Hn. destruct n as [|n]; [lia|].
        cbn [Json.parse_value]. rewrite E1, E2, E3, E4, E5, D. reflexivity. }
      destruct (c =? "f")%char eqn:E6.
      { destruct (Json.drop_prefix "alse" r0) as [r1|] eqn:D; [|discriminate H].
        injection H as <- <-. apply drop_prefix_length in D as L.
        split; [lia|]. intros n Hn. destruct n as [|n]; [lia|].
        cbn [Json.parse_value]. rewrite E1, E2, E3, E4, E5, E6, D. reflexivity. }
      destruct (c =? "-")%char eqn:E7.
      { apply scan_int_length in H as L.
        split; [lia|]. intros n Hn. destruct n as [|n]; [lia|].
        cbn [Json.parse_value]. rewrite E1, E2, E3, E4, E5, E6, E7. exact H. }
      apply scan_int_length in H as L. cbn [String.length] in L.
      split; [lia|]. intros n Hn. destruct n as [|n]; [lia|].
      cbn [Json.parse_value]. rewrite E1, E2, E3, E4, E5, E6, E7. exact H.
    + intros s vs r H. cbn [Json.parse_elems] in H.
      destruct (Json.parse_value f s) as [[v r1]|] eqn:V; [|discriminate H].
      destruct (IHv _ _ _ V) as [L K]. pose proof (skip_ws_length r1) as W.
      destruct (Json.peek "," (Json.skip_ws r1)) as [r2|] eqn:P.
      * destruct (Json.parse_elems f (Json.skip_ws r2)) as [[vs' r3]|] eqn:M;
          [|discriminate H].
        injection H as <- <-. destruct (IHe _ _ _ M) as [L2 K2].
        apply peek_length in P as LP. pose proof (skip_ws_length r2) as W2.
        split; [lia|]. intros n Hn. destruct n as [|n]; [lia|].
        cbn [Json.parse_elems].
        rewrite (K n ltac:(lia)), P, (K2 n ltac:(lia)). reflexivity.
      * destruct (Json.peek "]" (Json.skip_ws r1)) as [r2|] eqn:P2; [|discriminate H].
        injection H as <- <-. apply peek_length in P2 as LP.
        split; [lia|]. intros n Hn. destruct n as [|n]; [lia|].
        cbn [Json.parse_elems]. rewrite (K n ltac:(lia)), P, P2. reflexivity.
    + intros s ps r H. cbn [Json.parse_members] in H.
      destruct (Json.peek Json.dquote s) as [r0|] eqn:P0; [|discriminate H].
      destruct (Json.scan_string r0) as [[k r1]|] eqn:S; [|discriminate H].
      destruct (Json.peek ":" (Json.skip_ws r1)) as [r2|] eqn:P1; [|discriminate H].
      destruct (Json.parse_value f (Json.skip_ws r2)) as [[v r3]|] eqn:V;
        [|discriminate H].
      destruct (IHv _ _ _ V) as [L K].
      apply peek_length in P0 as L0. apply peek_length in P1 as L1.
      pose proof (scan_string_length _ _ _ _ (le_n _) S) as LS.
      pose proof (skip_ws_length r1) as W1. pose proof (skip_ws_length r2) as W2.
      pose proof (skip_ws_length r3) as W3.
      destruct (Json.peek "," (Json.skip_ws r3)) as [r4|] eqn:P.
      * destruct (Json.parse_members f (Json.skip_ws r4)) as [[ps' r5]|] eqn:M;
          [|discriminate H].
        injection H as <- <-. destruct (IHm _ _ _ M) as [L2 K2].
        apply peek_length in P as LP. pose proof (skip_ws_length r4) as W4.
        split; [lia|]. intros n Hn. destruct n as [|n]; [lia|].
        cbn [Json.parse_members].
        rewrite P0, S, P1, (K n ltac:(lia)), P, (K2 n ltac:(lia)). reflexivity.
      * destruct (Json.peek "}" (Json.skip_ws r3)) as [r4|] eqn:P2; [|discriminate H].
        injection H as <- <-. apply peek_length in P2 as LP.
        split; [lia|]. intros n Hn. destruct n as [|n]; [lia|].
        cbn [Json.parse_members]. rewrite P0, S, P1, (K n ltac:(lia)), P, P2. reflexivity.
Qed.

(** The bound that [read] passes is enough: a larger bound decodes no
    text that [read] does not. *)
Lemma read_bound (m : nat) (s : string) (v : json) (r : string) :
  Json.parse_value m (Json.skip_ws s) = Some (v, r) ->
  Json.parse_value (S (String.length s)) (Json.skip_ws s) = Some (v, r).
Proof.
  intro H. destruct (proj1 (parse_bound m) _ _ _ H) as [_ K].
  apply K. pose proof (skip_ws_length s). lia.
Qed.

(** ** The bound of the recogniser *)

Lemma skip_string_length (n : nat) :
  forall s r,
    (String.length s <= n)%nat ->
    Json.skip_string s = Some r -> (String.length r < String.length s)%nat.
Proof.
  induction n as [|n IH]; intros s r Hn H.
  - destruct s; [discriminate H | cbn in Hn; lia].
  - destruct s as [|c s1]; [discriminate H|]. cbn [Json.skip_string] in H.
    cbn [String.length] in Hn |- *.
    destruct (c =? Json.dquote)%char; [injection H as <-; lia|].
    destruct (c =? Json.backslash)%char.
    + destruct s1 as [|e s2]; [discriminate H|]. cbn [String.length] in Hn |- *.
      destruct (e =? "u")%char.
      * destruct s2 as [|h1 [|h2 [|h3 [|h4 s3]]]]; try discriminate H.
        cbn [String.length] in Hn |- *.
        destruct (Json.hex4 h1 h2 h3 h4) as [k|]; [|discriminate H].
        pose proof (IH s3 r ltac:(lia) H). lia.
      * destruct (Json.unescape e); [|discriminate H].
        pose proof (IH s2 r ltac:(lia) H). lia.
    + destruct (PyStr.code c <? 32)%N; [discriminate H|].
      pose proof (IH s1 r ltac:(lia) H). lia.
Qed.

Lemma skip_digits_length (s : string) :
  (String.length (Json.skip_digits s) <= String.length s)%nat.
Proof.
  unfold Json.skip_digits. destruct (Json.span_digits s) as [ds rest] eqn:E.
  apply span_digits_length in E. cbn [snd]. lia.
Qed.

Lemma skip_frac_length (s : string) :
  (String.length (Json.skip_frac s) <= String.length s)%nat.
Proof.
  destruct s as [|c r]; cbn [Json.skip_frac]; [lia|].
  destruct ((c =? ".")%char && Json.starts_digit r); [|lia].
  pose proof (skip_digits_length r). cbn [String.length]. lia.
Qed.

Lemma skip_sign_length (s : string) :
  (String.length (Json.skip_sign s) <= String.length s)%nat.
Proof.
  destruct s as [|c r]; cbn [Json.skip_sign]; [lia|].
  destruct ((c =? "+")%char || (c =? "-")%char); cbn [String.length]; lia.
Qed.

Lemma skip_exp_length (s : string) :
  (String.length (Json.skip_exp s) <= String.length s)%nat.
Proof.
  destruct s as [|c r]; cbn [Json.skip_exp]; [lia|].
  destruct (((c =? "e")%char || (c =? "E")%char) && Json.starts_digit (Json.skip_sign r));
    [|lia].
  pose proof (skip_digits_length (Json.skip_sign r)). pose proof (skip_sign_length r).
  cbn [String.length]. lia.
Qed.

Lemma skip_number_length (s r : string) :
  Json.skip_number s = Some r -> (String.length r < String.length s)%nat.
Proof.
  destruct s as [|c t]; cbn [Json.skip_number]; [discriminate|].
  cbn [String.length].
  destruct (c =? "0")%char.
  - intro H. injection H as <-.
    pose proof (skip_exp_length (Json.skip_frac t)). pose proof (skip_frac_length t). lia.
  - destruct (Json.isdigit c); [|discriminate].
    intro H. injection H as <-.
    pose proof (skip_exp_length (Json.skip_frac (Json.skip_digits t))).
    pose proof (skip_frac_length (Json.skip_digits t)).
    pose proof (skip_digits_length t). lia.
Qed.

(** A result of the recogniser does not depend on the bound, once the
    bound is at least the number of characters passed over. *)
Lemma skip_bound (m : nat) :
  (forall s r,
      Json.skip_value m s = Some r ->
      (String.length r < String.length s)%nat /\
      forall n, (String.length s - String.length r <= n)%nat ->
                Json.skip_value n s = Some r) /\
  (forall s r,
      Json.skip_elems m s = Some r ->
      (String.length r < String.length s)%nat /\
      forall n, (String.length s - String.length r <= n)%nat ->
                Json.skip_elems n s = Some r) /\
  (forall s r,
      Json.skip_members m s = Some r ->
      (String.length r < String.length s)%nat /\
      forall n, (String.length s - String.length r <= n)%nat ->
                Json.skip_members n s = Some r).
Proof.
  induction m as [|f [IHv [IHe IHm]]].
  - split; [|split]; intros; discriminate.
  - split; [|split].
    + intros s r H. destruct s as [|c r0]; [discriminate H|].
      cbn [Json.skip_value] in H. cbn [String.length].
      destruct (c =? Json.dquote)%char eqn:E1.
      { pose proof (skip_string_length _ _ _ (le_n _) H) as L.
        split; [lia|]. intros n Hn. destruct n as [|n]; [lia|].
        cbn [Json.skip_value]. rewrite E1. exact H. }
      destruct (c =? "{")%char eqn:E2.
      { pose proof (skip_ws_length r0) as W.
        destruct (Json.peek "}" (Json.skip_ws r0)) as [r1|] eqn:P.
        - injection H as <-. apply peek_length in P as L.
          split; [lia|]. intros n Hn. destruct n as [|n]; [lia|].
          cbn [Json.skip_value]. rewrite E1, E2, P. reflexivity.
        - destruct (IHm _ _ H) as [L K].
          split; [lia|]. intros n Hn. destruct n as [|n]; [lia|].
          cbn [Json.skip_value]. rewrite E1, E2, P. apply K. lia. }
      destruct (c =? "[")%char eqn:E3.
      { pose proof (skip_ws_length r0) as W.
        destruct (Json.peek "]" (Json.skip_ws r0)) as [r1|] eqn:P.
        - injection H as <-. apply peek_length in P as L.
          split; [lia|]. intros n Hn. destruct n as [|n]; [lia|].
          cbn [Json.skip_value]. rewrite E1, E2, E3, P. reflexivity.
        - destruct (IHe _ _ H) as [L K].
          split; [lia|]. intros n Hn. destruct n as [|n]; [lia|].
          cbn [Json.skip_value]. rewrite E1, E2, E3, P. apply K. lia. }
      destruct (c =? "n")%char eqn:E4.
      { apply drop_prefix_length in H as L.
        split; [lia|]. intros n Hn. destruct n as [|n]; [lia|].
        cbn [Json.skip_value]. rewrite E1, E2, E3, E4. exact H. }
      destruct (c =? "t")%char eqn:E5.
      { apply drop_prefix_length in H as L.
        split; [lia|]. intros n Hn. destruct n as [|n]; [lia|].
        cbn [Json.skip_value]. rewrite E1, E2, E3, E4, E5. exact H. }
      destruct (c =? "f")%char eqn:E6.
      { apply drop_prefix_length in H as L.
        split; [lia|]. intros n Hn. destruct n as [|n]; [lia|].
        cbn [Json.skip_value]. rewrite E1, E2, E3, E4, E5, E6. exact H. }
      destruct (c =? "N")%char eqn:E7.
      { apply drop_prefix_length in H as L.
        split; [lia|]. intros n Hn. destruct n as [|n]; [lia|].
        cbn [Json.skip_value]. rewrite E1, E2, E3, E4, E5, E6, E7. exact H. }
      destruct (c =? "I")%char eqn:E8.
      { apply drop_prefix_length in H as L.
        split; [lia|]. intros n Hn. destruct n as [|n]; [lia|].
        cbn [Json.skip_value]. rewrite E1, E2, E3, E4, E5, E6, E7, E8. exact H. }
      destruct (c =? "-")%char eqn:E9.
      { assert (L : (String.length r <= String.length r0)%nat).
        { destruct (Json.drop_prefix "Infinity" r0) as [r1|] eqn:D.
          - injection H as <-. exact (drop_prefix_length _ _ _ D).
          - apply skip_number_length in H. lia. }
        split; [lia|]. intros n Hn. destruct n as [|n]; [lia|].
        cbn [Json.skip_value]. rewrite E1, E2, E3, E4, E5, E6, E7, E8, E9. exact H. }
      apply skip_number_length in H as L. cbn [String.length] in L.
      split; [lia|]. intros n Hn. destruct n as [|n]; [lia|].
      cbn [Json.skip_value]. rewrite E1, E2, E3, E4, E5, E6, E7, E8, E9. exact H.
    + intros s r H. cbn [Json.skip_elems] in H.
      destruct (Json.skip_value f s) as [r1|] eqn:V; [|discriminate H].
      destruct (IHv _ _ V) as [L K]. pose proof (skip_ws_length r1) as W.
      destruct (Json.peek "," (Json.skip_ws r1)) as [r2|] eqn:P.
      * destruct (IHe _ _ H) as [L2 K2].
        apply peek_length in P as LP. pose proof (skip_ws_length r2) as W2.
        split; [lia|]. intros n Hn. destruct n as [|n]; [lia|].
        cbn [Json.skip_elems].
        rewrite (K n ltac:(lia)), P. apply K2. lia.
      * apply peek_length in H as LP.
        split; [lia|]. intros n Hn. destruct n as [|n]; [lia|].
        cbn [Json.skip_elems]. rewrite (K n ltac:(lia)), P. exact H.
    + intros s r H. cbn [Json.skip_members] in H.
      destruct (Json.peek Json.dquote s) as [r0|] eqn:P0; [|discriminate H].
      destruct (Json.skip_string r0) as [r1|] eqn:S; [|discriminate H].
      destruct (Json.peek ":" (Json.skip_ws r1)) as [r2|] eqn:P1; [|discriminate H].
      destruct (Json.skip_value f (Json.skip_ws r2)) as [r3|] eqn:V;
        [|discriminate H].
      destruct (IHv _ _ V) as [L K].
      apply peek_length in P0 as L0. apply peek_length in P1 as L1.
      pose proof (skip_string_length _ _ _ (le_n _) S) as LS.
      pose proof (skip_ws_length r1) as W1. pose proof (skip_ws_length r2) as W2.
      pose proof (skip_ws_length r3) as W3.
      destruct (Json.peek "," (Json.skip_ws r3)) as [r4|] eqn:P.
      * destruct (IHm _ _ H) as [L2 K2].
        apply peek_length in P as LP. pose proof (skip_ws_length r4) as W4.
        split; [lia|]. intros n Hn. destruct n as [|n]; [lia|].
        cbn [Json.skip_members].
        rewrite P0, S, P1, (K n ltac:(lia)), P. apply K2. lia.
      * apply peek_length in H as LP.
        split; [lia|]. intros n Hn. destruct n as [|n]; [lia|].
        cbn [Json.skip_members]. rewrite P0, S, P1, (K n ltac:(lia)), P. exact H.
Qed.

(** The bound that [valid] passes is enough: a larger bound accepts no
    text that [valid] does not. *)
Lemma valid_bound (m : nat) (s r : string) :
  Json.skip_value m (Json.skip_ws s) = Some r ->
  Json.skip_value (S (String.length s)) (Json.skip_ws s) = Some r.
Proof.
  intro H. destruct (proj1 (skip_bound m) _ _ H) as [_ K].
  apply K. pose proof (skip_ws_length s). lia.
Qed.

(** ** The fragment within the grammar *)

Lemma scan_skip_string (n : nat) :
  forall s t r,
    (String.length s <= n)%nat ->
    Json.scan_string s = Some (t, r) -> Json.skip_string s = Some r.
Proof.
  induction n as [|n IH]; intros s t r Hn H.
  - destruct s; [discriminate H | cbn in Hn; lia].
  - destruct s as [|c s1]; [discriminate H|].
    cbn [Json.scan_string] in H. cbn [Json.skip_string].
    cbn [String.length] in Hn.
    destruct (c =? Json.dquote)%char; [injection H as _ <-; reflexivity|].
    destruct (c =? Json.backslash)%char.
    + destruct s1 as [|e s2]; [discriminate H|]. cbn [String.length] in Hn.
      destruct (e =? "u")%char.
      * destruct s2 as [|h1 [|h2 [|h3 [|h4 s3]]]]; try discriminate H.
        cbn [String.length] in Hn.
        destruct (Json.hex4 h1 h2 h3 h4) as [k|]; [|discriminate H].
        destruct (k <? 256)%N; [|discriminate H].
        destruct (Json.scan_string s3) as [[t' r']|] eqn:E; [|discriminate H].
        injection H as _ <-. exact (IH s3 t' r' ltac:(lia) E).
      * destruct (Json.unescape e); [|discriminate H].
        destruct (Json.scan_string s2) as [[t' r']|] eqn:E; [|discriminate H].
        injection H as _ <-. exact (IH s2 t' r' ltac:(lia) E).
    + destruct (PyStr.code c <? 32)%N; [discriminate H|].
      destruct (Json.scan_string s1) as [[t' r']|] eqn:E; [|discriminate H].
      injection H as _ <-. exact (IH s1 t' r' ltac:(lia) E).
Qed.

Lemma float_mark_skips (rest : string) :
  Json.float_mark rest = false -> Json.skip_exp (Json.skip_frac rest) = rest.
Proof.
  destruct rest as [|c r]; [reflexivity|].
  cbn [Json.float_mark Json.skip_frac Json.skip_exp]. intro H.
  apply orb_false_iff in H. destruct H as [H E2].
  apply orb_false_iff in H. destruct H as [E0 E1].
  rewrite E0. cbn [andb Json.skip_exp]. rewrite E1, E2. reflexivity.
Qed.

(** An integer of the fragment is a number of the grammar. *)
Lemma scan_int_skip_number (neg : bool) (s : string) (v : json) (r : string) :
  Json.scan_int neg s = Some (v, r) -> Json.skip_number s = Some r.
Proof.
  unfold Json.scan_int. destruct (Json.span_digits s) as [ds rest] eqn:E.
  destruct ds as [|d ds]; [discriminate|]. cbn [PyStr.nonempty negb orb].
  destruct (Json.leading_zero (String d ds)) eqn:Z; [discriminate|]. cbn [orb].
  destruct (Json.float_mark rest) eqn:F; [discriminate|].
  destruct (NilEmpty.uint_of_string _); [|discriminate].
  intro H. injection H as _ <-.
  destruct s as [|c t]; [discriminate E|]. cbn [Json.span_digits] in E.
  destruct (Json.isdigit c) eqn:D; [|discriminate E].
  destruct (Json.span_digits t) as [d' t'] eqn:E'. injection E as E1 E2 E3.
  subst d ds rest.
  cbn [Json.skip_number]. rewrite D.
  destruct (c =? "0")%char eqn:C0.
  - destruct d' as [|x d']; [|cbn [Json.leading_zero] in Z; rewrite C0 in Z; discriminate Z].
    destruct t as [|y t]; cbn [Json.span_digits] in E'.
    + injection E' as <-. reflexivity.
    + destruct (Json.isdigit y).
      * destruct (Json.span_digits t). discriminate E'.
      * injection E' as <-. rewrite (float_mark_skips _ F). reflexivity.
  - unfold Json.skip_digits. rewrite E'. cbn [snd].
    rewrite (float_mark_skips _ F). reflexivity.
Qed.

(** What the decoder of the fragment reads, the recogniser accepts. *)
Lemma parse_skip (m : nat) :
  (forall s v r, Json.parse_value m s = Some (v, r) -> Json.skip_value m s = Some r) /\
  (forall s vs r, Json.parse_elems m s = Some (vs, r) -> Json.skip_elems m s = Some r) /\
  (forall s ps r, Json.parse_members m s = Some (ps, r) -> Json.skip_members m s = Some r).
Proof.
  induction m as [|f [IHv [IHe IHm]]].
  - split; [|split]; intros; discriminate.
  - split; [|split].
    + intros s v r H. destruct s as [|c r0]; [discriminate H|].
      cbn [Json.parse_value] in H. cbn [Json.skip_value].
      destruct (c =? Json.dquote)%char.
      { destruct (Json.scan_string r0) as [[t r1]|] eqn:S; [|discriminate H].
        injection H as _ <-. exact (scan_skip_string _ _ _ _ (le_n _) S). }
      destruct (c =? "{")%char.
      { destruct (Json.peek "}" (Json.skip_ws r0)) as [r1|].
        - injection H as _ <-. reflexivity.
        - destruct (Json.parse_members f (Json.skip_ws r0)) as [[ps r2]|] eqn:M;
            [|discriminate H].
          injection H as _ <-. exact (IHm _ _ _ M). }
      destruct (c =? "[")%char.
      { destruct (Json.peek "]" (Json.skip_ws r0)) as [r1|].
        - injection H as _ <-. reflexivity.
        - destruct (Json.parse_elems f (Json.skip_ws r0)) as [[vs r2]|] eqn:M;
            [|discriminate H].
          injection H as _ <-. exact (IHe _ _ _ M). }
      destruct (c =? "n")%char.
      { destruct (Json.drop_prefix "ull" r0) as [r1|]; [|discriminate H].
        injection H as _ <-. reflexivity. }
      destruct (c =? "t")%char.
      { destruct (Json.drop_prefix "rue" r0) as [r1|]; [|discriminate H].
        injection H as _ <-. reflexivity. }
      destruct (c =? "f")%char.
      { destruct (Json.drop_prefix "alse" r0) as [r1|]; [|discriminate H].
        injection H as _ <-. reflexivity. }
      destruct (c =? "N")%char eqn:EN.
      { apply Ascii.eqb_eq in EN. subst c. discriminate H. }
      destruct (c =? "I")%char eqn:EI.
      { apply Ascii.eqb_eq in EI. subst c. discriminate H. }
      destruct (c =? "-")%char.
      { apply scan_int_skip_number in H.
        destruct r0 as [|y r0]; [discriminate H|].
        destruct (Json.drop_prefix "Infinity" (String y r0)) eqn:D; [|exact H].
        cbn [Json.drop_prefix] in D. destruct ("I" =? y)%char eqn:EI2; [|discriminate D].
        apply Ascii.eqb_eq in EI2. subst y. discriminate H. }
      exact (scan_int_skip_number _ _ _ _ H).
    + intros s vs r H. cbn [Json.parse_elems] in H. cbn [Json.skip_elems].
      destruct (Json.parse_value f s) as [[v r1]|] eqn:V; [|discriminate H].
      rewrite (IHv _ _ _ V).
      destruct (Json.peek "," (Json.skip_ws r1)) as [r2|].
      * destruct (Json.parse_elems f (Json.skip_ws r2)) as [[vs' r3]|] eqn:M;
          [|discriminate H].
        injection H as _ <-. exact (IHe _ _ _ M).
      * destruct (Json.peek "]" (Json.skip_ws r1)) as [r2|]; [|discriminate H].
        injection H as _ <-. reflexivity.
    + intros s ps r H. cbn [Json.parse_members] in H. cbn [Json.skip_members].
      destruct (Json.peek Json.dquote s) as [r0|]; [|discriminate H].
      destruct (Json.scan_string r0) as [[k r1]|] eqn:S; [|discriminate H].
      rewrite (scan_skip_string _ _ _ _ (le_n _) S).
      destruct (Json.peek ":" (Json.skip_ws r1)) as [r2|]; [|discriminate H].
      destruct (Json.parse_value f (Json.skip_ws r2)) as [[v r3]|] eqn:V;
        [|discriminate H].
      rewrite (IHv _ _ _ V).
      destruct (Json.peek "," (Json.skip_ws r3)) as [r4|].
      * destruct (Json.parse_members f (Json.skip_ws r4)) as [[ps' r5]|] eqn:M;
          [|discriminate H].
        injection H as _ <-. exact (IHm _ _ _ M).
      * destruct (Json.peek "}" (Json.skip_ws r3)) as [r4|]; [|discriminate H].
        injection H as _ <-. reflexivity.
Qed.

(** A text that decodes to a value of the fragment is JSON. *)
Lemma read_valid (s : string) (v : json) :
  Json.read s = Some v -> Json.valid s = true.
Proof.
  unfold Json.read, Json.valid.
  destruct (Json.parse_value (S (String.length s)) (Json.skip_ws s)) as [[x r]|] eqn:P;
    [|discriminate].
  rewrite (proj1 (parse_skip _) _ _ _ P).
  destruct (Json.skip_ws r); [reflexivity | discriminate].
Qed.

(** The three answers of [json.loads], in terms of the two tests. *)
Lemma loads_cases (s : string) :
  match Json.loads s with
  | Json.Decoded v => Json.read s = Some v /\ Json.valid s = true
  | Json.Beyond => Json.read s = None /\ Json.valid s = true
  | Json.JSONDecodeError => Json.valid s = false
  end.
Proof.
  unfold Json.loads. destruct (Json.read s) as [v|] eqn:R.
  - split; [reflexivity | exact (read_valid s v R)].
  - destruct (Json.valid s) eqn:V; [split; reflexivity | reflexivity].
Qed.

(** * Further properties of the code *)

(** ** Substrings *)

Lemma startswith_append (s p b : string) :
  PyStr.startswith s p = true -> PyStr.startswith (s ++ b) p = true.
Proof.
  revert s. induction p as [|a p IH]; intros s; cbn [PyStr.startswith]; [reflexivity|].
  destruct s as [|c s]; [discriminate|]. cbn [append].
  intro H. apply andb_true_iff in H. destruct H as [H1 H2].
  rewrite H1, (IH s H2). reflexivity.
Qed.

Lemma contains_append_r (s p b : string) :
  PyStr.contains s p = true -> PyStr.contains (s ++ b) p = true.
Proof.
  induction s as [|c s IH]; cbn [PyStr.contains append].
  - rewrite orb_false_r. intro H. destruct p; [|discriminate H].
    destruct b; reflexivity.
  - intro H. apply orb_true_iff in H. destruct H as [H | H].
    + change (String c (s ++ b)) with (String c s ++ b).
      rewrite (startswith_append _ _ b H). reflexivity.
    + rewrite (IH H). apply orb_true_r.
Qed.

Lemma contains_append_l (a s p : string) :
  PyStr.contains s p = true -> PyStr.contains (a ++ s) p = true.
Proof.
  intro H. induction a as [|c a IH]; cbn [append]; [exact H|].
  cbn [PyStr.contains]. rewrite IH. apply orb_true_r.
Qed.

(** X1.  a model name that contains a supported name is supported. *)
Theorem vision_support_by_containment (model before after : string) :
  OpenAIVision._model_supports_vision model = true ->
  OpenAIVision._model_supports_vision (before ++ model ++ after) = true.
Proof.
  unfold OpenAIVision._model_supports_vision. intro H.
  apply existsb_exists in H. destruct H as [vm [Hin Hc]].
  apply existsb_exists. exists vm. split; [exact Hin|].
  apply contains_append_l, contains_append_r. exact Hc.
Qed.

Lemma vision_support_by_containment_witness :
  OpenAIVision._model_supports_vision "gpt-4o-2024-08-06" = true.
Proof.
  apply (vision_support_by_containment "gpt-4o" "" "-2024-08-06"). reflexivity.
Defined.

(** ** The replies of the vision client and of the parser are mappings *)

Lemma loads_parses (s : string) (v : json) :
  Json.loads s = Json.Decoded v ->
  exists r, Json.parse_value (S (String.length s)) (Json.skip_ws s) = Some (v, r).
Proof.
  unfold Json.loads, Json.read.
  destruct (Json.parse_value _ _) as [[v' r]|];
    [|destruct (Json.valid s); discriminate].
  destruct (Json.skip_ws r); [|destruct (Json.valid s); discriminate].
  intro H. injection H as <-. exists r. reflexivity.
Qed.

(** A value that starts with an opening brace decodes to a mapping. *)
Lemma parse_brace_dict (n : nat) (r : string) (v : json) (rest : string) :
  Json.parse_value n (String "{" r) = Some (v, rest) -> exists d, v = JDict d.
Proof.
  destruct n as [|f]; [discriminate|]. rewrite parse_value_brace.
  destruct (Json.peek "}" (Json.skip_ws r)).
  - intro H. injection H as <- _. exists []. reflexivity.
  - destruct (Json.parse_members f (Json.skip_ws r)) as [[ps r2]|]; [|discriminate].
    intro H. injection H as <- _. eexists. reflexivity.
Qed.

Lemma find_slice_head (c : ascii) (s : string) (m : nat) :
  (0 <= PyStr.find c s)%Z ->
  String.substring (Z.to_nat (PyStr.find c s)) m s = ""
  \/ exists r, String.substring (Z.to_nat (PyStr.find c s)) m s = String c r.
Proof.
  induction s as [|d r IH]; cbn [PyStr.find]; [lia|].
  destruct (d =? c)%char eqn:E.
  - intros _. apply Ascii.eqb_eq in E. subst d. cbn.
    destruct m; [left; reflexivity | right; eexists; reflexivity].
  - destruct (PyStr.find c r <? 0)%Z eqn:F; [lia|]. intros _.
    apply Z.ltb_ge in F.
    replace (Z.to_nat (PyStr.find c r + 1)) with (S (Z.to_nat (PyStr.find c r))) by lia.
    cbn [String.substring]. exact (IH F).
Qed.

(** The text between the braces decodes to a mapping, when it decodes. *)
Lemma slice_decodes_dict (content : string) (v : json) :
  (0 <= PyStr.find "{" content)%Z ->
  Json.loads (PyStr.slice content (PyStr.find "{" content)
                (PyStr.rfind "}" content + 1)) = Json.Decoded v ->
  exists d, v = JDict d.
Proof.
  intros Hs L. unfold PyStr.slice in L.
  destruct (find_slice_head "{" content
              (Z.to_nat (PyStr.rfind "}" content + 1 - PyStr.find "{" content)) Hs)
    as [E | [r E]]; rewrite E in L.
  - discriminate L.
  - apply loads_parses in L. destruct L as [rest L].
    exact (parse_brace_dict _ _ _ _ L).
Qed.

(** X2.  whatever text the model replies, the client hands on a mapping,
    and which one: the raw text when the reply has no pair of braces or
    the text between them is not JSON, and the object that the text
    between them decodes to otherwise. *)
Theorem anthropic_reply_is_mapping (content : string) :
  let json_str := PyStr.slice content (PyStr.find "{" content)
                    (PyStr.rfind "}" content + 1) in
  let braces := ((0 <=? PyStr.find "{" content)%Z
                 && (0 <=? PyStr.rfind "}" content)%Z)%bool in
  (braces = false ->
   AnthropicLLM.analyze_image content = Some (JDict [("raw_text", JStr content)])) /\
  (braces = true ->
   Json.loads json_str = Json.JSONDecodeError ->
   AnthropicLLM.analyze_image content = Some (JDict [("raw_text", JStr content)])) /\
  (braces = true ->
   forall v, Json.loads json_str = Json.Decoded v ->
             AnthropicLLM.analyze_image content = Some v /\ exists d, v = JDict d) /\
  (braces = true ->
   Json.loads json_str = Json.Beyond ->
   AnthropicLLM.analyze_image content = None).
Proof.
  intros json_str braces. unfold AnthropicLLM.analyze_image, AnthropicLLM.raw_text.
  fold json_str. fold braces.
  split; [intros ->; reflexivity|].
  split; [intros -> ->; reflexivity|].
  split; [|intros -> ->; reflexivity].
  intros B v L. rewrite B, L. split; [reflexivity|].
  unfold braces in B. apply andb_true_iff in B. destruct B as [B _].
  apply Z.leb_le in B. exact (slice_decodes_dict content v B L).
Qed.

Lemma anthropic_reply_is_mapping_witness :
  AnthropicLLM.analyze_image prose_text = Some (JDict [("name", JStr "Beaker")]) /\
  AnthropicLLM.analyze_image volume_text = Some (JDict [("raw_text", JStr volume_text)]) /\
  AnthropicLLM.analyze_image "see {shelf 3}"
  = Some (JDict [("raw_text", JStr "see {shelf 3}")]).
Proof.
  split; [|split].
  - apply (proj1 (proj2 (proj2 (anthropic_reply_is_mapping prose_text)))
             eq_refl (JDict [("name", JStr "Beaker")])).
    vm_compute. reflexivity.
  - apply (proj1 (anthropic_reply_is_mapping volume_text)). reflexivity.
  - apply (proj1 (proj2 (anthropic_reply_is_mapping "see {shelf 3}"))).
    + reflexivity.
    + vm_compute. reflexivity.
Defined.

Lemma is_ws_isspace (c : ascii) : Json.is_ws c = true -> PyStr.isspace c = true.
Proof.
  destruct c as [[] [] [] [] [] [] [] []]; intro H;
    first [reflexivity | discriminate H].
Qed.

(** A character that [str.strip] removes and JSON does not skip starts no
    JSON value. *)
Lemma parse_value_space (n : nat) (c : ascii) (r : string) :
  PyStr.isspace c = true -> Json.is_ws c = false ->
  Json.parse_value n (String c r) = None.
Proof.
  destruct n as [|f]; [reflexivity|].
  destruct c as [[] [] [] [] [] [] [] []]; intros H1 H2;
    first [discriminate H1 | discriminate H2 | reflexivity].
Qed.

Lemma rstrip_head (s : string) (c : ascii) (r : string) :
  PyStr.rstrip s = String c r -> exists r', s = String c r'.
Proof.
  destruct s as [|d t]; cbn [PyStr.rstrip]; [discriminate|].
  destruct (PyStr.rstrip t).
  - destruct (PyStr.isspace d); [discriminate|].
    intro H. injection H as <- _. eexists. reflexivity.
  - intro H. injection H as <- _. eexists. reflexivity.
Qed.

Lemma parse_after_lstrip (n : nat) (text r : string) (v : json) (rest : string) :
  PyStr.lstrip text = String "{" r ->
  Json.parse_value n (Json.skip_ws text) = Some (v, rest) ->
  exists d, v = JDict d.
Proof.
  induction text as [|c t IH]; cbn [PyStr.lstrip Json.skip_ws]; [discriminate|].
  destruct (Json.is_ws c) eqn:W.
  - rewrite (is_ws_isspace c W). exact IH.
  - destruct (PyStr.isspace c) eqn:P.
    + intros _ H. rewrite (parse_value_space n c t P W) in H. discriminate H.
    + intros E H. injection E as -> _. exact (parse_brace_dict _ _ _ _ H).
Qed.

Lemma try_json_dict (text : string) (v : json) :
  between_braces text = true -> Json.loads text = Json.Decoded v -> exists d, v = JDict d.
Proof.
  unfold between_braces. intros S L. apply andb_true_iff in S. destruct S as [S _].
  apply loads_parses in L. destruct L as [rest L].
  unfold PyStr.strip in S.
  destruct (PyStr.rstrip (PyStr.lstrip text)) as [|c r] eqn:R; [discriminate S|].
  cbn [PyStr.startswith] in S. apply andb_true_iff in S. destruct S as [S _].
  apply Ascii.eqb_eq in S. subst c.
  destruct (rstrip_head _ _ _ R) as [r' E].
  exact (parse_after_lstrip _ _ _ _ _ E L).
Qed.

(** X3.  [parse_llm_response] returns a mapping for every response, and
    which one: a mapping as it is; for a text between braces that is
    JSON, the object it decodes to; for every other text the mapping made
    from its lines. *)
Theorem parse_llm_response_is_mapping (template_id : option Z) :
  (forall d, parse_llm_response (Mapping d) template_id = Some (JDict d)) /\
  (forall text,
      (between_braces text = false \/ Json.loads text = Json.JSONDecodeError ->
       parse_llm_response (Text text) template_id
       = Some (JDict (line_result text template_id))) /\
      (between_braces text = true ->
       forall v, Json.loads text = Json.Decoded v ->
                 parse_llm_response (Text text) template_id = Some v /\
                 exists d, v = JDict d) /\
      (between_braces text = true ->
       Json.loads text = Json.Beyond ->
       parse_llm_response (Text text) template_id = None)).
Proof.
  split; [reflexivity|]. intro text. cbn [parse_llm_response].
  split; [|split].
  - intro H. apply try_json_passes in H. rewrite H. reflexivity.
  - intros B v L. unfold try_json. rewrite B, L. split; [reflexivity|].
    exact (try_json_dict text v B L).
  - intros B L. unfold try_json. rewrite B, L. reflexivity.
Qed.

Lemma parse_llm_response_is_mapping_witness :
  parse_llm_response (Text volume_text) (Some 7%Z)
  = Some (JDict [("volume", JStr "500ml"); ("asset_name", JStr "Unnamed Asset");
                 ("template_id", JNum 7)]) /\
  parse_llm_response (Text (Json.text "{'name': 'Beaker'}")) (Some 7%Z)
  = Some (JDict [("name", JStr "Beaker")]).
Proof.
  split.
  - apply (proj1 (proj2 (parse_llm_response_is_mapping (Some 7%Z)) volume_text)).
    left. reflexivity.
  - apply (proj1 (proj2 (proj2 (parse_llm_response_is_mapping (Some 7%Z))
                           (Json.text "{'name': 'Beaker'}")))).
    + reflexivity.
    + vm_compute. reflexivity.
Defined.

(** ** The line-oriented result: its keys and values *)

Lemma dict_has_set (d : dict) (k k' : string) (v : json) :
  dict_has (dict_set d k v) k' = (k =? k') || dict_has d k'.
Proof.
  unfold dict_has. destruct (k =? k') eqn:E.
  - apply String.eqb_eq in E. subst k'. rewrite dict_get_set_same. reflexivity.
  - apply String.eqb_neq in E. rewrite (dict_get_set_other d k k' v E). reflexivity.
Qed.

(** X4.  on the line-oriented path the result always has a name field, and
    carries the template id when a non-zero one is given. *)
Theorem line_result_has_name (text : string) (template_id : option Z) :
  between_braces text = false \/ Json.loads text = Json.JSONDecodeError ->
  exists d,
    parse_llm_response (Text text) template_id = Some (JDict d) /\
    dict_has d "name" || dict_has d "asset_name" = true /\
    (forall z, template_id = Some z -> z <> 0%Z ->
               dict_get d "template_id" = Some (JNum z)).
Proof.
  intro T. apply try_json_passes in T. exists (line_result text template_id).
  split; [cbn [parse_llm_response]; rewrite T; reflexivity|].
  unfold line_result.
  set (r := if negb (dict_has (parse_lines text) "name")
               && negb (dict_has (parse_lines text) "asset_name")
            then dict_set (parse_lines text) "asset_name" (JStr "Unnamed Asset")
            else parse_lines text).
  assert (Hr : dict_has r "name" || dict_has r "asset_name" = true).
  { unfold r. destruct (dict_has (parse_lines text) "name") eqn:N; cbn [negb andb].
    - rewrite N. reflexivity.
    - destruct (dict_has (parse_lines text) "asset_name") eqn:A; cbn [negb andb].
      + rewrite N, A. reflexivity.
      + rewrite !dict_has_set. rewrite String.eqb_refl. cbn [orb].
        apply orb_true_r. }
  destruct template_id as [z|]; [|split; [exact Hr | discriminate]].
  cbn [id_truthy]. destruct (z =? 0)%Z eqn:Z0; cbn [negb].
  - split; [exact Hr|]. intros z' E Hz. injection E as <-.
    apply Z.eqb_eq in Z0. contradiction.
  - split.
    + rewrite !dict_has_set. cbn. exact Hr.
    + intros z' E _. injection E as <-. apply dict_get_set_same.
Qed.

Lemma line_result_has_name_witness :
  exists d,
    parse_llm_response (Text volume_text) (Some 7%Z) = Some (JDict d) /\
    dict_has d "name" || dict_has d "asset_name" = true /\
    (forall z, Some 7%Z = Some z -> z <> 0%Z ->
               dict_get d "template_id" = Some (JNum z)).
Proof. apply (line_result_has_name volume_text (Some 7%Z)). left. reflexivity. Defined.

Lemma lower_char_idem (c : ascii) :
  PyStr.lower_char (PyStr.lower_char c) = PyStr.lower_char c.
Proof. destruct c as [[] [] [] [] [] [] [] []]; reflexivity. Qed.

Lemma normal_key_made (s : string) :
  normal_key (PyStr.replace_char " " "_" (PyStr.lower s)) = true.
Proof.
  unfold normal_key. apply andb_true_iff. split.
  - apply negb_true_iff. induction s as [|c r IH]; [reflexivity|].
    cbn [PyStr.lower PyStr.replace_char PyStr.has_char]. rewrite IH.
    destruct (PyStr.lower_char c =? " ")%char eqn:E; [reflexivity|].
    rewrite E. reflexivity.
  - apply String.eqb_eq. induction s as [|c r IH]; [reflexivity|].
    cbn [PyStr.lower PyStr.replace_char]. rewrite IH. f_equal.
    destruct (PyStr.lower_char c =? " ")%char; [reflexivity | apply lower_char_idem].
Qed.

Lemma rstrip_cons (c : ascii) (r : string) :
  PyStr.rstrip (String c r) =
  match PyStr.rstrip r with
  | EmptyString => if PyStr.isspace c then EmptyString else String c EmptyString
  | r' => String c r'
  end.
Proof. reflexivity. Qed.

Lemma rstrip_idem (s : string) : PyStr.rstrip (PyStr.rstrip s) = PyStr.rstrip s.
Proof.
  induction s as [|c r IH]; [reflexivity|]. rewrite rstrip_cons.
  destruct (PyStr.rstrip r) as [|a b] eqn:R.
  - destruct (PyStr.isspace c) eqn:P; [reflexivity|].
    rewrite rstrip_cons. cbn [PyStr.rstrip]. rewrite P. reflexivity.
  - rewrite rstrip_cons. rewrite IH. reflexivity.
Qed.

Lemma lstrip_head (s : string) :
  PyStr.lstrip s = "" \/
  exists c r, PyStr.lstrip s = String c r /\ PyStr.isspace c = false.
Proof.
  induction s as [|c r IH]; [left; reflexivity|]. cbn [PyStr.lstrip].
  destruct (PyStr.isspace c) eqn:P; [exact IH|].
  right. exists c, r. split; [reflexivity | exact P].
Qed.

(** Trimming twice is trimming once. *)
Lemma strip_idem (s : string) : PyStr.strip (PyStr.strip s) = PyStr.strip s.
Proof.
  unfold PyStr.strip. destruct (lstrip_head s) as [E | [c [r [E P]]]]; rewrite E.
  - reflexivity.
  - assert (H : exists r', PyStr.rstrip (String c r) = String c r').
    { cbn [PyStr.rstrip]. rewrite P. destruct (PyStr.rstrip r); eexists; reflexivity. }
    destruct H as [r' H]. rewrite H. cbn [PyStr.lstrip]. rewrite P.
    rewrite <- H. apply rstrip_idem.
Qed.

Lemma Forall_dict_set (P : string * json -> Prop) (d : dict) (k : string) (v : json) :
  Forall P d -> (forall k', (k' =? k) = true -> P (k', v)) -> P (k, v) ->
  Forall P (dict_set d k v).
Proof.
  intros Hd Hk Hv. induction d as [|[k' v'] r IH]; cbn [dict_set].
  - constructor; [exact Hv | constructor].
  - inversion Hd as [|x l Hx Hl]; subst.
    destruct (k' =? k) eqn:E; constructor; auto.
Qed.

Lemma parse_line_normal (d : dict) (line : string) :
  Forall (fun kv => normal_key (fst kv) = true /\ trimmed_text (snd kv) = true) d ->
  Forall (fun kv => normal_key (fst kv) = true /\ trimmed_text (snd kv) = true)
    (parse_line d line).
Proof.
  intro H. unfold parse_line. destruct (PyStr.has_char line ":"); [|exact H].
  destruct (PyStr.split_once ":" line) as [key value].
  assert (V : trimmed_text (JStr (PyStr.strip value)) = true)
    by (cbn [trimmed_text]; rewrite strip_idem; apply String.eqb_refl).
  apply Forall_dict_set; [exact H | |].
  - intros k' E. apply String.eqb_eq in E. subst k'. cbn [fst snd].
    split; [apply normal_key_made | exact V].
  - cbn [fst snd]. split; [apply normal_key_made | exact V].
Qed.

(** X5.  every key that the line-oriented extraction writes is in lower
    case and free of spaces, and every value is a trimmed string. *)
Theorem parse_lines_normal (text : string) (k : string) (v : json) :
  In (k, v) (parse_lines text) ->
  PyStr.has_char k " " = false /\ PyStr.lower k = k /\
  exists s, v = JStr s /\ PyStr.strip s = s.
Proof.
  assert (H : Forall (fun kv => normal_key (fst kv) = true /\ trimmed_text (snd kv) = true)
                (parse_lines text)).
  { unfold parse_lines.
    generalize (PyStr.split newline (PyStr.strip text)).
    assert (B : Forall (fun kv : string * json =>
                          normal_key (fst kv) = true /\ trimmed_text (snd kv) = true) [])
      by constructor.
    revert B. generalize (@nil (string * json)).
    intros d B l. revert d B.
    induction l as [|line rest IH]; intros d B; cbn [fold_left]; [exact B|].
    apply IH. apply parse_line_normal. exact B. }
  intro Hin. rewrite Forall_forall in H. destruct (H _ Hin) as [Hk Hv].
  cbn [fst snd] in Hk, Hv. unfold normal_key in Hk.
  apply andb_true_iff in Hk. destruct Hk as [K1 K2].
  apply negb_true_iff in K1. apply String.eqb_eq in K2.
  split; [exact K1|]. split; [exact K2|].
  destruct v; try discriminate Hv. cbn [trimmed_text] in Hv.
  apply String.eqb_eq in Hv. eexists. split; [reflexivity | exact Hv].
Qed.

Lemma parse_lines_normal_witness :
  PyStr.has_char "shelf_life" " " = false /\ PyStr.lower "shelf_life" = "shelf_life" /\
  exists s, JStr "2 years" = JStr s /\ PyStr.strip s = s.
Proof.
  apply (parse_lines_normal "  Shelf Life :  2 years  " "shelf_life" (JStr "2 years")).
  left. reflexivity.
Defined.

(** ** Links and file names of the labels *)

Lemma of_int_inj (i j : Z) : PyStr.of_int i = PyStr.of_int j -> i = j.
Proof.
  unfold PyStr.of_int. intro H. apply DecimalZ.to_int_inj.
  assert (E : NilEmpty.int_of_string (NilEmpty.string_of_int (Z.to_int i))
              = NilEmpty.int_of_string (NilEmpty.string_of_int (Z.to_int j)))
    by (rewrite H; reflexivity).
  rewrite !NilEmpty.isi in E. injection E as E. exact E.
Qed.

Lemma append_inj_l (p a b : string) : p ++ a = p ++ b -> a = b.
Proof.
  induction p as [|c p IH]; cbn [append]; intro H; [exact H|].
  injection H as H. exact (IH H).
Qed.

Lemma append_inj_r (a b p : string) : a ++ p = b ++ p -> a = b.
Proof.
  revert b. induction a as [|c a IH]; intros [|d b] H; cbn [append] in H.
  - reflexivity.
  - exfalso. apply (f_equal String.length) in H.
    cbn [String.length] in H. rewrite length_append in H. lia.
  - exfalso. apply (f_equal String.length) in H.
    cbn [String.length] in H. rewrite length_append in H. lia.
  - injection H as -> H. f_equal. exact (IH _ H).
Qed.

(** X6.  the link that [create_asset_qrcode] encodes tells the records
    apart: two different ids never give the same link. *)
Theorem asset_link_injective (g : QRCodeGenerator.t) (i j : Z) :
  i <> j -> QRCodeGenerator.asset_qr_data g i <> QRCodeGenerator.asset_qr_data g j.
Proof.
  intros N H. apply N. unfold QRCodeGenerator.asset_qr_data in H.
  apply append_inj_l in H. apply append_inj_l in H. exact (of_int_inj _ _ H).
Qed.

Lemma asset_link_injective_witness :
  QRCodeGenerator.asset_qr_data
    {| QRCodeGenerator.output_dir := "qrcodes";
       QRCodeGenerator.base_url := "https://lab.example.org";
       QRCodeGenerator.encodes := sample_make;
       QRCodeGenerator.saves := sample_save |} 12
  <> QRCodeGenerator.asset_qr_data
    {| QRCodeGenerator.output_dir := "qrcodes";
       QRCodeGenerator.base_url := "https://lab.example.org";
       QRCodeGenerator.encodes := sample_make;
       QRCodeGenerator.saves := sample_save |} 21.
Proof. apply asset_link_injective. lia. Defined.

Lemma keep_char_not_slash (c : ascii) :
  QRCodeGenerator.keep_char c = true -> not_slash c = true.
Proof. destruct c as [[] [] [] [] [] [] [] []]; cbn; intro H; congruence. Qed.

Lemma digit_not_underscore (u : Decimal.uint) :
  all_chars not_underscore (NilEmpty.string_of_uint u) = true.
Proof. induction u; cbn [NilEmpty.string_of_uint all_chars]; auto. Qed.

Lemma of_int_not_underscore (z : Z) : all_chars not_underscore (PyStr.of_int z) = true.
Proof.
  unfold PyStr.of_int. destruct (Z.to_int z) as [u|u];
    cbn [NilEmpty.string_of_int all_chars]; [|cbn]; apply digit_not_underscore.
Qed.

(** The text after the last underscore is determined by the whole. *)
Lemma last_underscore (a b x y : string) :
  all_chars not_underscore x = true -> all_chars not_underscore y = true ->
  a ++ "_" ++ x = b ++ "_" ++ y -> x = y.
Proof.
  intros Hx Hy. revert b. induction a as [|c a IH]; intros [|d b] H; cbn [append] in H.
  - injection H as H. exact H.
  - injection H as Hd H. subst d. rewrite H in Hx.
    rewrite all_chars_append in Hx. apply andb_true_iff in Hx.
    destruct Hx as [_ Hx]. cbn in Hx. discriminate.
  - injection H as Hc H. subst c. rewrite <- H in Hy.
    rewrite all_chars_append in Hy. apply andb_true_iff in Hy.
    destruct Hy as [_ Hy]. cbn in Hy. discriminate.
  - injection H as _ H. exact (IH _ H).
Qed.

Lemma derived_name (suffix : string) (asset_name : string) (asset_id : Z) :
  QRCodeGenerator.ensure_png
    (QRCodeGenerator.sanitize asset_name ++ "_" ++ PyStr.of_int asset_id ++ suffix ++ ".png")
  = QRCodeGenerator.sanitize asset_name ++ "_" ++ PyStr.of_int asset_id ++ suffix ++ ".png".
Proof.
  rewrite <- !append_assoc. apply ensure_png_suffix.
Qed.

(** The id can be read off a derived file name. *)
Lemma derived_name_id (a b p : string) (i j : Z) :
  a ++ "_" ++ PyStr.of_int i ++ p = b ++ "_" ++ PyStr.of_int j ++ p -> i = j.
Proof.
  intro E.
  assert (A : forall x y, x ++ "_" ++ y ++ p = (x ++ "_" ++ y) ++ p)
    by (intros x y; rewrite !append_assoc; reflexivity).
  rewrite !A in E. apply append_inj_r in E.
  apply last_underscore in E; try apply of_int_not_underscore.
  exact (of_int_inj _ _ E).
Qed.

Lemma derived_name_no_slash (suffix asset_name : string) (asset_id : Z) :
  PyStr.has_char suffix "/" = false ->
  PyStr.has_char
    (QRCodeGenerator.sanitize asset_name ++ "_" ++ PyStr.of_int asset_id ++ suffix ++ ".png")
    "/" = false.
Proof.
  intro S. rewrite !has_char_append, S.
  rewrite (all_chars_has_char "/" _
             (all_chars_weaken _ _ _ keep_char_not_slash (sanitize_kept asset_name))).
  rewrite (all_chars_has_char "/" _
             (all_chars_weaken _ _ _ keep_char_not_slash (of_int_kept asset_id))).
  reflexivity.
Qed.

Lemma startswith_has_char (s : string) (c : ascii) :
  PyStr.has_char s c = false -> PyStr.startswith s (String c "") = false.
Proof.
  destruct s as [|d r]; cbn [PyStr.has_char PyStr.startswith]; [reflexivity|].
  intro H. apply orb_false_iff in H. destruct H as [H _].
  rewrite Ascii.eqb_sym, H. reflexivity.
Qed.

Lemma path_join_relative (a f : string) :
  PyStr.has_char f "/" = false ->
  QRCodeGenerator.path_join a f = a ++ f \/ QRCodeGenerator.path_join a f = a ++ "/" ++ f.
Proof.
  intro H. unfold QRCodeGenerator.path_join.
  rewrite (startswith_has_char f "/" H).
  destruct (negb (PyStr.nonempty a) || PyStr.endswith a "/"); [left | right]; reflexivity.
Qed.

Lemma path_join_inj (a f f' : string) :
  PyStr.has_char f "/" = false -> PyStr.has_char f' "/" = false ->
  QRCodeGenerator.path_join a f = QRCodeGenerator.path_join a f' -> f = f'.
Proof.
  intros H H'. unfold QRCodeGenerator.path_join.
  rewrite (startswith_has_char f "/" H), (startswith_has_char f' "/" H').
  destruct (negb (PyStr.nonempty a) || PyStr.endswith a "/"); intro E.
  - exact (append_inj_l _ _ _ E).
  - apply append_inj_l in E. exact (append_inj_l _ _ _ E).
Qed.

Lemma title_or_total (asset_info : dict) (default : string) (s : string) :
  QRCodeGenerator.title_or asset_info default = Ok s ->
  forall default', exists s', QRCodeGenerator.title_or asset_info default' = Ok s'.
Proof.
  unfold QRCodeGenerator.title_or. intros H default'.
  destruct (dict_get asset_info "title") as [[]|]; try discriminate H; eexists; reflexivity.
Qed.

(** The label that [create_label] saves when no file name is given. *)
Lemma create_label_derived (g : QRCodeGenerator.t) (asset_id : Z) (asset_info : dict)
      (include_qrcode : bool) (l : QRCodeGenerator.label) :
  QRCodeGenerator.create_label g asset_id asset_info include_qrcode None = Ok l ->
  exists asset_name,
    QRCodeGenerator.title_or asset_info ("asset_" ++ PyStr.of_int asset_id) = Ok asset_name /\
    QRCodeGenerator.file_path l
    = QRCodeGenerator.path_join (QRCodeGenerator.output_dir g)
        (QRCodeGenerator.sanitize asset_name ++ "_" ++ PyStr.of_int asset_id
         ++ "_label" ++ ".png").
Proof.
  intro H.
  destruct (create_label_inv _ _ _ _ _ _ H) as [t [f [T [F [_ [_ [_ ->]]]]]]].
  unfold QRCodeGenerator.label_filename in F.
  destruct (title_or_total _ _ _ T ("asset_" ++ PyStr.of_int asset_id)) as [n N].
  rewrite N in F. cbn [bind] in F. injection F as <-.
  exists n. split; [exact N|]. cbn [QRCodeGenerator.file_path].
  f_equal. exact (derived_name "_label" n asset_id).
Qed.

(** The code that [create_asset_qrcode] saves when no file name is given. *)
Lemma create_asset_qrcode_derived (g : QRCodeGenerator.t) (asset_id : Z)
      (asset_info : dict) (l : QRCodeGenerator.label) :
  QRCodeGenerator.create_asset_qrcode g asset_id asset_info None = Ok l ->
  exists asset_name,
    QRCodeGenerator.title_or asset_info ("asset_" ++ PyStr.of_int asset_id) = Ok asset_name /\
    QRCodeGenerator.file_path l
    = QRCodeGenerator.path_join (QRCodeGenerator.output_dir g)
        (QRCodeGenerator.sanitize asset_name ++ "_" ++ PyStr.of_int asset_id ++ ".png").
Proof.
  intro H.
  destruct (create_asset_qrcode_inv _ _ _ _ _ H) as [t [f [T [F [_ [_ [_ ->]]]]]]].
  unfold QRCodeGenerator.asset_filename in F.
  destruct (title_or_total _ _ _ T ("asset_" ++ PyStr.of_int asset_id)) as [n N].
  rewrite N in F. cbn [bind] in F. injection F as <-.
  exists n. split; [exact N|]. cbn [QRCodeGenerator.file_path].
  f_equal. exact (derived_name "" n asset_id).
Qed.

(** X7.  a file name made from the title holds no path separator: whatever
    the title is, the label lands in the output directory itself. *)
Theorem derived_label_in_output_dir (g : QRCodeGenerator.t) (asset_id : Z)
        (asset_info : dict) (include_qrcode : bool) (l : QRCodeGenerator.label) :
  QRCodeGenerator.create_label g asset_id asset_info include_qrcode None = Ok l ->
  exists f,
    PyStr.has_char f "/" = false /\
    (QRCodeGenerator.file_path l = QRCodeGenerator.output_dir g ++ f \/
     QRCodeGenerator.file_path l = QRCodeGenerator.output_dir g ++ "/" ++ f).
Proof.
  intro H. destruct (create_label_derived _ _ _ _ _ H) as [n [_ E]].
  eexists. split; [|rewrite E; apply path_join_relative];
    apply (derived_name_no_slash "_label"); reflexivity.
Qed.

(** X8.  the labels of two different records never share a file, whatever
    their titles are. *)
Theorem label_files_distinct (g : QRCodeGenerator.t) (i j : Z) (info info' : dict)
        (qr qr' : bool) (l l' : QRCodeGenerator.label) :
  QRCodeGenerator.create_label g i info qr None = Ok l ->
  QRCodeGenerator.create_label g j info' qr' None = Ok l' ->
  i <> j ->
  QRCodeGenerator.file_path l <> QRCodeGenerator.file_path l'.
Proof.
  intros H H' N E. apply N.
  destruct (create_label_derived _ _ _ _ _ H) as [n [_ P]].
  destruct (create_label_derived _ _ _ _ _ H') as [n' [_ P']].
  rewrite P, P' in E.
  apply path_join_inj in E;
    try (apply (derived_name_no_slash "_label"); reflexivity).
  exact (derived_name_id _ _ _ _ _ E).
Qed.

(** X9.  the codes of two different records never share a file, whatever
    their titles are. *)
Theorem qrcode_files_distinct (g : QRCodeGenerator.t) (i j : Z) (info info' : dict)
        (l l' : QRCodeGenerator.label) :
  QRCodeGenerator.create_asset_qrcode g i info None = Ok l ->
  QRCodeGenerator.create_asset_qrcode g j info' None = Ok l' ->
  i <> j ->
  QRCodeGenerator.file_path l <> QRCodeGenerator.file_path l'.
Proof.
  intros H H' N E. apply N.
  destruct (create_asset_qrcode_derived _ _ _ _ H) as [n [_ P]].
  destruct (create_asset_qrcode_derived _ _ _ _ H') as [n' [_ P']].
  rewrite P, P' in E.
  apply path_join_inj in E;
    try (apply (derived_name_no_slash ""); reflexivity).
  exact (derived_name_id _ _ _ _ _ E).
Qed.

Lemma derived_label_in_output_dir_witness :
  exists f,
    PyStr.has_char f "/" = false /\
    (QRCodeGenerator.file_path
       {| QRCodeGenerator.qr_data := Some "https://elab.local/database.php?mode=view&id=7";
          QRCodeGenerator.caption := "../../etc/x";
          QRCodeGenerator.file_path := "qrcodes/etcx_7_label.png" |}
     = QRCodeGenerator.output_dir sample_generator ++ f \/
     QRCodeGenerator.file_path
       {| QRCodeGenerator.qr_data := Some "https://elab.local/database.php?mode=view&id=7";
          QRCodeGenerator.caption := "../../etc/x";
          QRCodeGenerator.file_path := "qrcodes/etcx_7_label.png" |}
     = QRCodeGenerator.output_dir sample_generator ++ "/" ++ f).
Proof.
  apply (derived_label_in_output_dir sample_generator 7
           [("title", JStr "../../etc/x")] true).
  reflexivity.
Defined.

Lemma label_files_distinct_witness :
  QRCodeGenerator.file_path
    {| QRCodeGenerator.qr_data := None; QRCodeGenerator.caption := "Rack 1_2";
       QRCodeGenerator.file_path := "qrcodes/Rack 1_2_3_label.png" |}
  <> QRCodeGenerator.file_path
    {| QRCodeGenerator.qr_data := None; QRCodeGenerator.caption := "Rack 1";
       QRCodeGenerator.file_path := "qrcodes/Rack 1_23_label.png" |}.
Proof.
  apply (label_files_distinct sample_generator 3 23
           [("title", JStr "Rack 1_2")] [("title", JStr "Rack 1")] false false);
    [reflexivity | reflexivity | lia].
Defined.

Lemma qrcode_files_distinct_witness :
  QRCodeGenerator.file_path
    {| QRCodeGenerator.qr_data :=
         Some "https://10.159.64.205:3148/database.php?mode=view&id=3";
       QRCodeGenerator.caption := "Rack 1_2";
       QRCodeGenerator.file_path := "qrcodes/Rack 1_2_3.png" |}
  <> QRCodeGenerator.file_path
    {| QRCodeGenerator.qr_data :=
         Some "https://10.159.64.205:3148/database.php?mode=view&id=23";
       QRCodeGenerator.caption := "Rack 1";
       QRCodeGenerator.file_path := "qrcodes/Rack 1_23.png" |}.
Proof.
  apply (qrcode_files_distinct sample_generator 3 23
           [("title", JStr "Rack 1_2")] [("title", JStr "Rack 1")]);
    [reflexivity | reflexivity | lia].
Defined.

Lemma endswith_append_l (a b p : string) :
  PyStr.endswith b p = true -> PyStr.endswith (a ++ b) p = true.
Proof.
  intro H. induction a as [|x a IH]; cbn [append]; [exact H|].
  cbn [PyStr.endswith]. rewrite IH. apply orb_true_r.
Qed.

Lemma ensure_png_ends (f : string) :
  PyStr.endswith (PyStr.lower (QRCodeGenerator.ensure_png f)) ".png" = true.
Proof.
  unfold QRCodeGenerator.ensure_png.
  destruct (PyStr.endswith (PyStr.lower f) ".png") eqn:E; [exact E|].
  rewrite lower_append. apply endswith_append.
Qed.

Lemma path_join_ends (a f p : string) :
  PyStr.endswith (PyStr.lower f) p = true ->
  PyStr.endswith (PyStr.lower (QRCodeGenerator.path_join a f)) p = true.
Proof.
  intro H. unfold QRCodeGenerator.path_join.
  destruct (PyStr.startswith f "/"); [exact H|].
  destruct (negb (PyStr.nonempty a) || PyStr.endswith a "/");
    rewrite ?lower_append; repeat apply endswith_append_l; exact H.
Qed.

(** X10.  whatever file name is asked for, the file that [create_label] and
    [create_asset_qrcode] write has the extension of a PNG image, in upper
    or lower case; a name that has it already is kept as it is. *)
Theorem saved_files_are_png (g : QRCodeGenerator.t) (asset_id : Z) (asset_info : dict)
        (include_qrcode : bool) (filename : option string) (l : QRCodeGenerator.label) :
  QRCodeGenerator.create_label g asset_id asset_info include_qrcode filename = Ok l \/
  QRCodeGenerator.create_asset_qrcode g asset_id asset_info filename = Ok l ->
  PyStr.endswith (PyStr.lower (QRCodeGenerator.file_path l)) ".png" = true /\
  forall f, filename = Some f -> PyStr.endswith (PyStr.lower f) ".png" = true ->
            QRCodeGenerator.file_path l
            = QRCodeGenerator.path_join (QRCodeGenerator.output_dir g) f.
Proof.
  intros [H | H].
  - destruct (create_label_inv _ _ _ _ _ _ H) as [t [f0 [T [F [_ [_ [_ ->]]]]]]].
    unfold QRCodeGenerator.label_filename in F.
    destruct filename as [f|].
    + injection F as <-. cbn [QRCodeGenerator.file_path].
      split; [apply path_join_ends, ensure_png_ends|].
      intros f' E P. injection E as <-. unfold QRCodeGenerator.ensure_png.
      rewrite P. reflexivity.
    + destruct (title_or_total _ _ _ T ("asset_" ++ PyStr.of_int asset_id)) as [n N].
      rewrite N in F. cbn [bind] in F. injection F as <-.
      cbn [QRCodeGenerator.file_path].
      split; [apply path_join_ends, ensure_png_ends | discriminate].
  - destruct (create_asset_qrcode_inv _ _ _ _ _ H) as [t [f0 [T [F [_ [_ [_ ->]]]]]]].
    unfold QRCodeGenerator.asset_filename in F.
    destruct filename as [f|].
    + injection F as <-. cbn [QRCodeGenerator.file_path].
      split; [apply path_join_ends, ensure_png_ends|].
      intros f' E P. injection E as <-. unfold QRCodeGenerator.ensure_png.
      rewrite P. reflexivity.
    + destruct (title_or_total _ _ _ T ("asset_" ++ PyStr.of_int asset_id)) as [n N].
      rewrite N in F. cbn [bind] in F. injection F as <-.
      cbn [QRCodeGenerator.file_path].
      split; [apply path_join_ends, ensure_png_ends | discriminate].
Qed.

Lemma saved_files_are_png_witness :
  PyStr.endswith
    (PyStr.lower
       (QRCodeGenerator.file_path
          {| QRCodeGenerator.qr_data := None; QRCodeGenerator.caption := "Asset #4";
             QRCodeGenerator.file_path := "qrcodes/Shelf.PNG" |})) ".png" = true /\
  forall f, Some "Shelf.PNG" = Some f -> PyStr.endswith (PyStr.lower f) ".png" = true ->
            QRCodeGenerator.file_path
              {| QRCodeGenerator.qr_data := None; QRCodeGenerator.caption := "Asset #4";
                 QRCodeGenerator.file_path := "qrcodes/Shelf.PNG" |}
            = QRCodeGenerator.path_join (QRCodeGenerator.output_dir sample_generator) f.
Proof.
  apply (saved_files_are_png sample_generator 4 [] false (Some "Shelf.PNG")).
  left. reflexivity.
Defined.

(** ** The base of the links *)

Lemma before_split (sep s : string) :
  PyStr.contains s sep = true ->
  exists rest, s = PyStr.before sep s ++ sep ++ rest.
Proof.
  induction s as [|c r IH]; intro H.
  - cbn [PyStr.contains] in H. rewrite orb_false_r in H.
    cbn [PyStr.before]. rewrite H.
    destruct sep; [exists ""; reflexivity | discriminate H].
  - cbn [PyStr.contains] in H. cbn [PyStr.before].
    destruct (PyStr.startswith (String c r) sep) eqn:S.
    + clear - S. cbn [append]. revert S. generalize (String c r). intro s.
      revert s. induction sep as [|a p IHp]; intros s S.
      * exists s. reflexivity.
      * destruct s as [|b s']; cbn [PyStr.startswith] in S; [discriminate|].
        apply andb_true_iff in S. destruct S as [E S].
        apply Ascii.eqb_eq in E. subst b.
        destruct (IHp _ S) as [rest R]. exists rest. cbn [append]. f_equal. exact R.
    + cbn [orb] in H. destruct (IH H) as [rest R]. exists rest.
      cbn [append]. f_equal. exact R.
Qed.

(** X11.  the base of the links is computed once, when the generator is
    made: it is the part of the configured API URL before its first
    [/api/], and the fixed host when the URL has no such part. *)
Theorem base_url_is_prefix (make save : string -> bool) (dir : string) (c e : dict)
        (s : string) :
  dict_get c "elabftw" = Some (JDict e) ->
  dict_get e "api_url" = Some (JStr s) ->
  exists g,
    QRCodeGenerator.init make save dir (JDict c) = Ok g /\
    QRCodeGenerator.output_dir g = dir /\
    (if PyStr.contains s "/api/"
     then exists rest, s = QRCodeGenerator.base_url g ++ "/api/" ++ rest
     else QRCodeGenerator.base_url g = "https://elab.local").
Proof.
  intros E A. unfold QRCodeGenerator.init, QRCodeGenerator.init_base_url.
  cbn [py_get bind]. rewrite E. cbn [py_get bind]. rewrite A. cbn [py_in bind].
  destruct (PyStr.contains s "/api/") eqn:C; cbn [bind]; eexists;
    (split; [reflexivity|]); (split; [reflexivity|]);
    cbn [QRCodeGenerator.base_url]; [|reflexivity].
  exact (before_split "/api/" s C).
Qed.

Lemma base_url_is_prefix_witness :
  exists g,
    QRCodeGenerator.init sample_make sample_save "qrcodes" (JDict sample_config) = Ok g /\
    QRCodeGenerator.output_dir g = "qrcodes" /\
    (if PyStr.contains "https://10.159.64.205:3148/api/v2" "/api/"
     then exists rest,
         "https://10.159.64.205:3148/api/v2"
         = QRCodeGenerator.base_url g ++ "/api/" ++ rest
     else QRCodeGenerator.base_url g = "https://elab.local").
Proof.
  apply (base_url_is_prefix sample_make sample_save "qrcodes" sample_config
           [("api_url", JStr "https://10.159.64.205:3148/api/v2");
            ("verify_ssl", JBool false)]); reflexivity.
Defined.

(** ** The commit step: what is stored and what is labelled *)






(** A name of two lines: the record is stored under it, and no label is
    drawn. *)
Example commit_two_line_name :
  let w := MainWindow.with_text ready_window
             (Json.text "{'name': 'Sodium\nChloride'}") in
  exists w' it,
    MainWindow.save_to_elabftw w = Some w' /\
    ElabManager.items (MainWindow.elab_manager w') = [it] /\
    ElabManager.title it = JStr ("Sodium" ++ String newline "Chloride") /\
    MainWindow.status w' = MainWindow.QRCodeFailed ValueError /\
    MainWindow.label_files w' = [] /\
    MainWindow.save_qrcode_button w' = false.
Proof. do 2 eexists. repeat split. Qed.

Lemma create_asset_offline (srv : ElabManager.server) (template_id : Z)
      (llm_data : dict) (image_path : option string) :
  ElabManager.online srv = false ->
  ElabManager.create_asset_from_llm_data srv template_id llm_data image_path = (None, srv).
Proof.
  intro H. unfold ElabManager.create_asset_from_llm_data, ElabManager.create_item.
  rewrite H. reflexivity.
Qed.

(** X13.  the commit step reaches the inventory only when there is an
    analysed result, a template is selected, the result text decodes to a
    mapping and the inventory answers; in every other case the inventory is
    left as it was. *)
Theorem record_only_when_ready (w w' : MainWindow.t) :
  MainWindow.save_to_elabftw w = Some w' ->
  MainWindow.elab_manager w' <> MainWindow.elab_manager w ->
  truthy (MainWindow.current_llm_result w) = true /\
  ElabManager.online (MainWindow.elab_manager w) = true /\
  exists template_id d,
    MainWindow.template w = Some template_id /\ template_id <> 0%Z /\
    Json.loads (MainWindow.result_text w) = Json.Decoded (JDict d).
Proof.
  unfold MainWindow.save_to_elabftw.
  destruct (truthy (MainWindow.current_llm_result w)) eqn:Ht; cbn [negb];
    [|intros S H; injection S as <-; exfalso; apply H; reflexivity].
  cbn [MainWindow.template MainWindow.result_text MainWindow.set_status
       MainWindow.set_save_button].
  destruct (MainWindow.template w) as [tid|];
    [|intros S H; injection S as <-; exfalso; apply H; reflexivity].
  destruct (tid =? 0)%Z eqn:Hid;
    [intros S H; injection S as <-; exfalso; apply H; reflexivity|].
  destruct (Json.loads (MainWindow.result_text w)) as [edited| |];
    [|intros S H; injection S as <-; exfalso; apply H; reflexivity | discriminate].
  unfold MainWindow.store_result.
  destruct (update_asset_title_from_result edited) as [title|e];
    cbn [bind]; [|intros S H; injection S as <-; exfalso; apply H; reflexivity].
  destruct edited as [| b | z | s | l | d]; cbn [MainWindow.copy_with_title];
    try (intros S H; injection S as <-; exfalso; apply H; reflexivity).
  cbn [MainWindow.with_result MainWindow.elab_manager MainWindow.current_image_path].
  destruct (ElabManager.online (MainWindow.elab_manager w)) eqn:Hon.
  - intros _ _. split; [reflexivity|]. split; [reflexivity|].
    exists tid, d. split; [reflexivity|]. split; [|reflexivity].
    apply Z.eqb_neq. exact Hid.
  - rewrite (create_asset_offline _ _ _ _ Hon). cbn.
    intros S H; injection S as <-; exfalso; apply H; reflexivity.
Qed.

Lemma record_only_when_ready_witness :
  truthy (MainWindow.current_llm_result ready_window) = true /\
  ElabManager.online (MainWindow.elab_manager ready_window) = true /\
  exists template_id d,
    MainWindow.template ready_window = Some template_id /\ template_id <> 0%Z /\
    Json.loads (MainWindow.result_text ready_window) = Json.Decoded (JDict d).
Proof.
  apply (record_only_when_ready ready_window committed_window).
  - reflexivity.
  - vm_compute. discriminate.
Defined.

(** ** Writing and merging settings *)

Lemma dict_set_set (d : dict) (k : string) (a b : json) :
  dict_set (dict_set d k a) k b = dict_set d k b.
Proof.
  induction d as [|[k' v'] r IH]; cbn [dict_set].
  - rewrite String.eqb_refl. reflexivity.
  - destruct (k' =? k) eqn:E; cbn [dict_set]; rewrite E; [reflexivity|].
    rewrite IH. reflexivity.
Qed.

Lemma set_path_cons (d : dict) (key key2 : string) (rest : list string) (v : json) :
  ConfigManager.set_path d (key :: key2 :: rest) v
  = dict_set d key
      (JDict (ConfigManager.set_path
                match dict_get d key with Some (JDict sd) => sd | _ => [] end
                (key2 :: rest) v)).
Proof. reflexivity. Qed.

Lemma set_path_twice (keys : list string) (v1 v2 : json) :
  forall d,
    ConfigManager.set_path (ConfigManager.set_path d keys v1) keys v2
    = ConfigManager.set_path d keys v2.
Proof.
  induction keys as [|key rest IH]; intro d; [reflexivity|].
  destruct rest as [|key2 rest].
  - cbn [ConfigManager.set_path]. apply dict_set_set.
  - rewrite !set_path_cons. rewrite dict_get_set_same. rewrite IH.
    apply dict_set_set.
Qed.

(** X14.  of two writes to the same path the last one wins, and the first
    leaves no trace: the configuration is the one that the last write alone
    gives. *)
Theorem set_value_last_wins (config : json) (key_path : string) (v1 v2 : json)
        (saved1 saved2 : bool) :
  fst (ConfigManager.set_value saved2
         (fst (ConfigManager.set_value saved1 config key_path v1)) key_path v2)
  = fst (ConfigManager.set_value saved2 config key_path v2).
Proof.
  destruct config as [| b | z | s | l | d]; try reflexivity.
  cbn [ConfigManager.set_value fst]. f_equal. apply set_path_twice.
Qed.

Lemma walk_scalar (v : json) (key : string) (rest : list string) :
  isinstance_dict v = false ->
  ConfigManager.walk v (key :: rest) = Raise TypeError.
Proof. destruct v; cbn; intro H; try reflexivity; discriminate H. Qed.

Lemma walk_missing (d : dict) (key : string) (rest : list string) :
  dict_get d key = None ->
  ConfigManager.walk (JDict d) (key :: rest) = Raise KeyError.
Proof. intro H. cbn [ConfigManager.walk py_getitem]. rewrite H. reflexivity. Qed.

Lemma set_path_head (d : dict) (key : string) (rest : list string) (v : json) :
  exists x, ConfigManager.set_path d (key :: rest) v = dict_set d key x.
Proof.
  destruct rest as [|key2 rest]; [exists v; reflexivity|].
  eexists. apply set_path_cons.
Qed.

(** Two paths that part at some key: after a write along the first, the
    second resolves as before, or it failed before and fails now. *)
Lemma walk_set_path_other (c : list string) (a b : string) (p q : list string)
      (v : json) :
  a <> b ->
  forall d,
    ConfigManager.walk (JDict (ConfigManager.set_path d (c ++ a :: p) v)) (c ++ b :: q)
    = ConfigManager.walk (JDict d) (c ++ b :: q) \/
    exists e e',
      ConfigManager.walk (JDict (ConfigManager.set_path d (c ++ a :: p) v)) (c ++ b :: q)
      = Raise e /\
      ConfigManager.walk (JDict d) (c ++ b :: q) = Raise e'.
Proof.
  intro N. induction c as [|k c IH]; intro d; cbn [app].
  - left. destruct (set_path_head d a p v) as [x ->].
    cbn [ConfigManager.walk py_getitem].
    rewrite (dict_get_set_other d a b x N). reflexivity.
  - assert (E : exists key2 rest, (c ++ a :: p)%list = key2 :: rest)
      by (destruct c; cbn [app]; eauto).
    destruct E as [key2 [rest E]].
    assert (Q : exists key3 rest', (c ++ b :: q)%list = key3 :: rest')
      by (destruct c; cbn [app]; eauto).
    destruct Q as [key3 [rest' Q]].
    rewrite E, set_path_cons, <- E.
    cbn [ConfigManager.walk py_getitem]. rewrite dict_get_set_same. cbn [bind].
    destruct (dict_get d k) as [x|] eqn:G; cbn [bind].
    + destruct x as [| b0 | z | s | l | sd];
        try (right; destruct (IH []) as [H | [e [e' [H _]]]];
             [ rewrite H, Q; do 2 eexists; split;
               [apply walk_missing; reflexivity | reflexivity]
             | rewrite H, Q; do 2 eexists; split; reflexivity ]).
      exact (IH sd).
    + right. destruct (IH []) as [H | [e [e' [H _]]]]; rewrite H.
      * rewrite Q. do 2 eexists. split; [apply walk_missing|]; reflexivity.
      * do 2 eexists. split; reflexivity.
Qed.

(** X15.  a write to one setting does not show in the lookup of another:
    when two paths part at some key, [get_value] on the second gives after
    [set_value] on the first what it gave before. *)
Theorem set_value_frame (d : dict) (key_path other : string) (value default : json)
        (saved : bool) (c : list string) (a b : string) (p q : list string) :
  PyStr.split "." key_path = (c ++ a :: p)%list ->
  PyStr.split "." other = (c ++ b :: q)%list ->
  a <> b ->
  ConfigManager.get_value
    (fst (ConfigManager.set_value saved (JDict d) key_path value)) other default
  = ConfigManager.get_value (JDict d) other default.
Proof.
  intros P Q N. cbn [ConfigManager.set_value fst]. unfold ConfigManager.get_value.
  rewrite P, Q.
  destruct (walk_set_path_other c a b p q value N d) as [H | [e [e' [H H']]]].
  - rewrite H. reflexivity.
  - rewrite H, H'.
    destruct (walk_raises _ _ _ H) as [-> | ->];
      destruct (walk_raises _ _ _ H') as [-> | ->]; reflexivity.
Qed.

Lemma set_value_frame_witness :
  ConfigManager.get_value
    (fst (ConfigManager.set_value true (JDict sample_config) "llm.api_key.value"
            (JStr "sk-1")))
    "llm.provider" JNull
  = ConfigManager.get_value (JDict sample_config) "llm.provider" JNull.
Proof.
  apply (set_value_frame sample_config "llm.api_key.value" "llm.provider"
           (JStr "sk-1") JNull true ["llm"] "api_key" "provider" ["value"] []);
    [reflexivity | reflexivity | discriminate].
Defined.

Lemma update_value_scalar (old : option json) (v : json) :
  isinstance_dict v = false -> ConfigUpdate.update_value old v = v.
Proof. destruct v; cbn; intro H; try reflexivity; discriminate H. Qed.

(** The merge of two dictionaries is the loop of [_update_dict]. *)
Lemma update_value_dicts (d u : dict) :
  ConfigUpdate.update_value (Some (JDict d)) (JDict u)
  = JDict (ConfigUpdate._update_dict d u).
Proof.
  cbn [ConfigUpdate.update_value]. f_equal. revert d.
  induction u as [|[k x] r IH]; intro d; [reflexivity|].
  cbn [ConfigUpdate._update_dict]. apply IH.
Qed.

Lemma update_value_fresh (old : option json) (u : dict) :
  match old with Some (JDict _) => False | _ => True end ->
  ConfigUpdate.update_value old (JDict u) = JDict u.
Proof. destruct old as [[]|]; cbn; intro H; try reflexivity; destruct H. Qed.

Lemma set_path_empty (keys : list string) (v : json) :
  keys <> [] -> ConfigManager.set_path [] keys v = nest keys v.
Proof.
  induction keys as [|key rest IH]; intro H; [congruence|].
  destruct rest as [|key2 rest]; [reflexivity|].
  rewrite set_path_cons. cbn [dict_get dict_set].
  rewrite IH by discriminate. reflexivity.
Qed.

Lemma update_nest (keys : list string) (v : json) :
  isinstance_dict v = false -> keys <> [] ->
  forall d, ConfigUpdate._update_dict d (nest keys v) = ConfigManager.set_path d keys v.
Proof.
  intros Hv. induction keys as [|key rest IH]; intros H d; [congruence|].
  destruct rest as [|key2 rest].
  - cbn [nest ConfigUpdate._update_dict ConfigManager.set_path].
    rewrite (update_value_scalar _ v Hv). reflexivity.
  - rewrite set_path_cons.
    change (nest (key :: key2 :: rest) v) with [(key, JDict (nest (key2 :: rest) v))].
    cbn [ConfigUpdate._update_dict]. f_equal.
    destruct (dict_get d key) as [x|].
    + destruct x as [| b | z | s | l | sd];
        try (rewrite update_value_fresh by exact I;
             rewrite set_path_empty by discriminate; reflexivity).
      rewrite update_value_dicts. rewrite IH by discriminate. reflexivity.
    + rewrite update_value_fresh by exact I.
      rewrite set_path_empty by discriminate. reflexivity.
Qed.

(** X16.  for a value that is not a mapping, [set_value] on a dotted path
    and [update_config] on the mapping that nests the value under the keys
    of the path leave the same configuration and return the same flag. *)
Theorem update_config_as_set_value (config : json) (key_path : string) (value : json)
        (saved : bool) :
  isinstance_dict value = false ->
  ConfigUpdate.update_config saved config (JDict (nest (PyStr.split "." key_path) value))
  = ConfigManager.set_value saved config key_path value.
Proof.
  intro Hv. pose proof (split_not_nil "." key_path) as NE.
  unfold ConfigUpdate.update_config, ConfigManager.set_value.
  destruct (nest (PyStr.split "." key_path) value) as [|kv r] eqn:E.
  - exfalso. destruct (PyStr.split "." key_path) as [|k [|k2 ks]];
      [congruence | discriminate E | discriminate E].
  - destruct config as [| b | z | s | l | d]; try reflexivity.
    rewrite <- E. rewrite (update_nest _ _ Hv NE). reflexivity.
Qed.

Lemma update_config_as_set_value_witness :
  ConfigUpdate.update_config true (JDict sample_config)
    (JDict (nest (PyStr.split "." "ui.theme") (JStr "dark")))
  = ConfigManager.set_value true (JDict sample_config) "ui.theme" (JStr "dark").
Proof.
  apply (update_config_as_set_value (JDict sample_config) "ui.theme" (JStr "dark") true).
  reflexivity.
Defined.

Lemma dict_get_absent (d : dict) (k : string) :
  existsb (String.eqb k) (map fst d) = false -> dict_get d k = None.
Proof.
  induction d as [|[k' v] r IH]; cbn [map fst existsb dict_get]; [reflexivity|].
  intro H. apply orb_false_iff in H. destruct H as [E H].
  rewrite String.eqb_sym, E. exact (IH H).
Qed.

(** A lookup after the loop of [_update_dict]. *)
Lemma update_dict_lookup (u : list (string * json)) (k : string) :
  distinct (map fst u) = true ->
  forall d,
    dict_get (ConfigUpdate._update_dict d u) k
    = match dict_get u k with
      | Some v => Some (ConfigUpdate.update_value (dict_get d k) v)
      | None => dict_get d k
      end.
Proof.
  induction u as [|[k' x] r IH]; intros Hu d; [reflexivity|].
  cbn [map fst distinct] in Hu. apply andb_true_iff in Hu. destruct Hu as [Hk Hr].
  apply negb_true_iff in Hk.
  cbn [ConfigUpdate._update_dict dict_get]. rewrite (IH Hr).
  destruct (k' =? k) eqn:E.
  - apply String.eqb_eq in E. subst k'.
    rewrite (dict_get_absent r k Hk). apply dict_get_set_same.
  - apply String.eqb_neq in E.
    rewrite (dict_get_set_other d k' k _ E). reflexivity.
Qed.

(** X17.  what [update_config] leaves under a key.  A key that the update
    does not name keeps its value; a value that is not a mapping replaces
    the old one; two mappings are merged; and no key of the configuration
    is lost. *)
Theorem update_config_merges (d u : dict) (k : string) :
  distinct (map fst u) = true ->
  (dict_get u k = None ->
   dict_get (ConfigUpdate._update_dict d u) k = dict_get d k) /\
  (forall v, dict_get u k = Some v -> isinstance_dict v = false ->
             dict_get (ConfigUpdate._update_dict d u) k = Some v) /\
  (forall sd su, dict_get d k = Some (JDict sd) -> dict_get u k = Some (JDict su) ->
                 dict_get (ConfigUpdate._update_dict d u) k
                 = Some (JDict (ConfigUpdate._update_dict sd su))) /\
  (dict_has d k = true -> dict_has (ConfigUpdate._update_dict d u) k = true).
Proof.
  intro Hu. pose proof (update_dict_lookup u k Hu d) as L.
  split; [|split; [|split]].
  - intro E. rewrite L, E. reflexivity.
  - intros v E Hv. rewrite L, E, (update_value_scalar _ v Hv). reflexivity.
  - intros sd su Ed Eu. rewrite L, Eu, Ed, update_value_dicts. reflexivity.
  - unfold dict_has. rewrite L. destruct (dict_get u k); [reflexivity|].
    intro H. exact H.
Qed.

Lemma update_config_merges_witness :
  (dict_get [("llm", JDict [("provider", JStr "anthropic")]); ("ui", JStr "dark")] "llm"
   = None ->
   dict_get (ConfigUpdate._update_dict sample_config
               [("llm", JDict [("provider", JStr "anthropic")]); ("ui", JStr "dark")])
     "llm"
   = dict_get sample_config "llm") /\
  (forall v,
      dict_get [("llm", JDict [("provider", JStr "anthropic")]); ("ui", JStr "dark")] "llm"
      = Some v ->
      isinstance_dict v = false ->
      dict_get (ConfigUpdate._update_dict sample_config
                  [("llm", JDict [("provider", JStr "anthropic")]); ("ui", JStr "dark")])
        "llm"
      = Some v) /\
  (forall sd su,
      dict_get sample_config "llm" = Some (JDict sd) ->
      dict_get [("llm", JDict [("provider", JStr "anthropic")]); ("ui", JStr "dark")] "llm"
      = Some (JDict su) ->
      dict_get (ConfigUpdate._update_dict sample_config
                  [("llm", JDict [("provider", JStr "anthropic")]); ("ui", JStr "dark")])
        "llm"
      = Some (JDict (ConfigUpdate._update_dict sd su))) /\
  (dict_has sample_config "llm" = true ->
   dict_has (ConfigUpdate._update_dict sample_config
               [("llm", JDict [("provider", JStr "anthropic")]); ("ui", JStr "dark")])
     "llm" = true).
Proof.
  apply (update_config_merges sample_config
           [("llm", JDict [("provider", JStr "anthropic")]); ("ui", JStr "dark")] "llm").
  reflexivity.
Defined.

(** Induction on the structure of a value. *)
Lemma json_induction (P : json -> Prop) :
  P JNull -> (forall b, P (JBool b)) -> (forall z, P (JNum z)) ->
  (forall s, P (JStr s)) ->
  (forall l, Forall P l -> P (JList l)) ->
  (forall d, Forall (fun kv => P (snd kv)) d -> P (JDict d)) ->
  forall v, P v.
Proof.
  intros Hn Hb Hz Hs Hl Hd.
  refine (fix IH (v : json) : P v :=
            match v with
            | JNull => Hn
            | JBool b => Hb b
            | JNum z => Hz z
            | JStr s => Hs s
            | JList l =>
                Hl l ((fix all (l : list json) : Forall P l :=
                         match l with
                         | [] => Forall_nil P
                         | x :: r => Forall_cons x (IH x) (all r)
                         end) l)
            | JDict d =>
                Hd d ((fix all (d : list (string * json))
                       : Forall (fun kv => P (snd kv)) d :=
                         match d with
                         | [] => Forall_nil _
                         | (k, x) :: r => Forall_cons (k, x) (IH x) (all r)
                         end) d)
            end).
Qed.

Lemma dict_set_same (d : dict) (k : string) (v : json) :
  dict_get d k = Some v -> dict_set d k v = d.
Proof.
  induction d as [|[k' v'] r IH]; cbn [dict_get dict_set]; [discriminate|].
  destruct (k' =? k); intro H; [injection H as ->; reflexivity|].
  rewrite (IH H). reflexivity.
Qed.

(** The loop changes nothing when every value it brings is already
    there in its merged form. *)
Lemma update_dict_fixed (u : list (string * json)) (d : dict) :
  (forall k x, In (k, x) u ->
               exists y, dict_get d k = Some y /\
                         ConfigUpdate.update_value (Some y) x = y) ->
  ConfigUpdate._update_dict d u = d.
Proof.
  induction u as [|[k x] r IH]; intro H; [reflexivity|].
  cbn [ConfigUpdate._update_dict].
  destruct (H k x (or_introl eq_refl)) as [y [G E]].
  rewrite G, E, (dict_set_same d k y G).
  apply IH. intros k' x' Hin. apply H. right. exact Hin.
Qed.

Lemma dict_get_in (d : dict) (k : string) (x : json) :
  distinct (map fst d) = true -> In (k, x) d -> dict_get d k = Some x.
Proof.
  induction d as [|[k' v] r IH]; cbn [map fst distinct In dict_get]; [intros _ []|].
  intros Hd [E | Hin].
  - injection E as -> ->. rewrite String.eqb_refl. reflexivity.
  - apply andb_true_iff in Hd. destruct Hd as [Hk Hr]. apply negb_true_iff in Hk.
    destruct (k' =? k) eqn:E.
    + apply String.eqb_eq in E. subst k'. exfalso.
      assert (X : existsb (String.eqb k) (map fst r) = true).
      { apply existsb_exists. exists k. split; [|apply String.eqb_refl].
        apply in_map_iff. exists (k, x). split; [reflexivity | exact Hin]. }
      congruence.
    + exact (IH Hr Hin).
Qed.

Lemma update_value_settles (v : json) :
  unique_keys v = true ->
  ConfigUpdate.update_value (Some v) v = v /\
  forall old,
    ConfigUpdate.update_value (Some (ConfigUpdate.update_value old v)) v
    = ConfigUpdate.update_value old v.
Proof.
  induction v as [| b | z | s | l _ | u IH] using json_induction; intro Hu;
    try (split; [reflexivity | intro old; reflexivity]).
  cbn [unique_keys] in Hu. apply andb_true_iff in Hu. destruct Hu as [Hk Hv].
  assert (Self : ConfigUpdate.update_value (Some (JDict u)) (JDict u) = JDict u).
  { rewrite update_value_dicts. f_equal. apply update_dict_fixed.
    intros k x Hin. exists x. split; [exact (dict_get_in u k x Hk Hin)|].
    rewrite Forall_forall in IH. apply (IH (k, x) Hin).
    rewrite forallb_forall in Hv. exact (Hv (k, x) Hin). }
  split; [exact Self|].
  intros [[| b | z | s | l | d]|]; try exact Self.
  rewrite update_value_dicts, update_value_dicts. f_equal.
  apply update_dict_fixed. intros k x Hin.
  rewrite (update_dict_lookup u k Hk d), (dict_get_in u k x Hk Hin).
  eexists. split; [reflexivity|].
  rewrite Forall_forall in IH. apply (IH (k, x) Hin).
  rewrite forallb_forall in Hv. exact (Hv (k, x) Hin).
Qed.

(** X18.  [update_config] settles: bringing the same settings a second time
    changes nothing more. *)
Theorem update_config_idempotent (config new_config : json) (saved1 saved2 : bool) :
  unique_keys new_config = true ->
  fst (ConfigUpdate.update_config saved2
         (fst (ConfigUpdate.update_config saved1 config new_config)) new_config)
  = fst (ConfigUpdate.update_config saved1 config new_config).
Proof.
  intro Hu. destruct new_config as [| b | z | s | l | u]; try reflexivity.
  destruct u as [|kv u]; [reflexivity|].
  destruct config as [| b | z | s | l | d]; try reflexivity.
  unfold ConfigUpdate.update_config. cbn [fst].
  destruct (update_value_settles (JDict (kv :: u)) Hu) as [_ H].
  specialize (H (Some (JDict d))). rewrite !update_value_dicts in H. exact H.
Qed.

Lemma update_config_idempotent_witness :
  fst (ConfigUpdate.update_config true
         (fst (ConfigUpdate.update_config true (JDict sample_config)
                 (JDict [("llm", JDict [("provider", JStr "anthropic")]);
                         ("ui", JDict [("theme", JStr "dark")])])))
         (JDict [("llm", JDict [("provider", JStr "anthropic")]);
                 ("ui", JDict [("theme", JStr "dark")])]))
  = fst (ConfigUpdate.update_config true (JDict sample_config)
           (JDict [("llm", JDict [("provider", JStr "anthropic")]);
                   ("ui", JDict [("theme", JStr "dark")])])).
Proof.
  apply (update_config_idempotent (JDict sample_config)
           (JDict [("llm", JDict [("provider", JStr "anthropic")]);
                   ("ui", JDict [("theme", JStr "dark")])]) true true).
  reflexivity.
Defined.

(** ** The decoder on the indented output of the encoder *)

Lemma pretty_scan_escape_char (c : ascii) (x : string) :
  Json.scan_string (JsonPretty.escape_char c ++ x)
  = match Json.scan_string x with
    | Some (t, r) => Some (String c t, r)
    | None => None
    end.
Proof.
  destruct c as [[] [] [] [] [] [] [] []]; reflexivity.
Qed.

Lemma pretty_scan_escape (s rest : string) :
  Json.scan_string (JsonPretty.escape s ++ String Json.dquote rest) = Some (s, rest).
Proof.
  induction s as [|c r IH]; cbn [JsonPretty.escape append].
  - reflexivity.
  - rewrite append_assoc, pretty_scan_escape_char, IH. reflexivity.
Qed.

Lemma skip_ws_spaces (n : nat) (x : string) :
  Json.skip_ws (JsonPretty.spaces n ++ x) = Json.skip_ws x.
Proof. induction n as [|m IH]; [reflexivity | exact IH]. Qed.

Lemma skip_ws_indent (indent level : nat) (x : string) :
  Json.skip_ws (JsonPretty.newline_indent indent level ++ x) = Json.skip_ws x.
Proof.
  unfold JsonPretty.newline_indent. cbn [append].
  change (Json.skip_ws (String newline ?y)) with (Json.skip_ws y).
  apply skip_ws_spaces.
Qed.

Lemma pretty_list (indent level : nat) (x : json) (l : list json) :
  JsonPretty.dumps indent level (JList (x :: l))
  = "[" ++ JsonPretty.newline_indent indent (S level)
    ++ JsonPretty.dumps_items indent (S level) (x :: l)
    ++ JsonPretty.newline_indent indent level ++ "]".
Proof. reflexivity. Qed.

Lemma pretty_dict (indent level : nat) (kv : string * json) (d : list (string * json)) :
  JsonPretty.dumps indent level (JDict (kv :: d))
  = "{" ++ JsonPretty.newline_indent indent (S level)
    ++ JsonPretty.dumps_members indent (S level) (kv :: d)
    ++ JsonPretty.newline_indent indent level ++ "}".
Proof. reflexivity. Qed.

Lemma pretty_head (indent level : nat) (v : json) (x : string) :
  value_head (JsonPretty.dumps indent level v ++ x) = true.
Proof.
  destruct v as [| b | z | s | l | d]; try reflexivity.
  - destruct b; reflexivity.
  - exact (dumps_head (JNum z) x).
  - destruct l; reflexivity.
  - destruct d; reflexivity.
Qed.

Lemma pretty_items_head (indent level : nat) (v : json) (l : list json) (x : string) :
  value_head (JsonPretty.dumps_items indent level (v :: l) ++ x) = true.
Proof.
  destruct l; cbn [JsonPretty.dumps_items]; [apply pretty_head|].
  rewrite append_assoc. apply pretty_head.
Qed.

Lemma pretty_members_head (indent level : nat) (kv : string * json)
      (d : list (string * json)) (x : string) :
  exists y, JsonPretty.dumps_members indent level (kv :: d) ++ x = String Json.dquote y.
Proof.
  destruct kv as [k v]. destruct d as [|kv2 d]; cbn [JsonPretty.dumps_members];
    unfold JsonPretty.dumps_str; cbn [append]; eexists; reflexivity.
Qed.

Lemma pretty_nonempty (indent level : nat) (v : json) :
  (1 <= String.length (JsonPretty.dumps indent level v))%nat.
Proof.
  pose proof (pretty_head indent level v "") as H. rewrite append_empty_r in H.
  destruct (JsonPretty.dumps indent level v); [discriminate H | cbn; lia].
Qed.

Lemma peek_after_indent (c : ascii) (indent level : nat) (x : string) :
  Json.is_ws c = false ->
  Json.peek c (Json.skip_ws (JsonPretty.newline_indent indent level ++ String c x))
  = Some x.
Proof.
  intro H. rewrite skip_ws_indent. cbn [Json.skip_ws]. rewrite H.
  cbn [Json.peek]. rewrite Ascii.eqb_refl. reflexivity.
Qed.

Lemma stops_indent (indent level : nat) (x : string) :
  stops (JsonPretty.newline_indent indent level ++ x) = true.
Proof. reflexivity. Qed.

Lemma pretty_items_cons (indent level : nat) (v v2 : json) (l : list json) :
  JsonPretty.dumps_items indent level (v :: v2 :: l)
  = JsonPretty.dumps indent level v ++ ","
    ++ JsonPretty.newline_indent indent level
    ++ JsonPretty.dumps_items indent level (v2 :: l).
Proof. reflexivity. Qed.

Lemma pretty_members_cons (indent level : nat) (k : string) (x : json)
      (kv2 : string * json) (d : list (string * json)) :
  JsonPretty.dumps_members indent level ((k, x) :: kv2 :: d)
  = JsonPretty.dumps_str k ++ ": " ++ JsonPretty.dumps indent level x ++ ","
    ++ JsonPretty.newline_indent indent level
    ++ JsonPretty.dumps_members indent level (kv2 :: d).
Proof. reflexivity. Qed.

Lemma peek_close_indent (c : ascii) (indent level : nat) (x : string) :
  Json.is_ws c = false -> (c =? ",")%char = false ->
  Json.peek "," (Json.skip_ws (JsonPretty.newline_indent indent level ++ String c x))
  = None.
Proof.
  intros H N. rewrite skip_ws_indent. cbn [Json.skip_ws]. rewrite H.
  cbn [Json.peek]. rewrite N. reflexivity.
Qed.

Lemma indent_length (indent level : nat) :
  String.length (JsonPretty.newline_indent indent level)
  = S (String.length (JsonPretty.spaces (indent * level))).
Proof. reflexivity. Qed.

(** The decoder reads back what the encoder wrote with an indent, for a
    bound that is at least the length of the text. *)
Lemma parse_pretty (indent : nat) (n : nat) :
  (forall v level rest,
      (String.length (JsonPretty.dumps indent level v) <= n)%nat ->
      unique_keys v = true ->
      stops rest = true ->
      Json.parse_value n (JsonPretty.dumps indent level v ++ rest) = Some (v, rest)) /\
  (forall v l level back rest,
      (String.length (JsonPretty.dumps_items indent level (v :: l)) < n)%nat ->
      forallb unique_keys (v :: l) = true ->
      Json.parse_elems n (JsonPretty.dumps_items indent level (v :: l)
                          ++ JsonPretty.newline_indent indent back ++ String "]" rest)
      = Some (v :: l, rest)) /\
  (forall kv d level back rest,
      (String.length (JsonPretty.dumps_members indent level (kv :: d)) < n)%nat ->
      values_unique (kv :: d) = true ->
      Json.parse_members n (JsonPretty.dumps_members indent level (kv :: d)
                            ++ JsonPretty.newline_indent indent back ++ String "}" rest)
      = Some (kv :: d, rest)).
Proof.
  induction n as [|f [IHv [IHe IHm]]].
  - split; [|split]; intros; try lia.
    pose proof (pretty_nonempty indent level v). lia.
  - split; [|split].
    + intros v level rest Hlen Hu Hs. destruct v as [| b | z | s | l | d].
      * reflexivity.
      * destruct b; reflexivity.
      * apply parse_value_int. exact Hs.
      * cbn [JsonPretty.dumps]. unfold JsonPretty.dumps_str. cbn [append].
        rewrite parse_value_quote, append_assoc. cbn [append].
        rewrite pretty_scan_escape. reflexivity.
      * destruct l as [|v l]; [reflexivity|].
        rewrite pretty_list in *. cbn [append] in Hlen |- *.
        rewrite parse_value_bracket. rewrite !append_assoc.
        rewrite skip_ws_indent.
        destruct (value_head_skip _ (pretty_items_head indent (S level) v l
                    (JsonPretty.newline_indent indent level ++ "]" ++ rest)))
          as [E1 [E2 _]].
        rewrite E1, E2. cbn [append].
        rewrite IHe; [reflexivity | | exact Hu].
        cbn [String.length] in Hlen.
        rewrite !length_append, !indent_length in Hlen. lia.
      * destruct d as [|kv d]; [reflexivity|].
        rewrite pretty_dict in *. cbn [append] in Hlen |- *.
        rewrite parse_value_brace. rewrite !append_assoc.
        rewrite skip_ws_indent.
        cbn [unique_keys] in Hu. apply andb_true_iff in Hu. destruct Hu as [Hk Hu].
        destruct (pretty_members_head indent (S level) kv d
                    (JsonPretty.newline_indent indent level ++ "}" ++ rest)) as [y Ey].
        rewrite Ey.
        change (Json.skip_ws (String Json.dquote y)) with (String Json.dquote y).
        change (Json.peek "}" (String Json.dquote y)) with (@None string).
        rewrite <- Ey. cbn [append]. rewrite IHm; [| | exact Hu].
        -- rewrite (dict_of_pairs_distinct _ Hk). reflexivity.
        -- cbn [String.length] in Hlen.
           rewrite !length_append, !indent_length in Hlen. lia.
    + intros v l level back rest Hlen Hu. rewrite parse_elems_step.
      cbn [forallb] in Hu. apply andb_true_iff in Hu. destruct Hu as [Hv Hl].
      destruct l as [|v2 l].
      * cbn [JsonPretty.dumps_items] in *.
        rewrite IHv; [| lia | exact Hv | apply stops_indent].
        rewrite (peek_close_indent "]" indent back rest eq_refl eq_refl).
        rewrite (peek_after_indent "]" indent back rest eq_refl). reflexivity.
      * rewrite pretty_items_cons in *.
        rewrite !append_assoc. cbn [append].
        rewrite !length_append in Hlen. cbn [String.length] in Hlen.
        rewrite IHv; [| lia | exact Hv | reflexivity].
        change (Json.peek "," (Json.skip_ws (String "," ?y))) with (Some y).
        cbv beta iota. rewrite skip_ws_indent.
        destruct (value_head_skip _ (pretty_items_head indent level v2 l
                    (JsonPretty.newline_indent indent back ++ String "]" rest)))
          as [E1 _].
        rewrite E1. rewrite IHe; [reflexivity | | exact Hl].
        rewrite ?length_append, ?indent_length in Hlen. lia.
    + intros [k x] d level back rest Hlen Hu.
      cbn [values_unique forallb] in Hu. apply andb_true_iff in Hu. destruct Hu as [Hx Hd].
      destruct d as [|kv2 d].
      * cbn [JsonPretty.dumps_members] in *. unfold JsonPretty.dumps_str in *.
        cbn [append] in *.
        rewrite parse_members_step. rewrite !append_assoc. cbn [append].
        rewrite pretty_scan_escape, after_colon, skip_space.
        cbn [String.length] in Hlen. rewrite !length_append in Hlen.
        cbn [String.length] in Hlen.
        destruct (value_head_skip _ (pretty_head indent level x
                    (JsonPretty.newline_indent indent back ++ String "}" rest)))
          as [E1 _].
        rewrite E1. rewrite IHv; [| lia | exact Hx | apply stops_indent].
        rewrite (peek_close_indent "}" indent back rest eq_refl eq_refl).
        rewrite (peek_after_indent "}" indent back rest eq_refl). reflexivity.
      * rewrite pretty_members_cons in *.
        unfold JsonPretty.dumps_str in Hlen |- *. cbn [append] in *.
        rewrite parse_members_step. rewrite !append_assoc. cbn [append].
        rewrite pretty_scan_escape, after_colon, skip_space.
        cbn [String.length] in Hlen. rewrite !length_append in Hlen.
        cbn [String.length] in Hlen. rewrite !length_append in Hlen.
        rewrite ?append_assoc. cbn [append].
        match goal with
        | |- context [Json.skip_ws (JsonPretty.dumps indent level x ++ ?y)] =>
            destruct (value_head_skip _ (pretty_head indent level x y)) as [E1 _];
            rewrite E1
        end.
        rewrite IHv; [| lia | exact Hx | reflexivity].
        change (Json.peek "," (Json.skip_ws (String "," ?y))) with (Some y).
        cbv beta iota. rewrite ?append_assoc. rewrite skip_ws_indent.
        destruct (pretty_members_head indent level kv2 d
                    (JsonPretty.newline_indent indent back ++ String "}" rest))
          as [y Ey].
        rewrite Ey. change (Json.skip_ws (String Json.dquote y)) with (String Json.dquote y).
        rewrite <- Ey. rewrite IHm; [reflexivity | | exact Hd].
        cbn [String.length] in Hlen. rewrite ?length_append, ?indent_length in Hlen. lia.
Qed.

(** The decoder reads back what the encoder writes with an indent. *)
Lemma read_pretty (indent : nat) (v : json) :
  unique_keys v = true -> Json.read (JsonPretty.dumps indent 0 v) = Some v.
Proof.
  intro Hu. unfold Json.read.
  pose proof (pretty_head indent 0 v "") as Hh. rewrite append_empty_r in Hh.
  destruct (value_head_skip _ Hh) as [E _]. rewrite E.
  pose proof (proj1 (parse_pretty indent (S (String.length (JsonPretty.dumps indent 0 v))))
                v 0%nat "" ltac:(lia) Hu eq_refl) as P.
  rewrite append_empty_r in P. rewrite P. reflexivity.
Qed.

(** [json.loads(json.dumps(v, indent=n, ensure_ascii=False))] is [v]. *)
Lemma loads_pretty (indent : nat) (v : json) :
  unique_keys v = true -> Json.loads (JsonPretty.dumps indent 0 v) = Json.Decoded v.
Proof. intro Hu. unfold Json.loads. rewrite (read_pretty indent v Hu). reflexivity. Qed.

(** ** The text shown after an analysis *)

Lemma escape_char_shown (c : ascii) :
  QTextEdit.kept_char c = true ->
  all_chars QTextEdit.shown_char (JsonPretty.escape_char c) = true.
Proof.
  destruct c as [[] [] [] [] [] [] [] []]; vm_compute; intro H;
    first [reflexivity | discriminate H].
Qed.

Lemma escape_shown (s : string) :
  all_chars QTextEdit.kept_char s = true ->
  all_chars QTextEdit.shown_char (JsonPretty.escape s) = true.
Proof.
  induction s as [|c r IH]; cbn [all_chars JsonPretty.escape]; [reflexivity|].
  intro H. apply andb_true_iff in H. destruct H as [Hc Hr].
  rewrite all_chars_append, (escape_char_shown c Hc), (IH Hr). reflexivity.
Qed.

Lemma dumps_str_shown (s : string) :
  all_chars QTextEdit.kept_char s = true ->
  all_chars QTextEdit.shown_char (JsonPretty.dumps_str s) = true.
Proof.
  intro H. unfold JsonPretty.dumps_str. cbn [all_chars].
  rewrite all_chars_append, (escape_shown s H). reflexivity.
Qed.

Lemma uint_shown (u : Decimal.uint) :
  all_chars QTextEdit.shown_char (NilEmpty.string_of_uint u) = true.
Proof. induction u; cbn [NilEmpty.string_of_uint all_chars]; auto. Qed.

Lemma of_int_shown (z : Z) : all_chars QTextEdit.shown_char (PyStr.of_int z) = true.
Proof.
  unfold PyStr.of_int. destruct (Z.to_int z) as [u|u];
    cbn [NilEmpty.string_of_int all_chars]; [|cbn]; apply uint_shown.
Qed.

Lemma newline_indent_shown (indent level : nat) :
  all_chars QTextEdit.shown_char (JsonPretty.newline_indent indent level) = true.
Proof.
  unfold JsonPretty.newline_indent. cbn [all_chars].
  change (QTextEdit.shown_char newline) with true. cbn [andb].
  induction (indent * level)%nat as [|n IH]; [reflexivity|].
  cbn [JsonPretty.spaces all_chars]. exact IH.
Qed.

(** The text that the encoder writes for a value whose strings the text
    field gives back holds only characters that the field gives back. *)
Lemma pretty_shown (indent : nat) (v : json) :
  forall level,
    shown_as_is v = true ->
    all_chars QTextEdit.shown_char (JsonPretty.dumps indent level v) = true.
Proof.
  induction v as [| b | z | s | l IH | d IH] using json_induction; intros level H.
  - reflexivity.
  - destruct b; reflexivity.
  - exact (of_int_shown z).
  - exact (dumps_str_shown s H).
  - destruct l as [|x l]; [reflexivity|].
    rewrite pretty_list. cbn [append all_chars].
    rewrite !all_chars_append, !newline_indent_shown. cbn [all_chars andb].
    rewrite andb_true_r.
    cbn [shown_as_is] in H. revert H IH. generalize (S level). intro lv.
    generalize x. clear x.
    induction l as [|y l IHl]; intros x H IH.
    + cbn [forallb] in H. rewrite andb_true_r in H.
      inversion IH as [|? ? Hx _]; subst. exact (Hx lv H).
    + rewrite pretty_items_cons. cbn [forallb] in H.
      apply andb_true_iff in H. destruct H as [H1 H2].
      inversion IH as [|? ? Hx Hr]; subst.
      rewrite !all_chars_append, (Hx lv H1), newline_indent_shown.
      cbn [all_chars andb append]. exact (IHl y H2 Hr).
  - destruct d as [|[k x] d]; [reflexivity|].
    rewrite pretty_dict. cbn [append all_chars].
    rewrite !all_chars_append, !newline_indent_shown. cbn [all_chars andb].
    rewrite andb_true_r.
    cbn [shown_as_is] in H. revert H IH. generalize (S level). intro lv.
    generalize k x. clear k x.
    induction d as [|[k2 y] d IHd]; intros k x H IH.
    + cbn [forallb fst snd] in H. rewrite andb_true_r in H.
      apply andb_true_iff in H. destruct H as [Hk Hx].
      inversion IH as [|? ? Px _]; subst. cbn [snd] in Px.
      cbn [JsonPretty.dumps_members].
      rewrite !all_chars_append, (dumps_str_shown k Hk), (Px lv Hx). reflexivity.
    + rewrite pretty_members_cons. cbn [forallb fst snd] in H.
      apply andb_true_iff in H. destruct H as [H1 H2].
      apply andb_true_iff in H1. destruct H1 as [Hk Hx].
      inversion IH as [|? ? Px Pr]; subst. cbn [snd] in Px.
      rewrite !all_chars_append, (dumps_str_shown k Hk), (Px lv Hx), newline_indent_shown.
      cbn [all_chars andb append]. exact (IHd k2 y H2 Pr).
Qed.

Lemma shown_plain (s : string) :
  all_chars QTextEdit.shown_char s = true ->
  all_chars QTextEdit.plain_char s = true /\ PyStr.replace_char QTextEdit.nbsp " " s = s.
Proof.
  induction s as [|c r IH]; cbn [all_chars PyStr.replace_char]; [split; reflexivity|].
  intro H. apply andb_true_iff in H. destruct H as [Hc Hr].
  unfold QTextEdit.shown_char in Hc. apply andb_true_iff in Hc. destruct Hc as [P N].
  apply negb_true_iff in N. destruct (IH Hr) as [A B].
  rewrite P, A, N, B. split; reflexivity.
Qed.

(** The text of an object is taken for plain text: its first line is the
    opening brace. *)
Lemma first_line_dict (indent level : nat) (d : dict) :
  QTextEdit.first_line_plain false (JsonPretty.dumps indent level (JDict d)) = true.
Proof.
  destruct d as [|kv d]; [reflexivity|]. rewrite pretty_dict. reflexivity.
Qed.

(** What the text field holds after [setText] on the text of an object. *)
Lemma plain_text_pretty (indent : nat) (d : dict) :
  shown_as_is (JDict d) = true ->
  QTextEdit.plain_text (JsonPretty.dumps indent 0 (JDict d))
  = Some (JsonPretty.dumps indent 0 (JDict d)).
Proof.
  intro H. unfold QTextEdit.plain_text.
  destruct (shown_plain _ (pretty_shown indent (JDict d) 0 H)) as [A B].
  rewrite A, first_line_dict, B. reflexivity.
Qed.

Lemma slot_on_decoded (w : MainWindow.t) (v : json) :
  Json.loads (MainWindow.result_text w) = Json.Decoded v ->
  MainWindow.current_llm_result w = v ->
  MainWindow.on_result_text_changed w = Some w.
Proof.
  intros L R. unfold MainWindow.on_result_text_changed. rewrite L.
  destruct w. cbn in R. subst. reflexivity.
Qed.

Lemma slots_on_decoded (n : nat) (w : MainWindow.t) (v : json) :
  Json.loads (MainWindow.result_text w) = Json.Decoded v ->
  MainWindow.current_llm_result w = v ->
  Analysis.run_slots n w = Some w.
Proof.
  intros L R. induction n as [|n IH]; [reflexivity|].
  cbn [Analysis.run_slots]. rewrite (slot_on_decoded w v L R). exact IH.
Qed.

(** X19.  when title derivation returns on the result of an analysis whose
    strings the text field gives back as they are, the text that the
    result field holds is the one the encoder wrote and decodes to that
    result, which is also what [current_llm_result] holds once the
    connected slots have run; the save button is enabled, the button of
    the label is not, and the handler has connected the slot once more. *)
Theorem analysis_text_decodes (a : Analysis.t) (result : dict) (t : string) :
  unique_keys (JDict result) = true ->
  shown_as_is (JDict result) = true ->
  update_asset_title_from_result (JDict result) = Ok t ->
  exists a',
    Analysis.on_analysis_complete a result = Some a' /\
    MainWindow.result_text (Analysis.window a') = JsonPretty.dumps 2 0 (JDict result) /\
    Json.loads (MainWindow.result_text (Analysis.window a')) = Json.Decoded (JDict result) /\
    MainWindow.current_llm_result (Analysis.window a') = JDict result /\
    MainWindow.save_button (Analysis.window a') = true /\
    MainWindow.generate_qrcode_button (Analysis.window a') = false /\
    MainWindow.elab_manager (Analysis.window a')
    = MainWindow.elab_manager (Analysis.window a) /\
    MainWindow.current_asset_id (Analysis.window a')
    = MainWindow.current_asset_id (Analysis.window a) /\
    Analysis.connections a' = S (Analysis.connections a) /\
    Analysis.error_processing a' = None.
Proof.
  intros Hu Hs Ht. unfold Analysis.on_analysis_complete. rewrite Ht.
  unfold Analysis.set_text. rewrite (plain_text_pretty 2 result Hs).
  rewrite (slots_on_decoded _ _ (JDict result));
    [| cbn [MainWindow.with_text MainWindow.result_text]; apply loads_pretty; exact Hu
     | reflexivity].
  eexists. split; [reflexivity|].
  cbn -[JsonPretty.dumps Json.loads].
  rewrite (loads_pretty 2 (JDict result) Hu). repeat split.
Qed.

Lemma analysis_text_decodes_witness :
  exists a',
    Analysis.on_analysis_complete
      {| Analysis.window := committed_window; Analysis.analyze_button := false;
         Analysis.connections := 1; Analysis.error_processing := None |}
      nested_sample = Some a' /\
    MainWindow.result_text (Analysis.window a') = JsonPretty.dumps 2 0 (JDict nested_sample) /\
    Json.loads (MainWindow.result_text (Analysis.window a'))
    = Json.Decoded (JDict nested_sample) /\
    MainWindow.current_llm_result (Analysis.window a') = JDict nested_sample /\
    MainWindow.save_button (Analysis.window a') = true /\
    MainWindow.generate_qrcode_button (Analysis.window a') = false /\
    MainWindow.elab_manager (Analysis.window a') = MainWindow.elab_manager committed_window /\
    MainWindow.current_asset_id (Analysis.window a')
    = MainWindow.current_asset_id committed_window /\
    Analysis.connections a' = 2%nat /\
    Analysis.error_processing a' = None.
Proof.
  apply (analysis_text_decodes
           {| Analysis.window := committed_window; Analysis.analyze_button := false;
              Analysis.connections := 1; Analysis.error_processing := None |}
           nested_sample "Sodium Chloride"); reflexivity.
Defined.

(** A name with a non-breaking space: the text field holds a space in its
    place, and the slot that is already connected replaces the result by
    what that text decodes to. *)
Example analysis_nbsp :
  let name := "5" ++ String QTextEdit.nbsp "ml" in
  exists a',
    Analysis.on_analysis_complete
      {| Analysis.window := ready_window; Analysis.analyze_button := false;
         Analysis.connections := 1; Analysis.error_processing := None |}
      [("name", JStr name)] = Some a' /\
    MainWindow.current_llm_result (Analysis.window a') = JDict [("name", JStr "5 ml")].
Proof. eexists. split; reflexivity. Qed.

(** ** The configuration file *)

(** X20.  what [save_config] writes, [load_config] reads back: after a save
    that succeeds, a load gives the same configuration, held by an object
    of its own, and leaves the file and the defaults as they are. *)
Theorem save_then_load (m : ConfigFile.t) :
  ConfigFile.writable m = true ->
  unique_keys (ConfigFile.config m) = true ->
  let saved := ConfigFile.save_config m in
  snd saved = true /\
  exists m',
    ConfigFile.load_config (fst saved) = Some m' /\
    ConfigFile.config m' = ConfigFile.config m /\
    ConfigFile.config_ref m' = ConfigFile.Loaded /\
    ConfigFile.file m' = ConfigFile.file (fst saved) /\
    ConfigFile.default_config m' = ConfigFile.default_config m.
Proof.
  intros Hw Hu saved. unfold saved, ConfigFile.save_config. rewrite Hw.
  cbn [fst snd]. split; [reflexivity|].
  unfold ConfigFile.load_config. cbn [ConfigFile.file].
  rewrite (loads_pretty 4 _ Hu). eexists. repeat split.
Qed.

Lemma save_then_load_witness :
  let saved := ConfigFile.save_config
                 (ConfigFile.init (JDict sample_config) None true) in
  snd saved = true /\
  exists m',
    ConfigFile.load_config (fst saved) = Some m' /\
    ConfigFile.config m' = ConfigFile.config (ConfigFile.init (JDict sample_config) None true) /\
    ConfigFile.config_ref m' = ConfigFile.Loaded /\
    ConfigFile.file m' = ConfigFile.file (fst saved) /\
    ConfigFile.default_config m'
    = ConfigFile.default_config (ConfigFile.init (JDict sample_config) None true).
Proof.
  apply (save_then_load (ConfigFile.init (JDict sample_config) None true)); reflexivity.
Defined.

Lemma save_config_keeps (m : ConfigFile.t) :
  ConfigFile.config (fst (ConfigFile.save_config m)) = ConfigFile.config m /\
  ConfigFile.default_config (fst (ConfigFile.save_config m)) = ConfigFile.default_config m /\
  ConfigFile.config_ref (fst (ConfigFile.save_config m)) = ConfigFile.config_ref m /\
  ConfigFile.writable (fst (ConfigFile.save_config m)) = ConfigFile.writable m.
Proof.
  unfold ConfigFile.save_config. destruct (ConfigFile.writable m) eqn:W; cbn [fst].
  - unfold ConfigFile.config. cbn. repeat split.
  - rewrite W. repeat split.
Qed.

Lemma load_without_file (m : ConfigFile.t) :
  ConfigFile.file m = None ->
  exists m1,
    ConfigFile.load_config m = Some m1 /\
    ConfigFile.config_ref m1 = ConfigFile.Default /\
    ConfigFile.default_config m1 = ConfigFile.default_config m /\
    ConfigFile.writable m1 = ConfigFile.writable m /\
    (ConfigFile.writable m = false -> ConfigFile.file m1 = None).
Proof.
  intro Hf. unfold ConfigFile.load_config. rewrite Hf.
  eexists. split; [reflexivity|].
  destruct (save_config_keeps (ConfigFile.use_defaults m)) as [_ [D [R W]]].
  rewrite D, R, W. repeat split.
  intro Hw. unfold ConfigFile.save_config.
  cbn [ConfigFile.use_defaults ConfigFile.writable]. rewrite Hw. exact Hf.
Qed.

Lemma set_value_on_defaults (m : ConfigFile.t) (d : dict) (key_path : string)
      (value : json) :
  ConfigFile.config_ref m = ConfigFile.Default ->
  ConfigFile.default_config m = JDict d ->
  let m2 := fst (ConfigFile.set_value m key_path value) in
  ConfigFile.default_config m2
  = JDict (ConfigManager.set_path d (PyStr.split "." key_path) value) /\
  ConfigFile.config_ref m2 = ConfigFile.Default /\
  ConfigFile.writable m2 = ConfigFile.writable m /\
  (ConfigFile.writable m = false -> ConfigFile.file m2 = ConfigFile.file m).
Proof.
  intros R D m2. unfold m2, ConfigFile.set_value, ConfigFile.config. rewrite R, D.
  set (c := JDict (ConfigManager.set_path d (PyStr.split "." key_path) value)).
  destruct (save_config_keeps (ConfigFile.mutate m c)) as [_ [D' [R' W']]].
  rewrite D', R', W'. unfold ConfigFile.mutate. rewrite R.
  cbn [ConfigFile.default_config ConfigFile.config_ref ConfigFile.writable].
  repeat split.
  intro Hw. unfold ConfigFile.save_config. cbn [ConfigFile.writable]. rewrite Hw.
  reflexivity.
Qed.

(** X22.  the defaults are not a constant.  When [load_config] has found
    no file and has fallen back on the defaults, [set_value] writes into
    [default_config] itself: the defaults then hold the new value, and a
    later load that falls back again returns the changed defaults. *)
Theorem defaults_follow_writes (m : ConfigFile.t) (d : dict) (key_path : string)
        (value : json) :
  ConfigFile.file m = None ->
  ConfigFile.default_config m = JDict d ->
  exists m1,
    ConfigFile.load_config m = Some m1 /\
    let m2 := fst (ConfigFile.set_value m1 key_path value) in
    ConfigFile.default_config m2
    = JDict (ConfigManager.set_path d (PyStr.split "." key_path) value) /\
    ConfigManager.get_value (ConfigFile.default_config m2) key_path JNull = Ok value /\
    ConfigFile.config m2 = ConfigFile.default_config m2 /\
    (ConfigFile.writable m = false ->
     exists m3,
       ConfigFile.load_config m2 = Some m3 /\
       ConfigFile.config m3 = ConfigFile.default_config m2).
Proof.
  intros Hf Hd.
  destruct (load_without_file m Hf) as [m1 [L1 [R1 [D1 [W1 F1]]]]].
  exists m1. split; [exact L1|]. intro m2.
  rewrite Hd in D1.
  destruct (set_value_on_defaults m1 d key_path value R1 D1) as [D2 [R2 [W2 F2]]].
  fold m2 in D2, R2, W2, F2.
  split; [exact D2|]. split; [|split].
  - rewrite D2. unfold ConfigManager.get_value.
    rewrite walk_set_path by apply split_not_nil. reflexivity.
  - unfold ConfigFile.config. rewrite R2. reflexivity.
  - intro Hw. rewrite W1 in W2, F2. specialize (F2 Hw). rewrite (F1 Hw) in F2.
    destruct (load_without_file m2 F2) as [m3 [L3 [R3 [D3 _]]]].
    exists m3. split; [exact L3|].
    unfold ConfigFile.config at 1. rewrite R3. exact D3.
Qed.

Lemma defaults_follow_writes_witness :
  exists m1,
    ConfigFile.load_config (ConfigFile.init (JDict sample_config) None false) = Some m1 /\
    let m2 := fst (ConfigFile.set_value m1 "llm.provider" (JStr "anthropic")) in
    ConfigFile.default_config m2
    = JDict (ConfigManager.set_path sample_config (PyStr.split "." "llm.provider")
               (JStr "anthropic")) /\
    ConfigManager.get_value (ConfigFile.default_config m2) "llm.provider" JNull
    = Ok (JStr "anthropic") /\
    ConfigFile.config m2 = ConfigFile.default_config m2 /\
    (ConfigFile.writable (ConfigFile.init (JDict sample_config) None false) = false ->
     exists m3,
       ConfigFile.load_config m2 = Some m3 /\
       ConfigFile.config m3 = ConfigFile.default_config m2).
Proof.
  apply (defaults_follow_writes (ConfigFile.init (JDict sample_config) None false)
           sample_config "llm.provider" (JStr "anthropic")); reflexivity.
Defined.

Lemma config_mutate (m : ConfigFile.t) (c : json) :
  ConfigFile.config (ConfigFile.mutate m c) = c.
Proof.
  unfold ConfigFile.mutate, ConfigFile.config.
  destruct (ConfigFile.config_ref m); reflexivity.
Qed.

Lemma save_config_flag (m : ConfigFile.t) :
  snd (ConfigFile.save_config m) = ConfigFile.writable m.
Proof. unfold ConfigFile.save_config. destruct (ConfigFile.writable m); reflexivity. Qed.

Lemma writable_mutate (m : ConfigFile.t) (c : json) :
  ConfigFile.writable (ConfigFile.mutate m c) = ConfigFile.writable m.
Proof. unfold ConfigFile.mutate. destruct (ConfigFile.config_ref m); reflexivity. Qed.

(** The manager's [set_value] and [update_config] change [self.config] as
    the functions on the configuration alone do, and return the success of
    the save. *)
Lemma set_value_on_manager (m : ConfigFile.t) (key_path : string) (value : json) :
  (ConfigFile.config (fst (ConfigFile.set_value m key_path value)),
   snd (ConfigFile.set_value m key_path value))
  = ConfigManager.set_value (ConfigFile.writable m) (ConfigFile.config m) key_path value.
Proof.
  unfold ConfigFile.set_value, ConfigManager.set_value.
  destruct (ConfigFile.config m) as [| b | z | s | l | d] eqn:C;
    try (cbn [fst snd]; rewrite C; reflexivity).
  destruct (save_config_keeps
              (ConfigFile.mutate m
                 (JDict (ConfigManager.set_path d (PyStr.split "." key_path) value))))
    as [K _].
  rewrite K, config_mutate, save_config_flag, writable_mutate. reflexivity.
Qed.

Lemma update_config_on_manager (m : ConfigFile.t) (new_config : json) :
  (ConfigFile.config (fst (ConfigFile.update_config m new_config)),
   snd (ConfigFile.update_config m new_config))
  = ConfigUpdate.update_config (ConfigFile.writable m) (ConfigFile.config m) new_config.
Proof.
  unfold ConfigFile.update_config, ConfigUpdate.update_config.
  destruct new_config as [| b | z | s | l | u]; try reflexivity.
  destruct u as [|kv u].
  - destruct (save_config_keeps m) as [K _]. rewrite K, save_config_flag. reflexivity.
  - destruct (ConfigFile.config m) as [| b | z | s | l | d] eqn:C;
      try (cbn [fst snd]; rewrite C; reflexivity).
    destruct (save_config_keeps
                (ConfigFile.mutate m (JDict (ConfigUpdate._update_dict d (kv :: u)))))
      as [K _].
    rewrite K, config_mutate, save_config_flag, writable_mutate. reflexivity.
Qed.

(** ** The manager of the vision clients *)

Lemma py_eq_dicts (d e : dict) :
  py_eq (JDict d) (JDict e)
  = (List.length d =? List.length e)%nat
    && forallb (fun kv => match dict_get e (fst kv) with
                          | Some y => py_eq (snd kv) y
                          | None => false
                          end) d.
Proof.
  cbn [py_eq]. f_equal. induction d as [|[k x] d IH]; [reflexivity|].
  cbn [forallb fst snd]. rewrite IH. reflexivity.
Qed.

(** A value is equal to itself. *)
Lemma py_eq_refl (v : json) : unique_keys v = true -> py_eq v v = true.
Proof.
  induction v as [| b | z | s | l IH | d IH] using json_induction; intro Hu.
  - reflexivity.
  - destruct b; reflexivity.
  - apply Z.eqb_refl.
  - apply String.eqb_refl.
  - cbn [py_eq]. cbn [unique_keys] in Hu.
    induction IH as [|x l Hx _ IHl]; [reflexivity|].
    cbn [forallb] in Hu. apply andb_true_iff in Hu. destruct Hu as [H1 H2].
    rewrite (Hx H1). exact (IHl H2).
  - rewrite py_eq_dicts, Nat.eqb_refl. cbn [andb].
    cbn [unique_keys] in Hu. apply andb_true_iff in Hu. destruct Hu as [Hk Hv].
    apply forallb_forall. intros [k x] Hin. cbn [fst snd].
    rewrite (dict_get_in d k x Hk Hin).
    rewrite Forall_forall in IH. apply (IH (k, x) Hin).
    rewrite forallb_forall in Hv. exact (Hv (k, x) Hin).
Qed.

Lemma copy_key_other (new_settings c : dict) (k k' : string) :
  k <> k' -> dict_get (LLMManager.copy_key new_settings c k) k' = dict_get c k'.
Proof.
  intro N. unfold LLMManager.copy_key.
  destruct (dict_get new_settings k); [apply dict_get_set_other; exact N | reflexivity].
Qed.

Lemma copy_key_same (new_settings c : dict) (k : string) (v : json) :
  dict_get new_settings k = Some v ->
  dict_get (LLMManager.copy_key new_settings c k) k = Some v.
Proof.
  intro E. unfold LLMManager.copy_key. rewrite E. apply dict_get_set_same.
Qed.

(** X23.  a change of the model alone does not reach the client.  When the
    new settings name neither a provider nor an API key, [update_settings]
    reports success and [get_settings] shows the new model, but the client
    object is the one made before, with the model it was made with. *)
Theorem model_change_keeps_client (m : LLMManager.t) (new_settings : dict) (v : json) :
  unique_keys (LLMManager.provider m) = true ->
  dict_has new_settings "provider" = false ->
  dict_has new_settings "api_key" = false ->
  dict_get new_settings "model" = Some v ->
  let '(m', r) := LLMManager.update_settings m new_settings in
  LLMManager.llm m' = LLMManager.llm m /\
  LLMManager.provider m' = LLMManager.provider m /\
  r = LLMManager.Updated (LLMManager.get_settings m') /\
  LLMManager.s_model (LLMManager.get_settings m') = v.
Proof.
  intros Hu Hp Hk Hm. unfold LLMManager.update_settings.
  unfold dict_has in Hp. destruct (dict_get new_settings "provider"); [discriminate Hp|].
  rewrite (py_eq_refl _ Hu), Hk. cbn [negb orb].
  split; [reflexivity|]. split; [reflexivity|]. split; [reflexivity|].
  unfold LLMManager.get_settings. cbn [LLMManager.s_model LLMManager.config].
  unfold LLMManager.get. cbn [fold_left].
  rewrite !copy_key_other by discriminate.
  rewrite (copy_key_same _ _ "model" v Hm). reflexivity.
Qed.

Lemma model_change_keeps_client_witness :
  let '(m', r) :=
    LLMManager.update_settings
      (LLMManager.init [("provider", JStr "openai"); ("model", JStr "gpt-4o")])
      [("model", JStr "gpt-4o-mini")] in
  LLMManager.llm m'
  = LLMManager.llm (LLMManager.init [("provider", JStr "openai"); ("model", JStr "gpt-4o")]) /\
  LLMManager.provider m'
  = LLMManager.provider
      (LLMManager.init [("provider", JStr "openai"); ("model", JStr "gpt-4o")]) /\
  r = LLMManager.Updated (LLMManager.get_settings m') /\
  LLMManager.s_model (LLMManager.get_settings m') = JStr "gpt-4o-mini".
Proof.
  apply (model_change_keeps_client
           (LLMManager.init [("provider", JStr "openai"); ("model", JStr "gpt-4o")])
           [("model", JStr "gpt-4o-mini")] (JStr "gpt-4o-mini")); reflexivity.
Defined.


Lemma get_set_other (c : dict) (k k' : string) (x default : json) :
  k <> k' -> LLMManager.get (dict_set c k x) k' default = LLMManager.get c k' default.
Proof.
  intro N. unfold LLMManager.get. rewrite (dict_get_set_other c k k' x N). reflexivity.
Qed.

Lemma get_absent (c : dict) (k : string) (default : json) :
  dict_has c k = false -> LLMManager.get c k default = default.
Proof.
  unfold dict_has, LLMManager.get. destruct (dict_get c k); [discriminate | reflexivity].
Qed.

(** X25.  the analysis script hands the whole configuration to the manager,
    which reads the provider, the key and the model at its top level: the
    [llm] section has no effect on the client that is made, and on a
    configuration that has these settings only inside its sections the
    client is the OpenAI one with an empty key and the default model. *)
Theorem script_client_ignores_llm_section (c : dict) (section : json) :
  exists m m0,
    analyze_image_manager (JDict (dict_set c "llm" section)) = Ok m /\
    analyze_image_manager (JDict c) = Ok m0 /\
    LLMManager.llm m = LLMManager.llm m0 /\
    LLMManager.provider m = LLMManager.provider m0 /\
    (dict_has c "provider" = false -> dict_has c "api_key" = false ->
     dict_has c "model" = false ->
     LLMManager.llm m
     = Some (LLMManager.OpenAI (JStr "") (JStr "gpt-4-vision-preview")
               (dict_get c "temperature")
               (LLMManager.get c "max_tokens" (JNum 4000)))).
Proof.
  do 2 eexists. split; [reflexivity|]. split; [reflexivity|].
  unfold LLMManager.init, LLMManager.initialize_llm.
  cbn [LLMManager.provider LLMManager.config].
  rewrite !get_set_other by discriminate.
  rewrite (dict_get_set_other c "llm" "temperature" section) by discriminate.
  split; [|split].
  - destruct (LLMManager.is_provider (LLMManager.get c "provider" (JStr "openai")) "openai");
      [reflexivity|].
    destruct (LLMManager.is_provider (LLMManager.get c "provider" (JStr "openai"))
                "anthropic"); [reflexivity|].
    destruct (LLMManager.is_provider (LLMManager.get c "provider" (JStr "openai"))
                "ollama"); [reflexivity|].
    destruct (LLMManager.is_provider (LLMManager.get c "provider" (JStr "openai"))
                "local"); reflexivity.
  - destruct (LLMManager.is_provider (LLMManager.get c "provider" (JStr "openai")) "openai");
      [reflexivity|].
    destruct (LLMManager.is_provider (LLMManager.get c "provider" (JStr "openai"))
                "anthropic"); [reflexivity|].
    destruct (LLMManager.is_provider (LLMManager.get c "provider" (JStr "openai"))
                "ollama"); [reflexivity|].
    destruct (LLMManager.is_provider (LLMManager.get c "provider" (JStr "openai"))
                "local"); reflexivity.
  - intros Hp Hk Hm. rewrite (get_absent c "provider" _ Hp).
    cbn [LLMManager.is_provider String.eqb Ascii.eqb Bool.eqb fst LLMManager.with_llm
         LLMManager.llm].
    rewrite (get_absent c "api_key" _ Hk), (get_absent c "model" _ Hm). reflexivity.
Qed.

(** ** The fields of the body *)

Lemma dict_get_del_other (d : dict) (k k' : string) :
  k <> k' -> dict_get (dict_del d k) k' = dict_get d k'.
Proof.
  intro N. induction d as [|[a v] r IH]; cbn [dict_del dict_get]; [reflexivity|].
  destruct (a =? k) eqn:E.
  - apply String.eqb_eq in E. subst a.
    apply String.eqb_neq in N. rewrite N. reflexivity.
  - cbn [dict_get]. rewrite IH. reflexivity.
Qed.

Lemma dict_get_del_same (d : dict) (k : string) :
  distinct (map fst d) = true -> dict_get (dict_del d k) k = None.
Proof.
  induction d as [|[a v] r IH]; cbn [map fst distinct dict_del dict_get]; [reflexivity|].
  intro H. apply andb_true_iff in H. destruct H as [Ha Hr]. apply negb_true_iff in Ha.
  destruct (a =? k) eqn:E.
  - apply String.eqb_eq in E. subst a. exact (dict_get_absent r k Ha).
  - cbn [dict_get]. rewrite E. exact (IH Hr).
Qed.

Lemma dict_del_keys (d : dict) (k : string) :
  distinct (map fst d) = true -> distinct (map fst (dict_del d k)) = true.
Proof.
  induction d as [|[a v] r IH]; cbn [map fst distinct dict_del]; [reflexivity|].
  intro H. apply andb_true_iff in H. destruct H as [Ha Hr].
  destruct (a =? k); [exact Hr|].
  cbn [map fst distinct]. rewrite (IH Hr), andb_true_r.
  apply negb_true_iff in Ha. apply negb_true_iff.
  clear IH Hr. induction r as [|[b w] r IHr]; [reflexivity|].
  cbn [map fst existsb] in Ha. apply orb_false_iff in Ha. destruct Ha as [H1 H2].
  cbn [dict_del]. destruct (b =? k); [exact H2|].
  cbn [map fst existsb]. rewrite H1, (IHr H2). reflexivity.
Qed.

(** X26.  the body of a new record shows every field of the analysis
    result but the title and the tags, which are sent as the title and the
    tags of the record. *)
Theorem body_omits_title_and_tags (llm_data : dict) (k : string) :
  distinct (map fst llm_data) = true ->
  let body := ElabManager.format_body_from_llm_data llm_data in
  dict_get body "title" = None /\
  dict_get body "tags" = None /\
  (k <> "title" -> k <> "tags" -> dict_get body k = dict_get llm_data k).
Proof.
  intros Hd body. unfold body, ElabManager.format_body_from_llm_data.
  split; [|split].
  - rewrite dict_get_del_other by discriminate. exact (dict_get_del_same _ _ Hd).
  - apply dict_get_del_same. apply dict_del_keys. exact Hd.
  - intros N1 N2. rewrite dict_get_del_other by congruence.
    apply dict_get_del_other. congruence.
Qed.

Lemma body_omits_title_and_tags_witness :
  let body := ElabManager.format_body_from_llm_data ethanol in
  dict_get body "title" = None /\
  dict_get body "tags" = None /\
  ("chemical_name" <> "title" -> "chemical_name" <> "tags" ->
   dict_get body "chemical_name" = dict_get ethanol "chemical_name").
Proof.
  apply (body_omits_title_and_tags ethanol "chemical_name"). reflexivity.
Defined.
